(** * A shallow embedding of the Grafana API client core

  The development follows the Go sources of package [gapi]:
  the client ([Config], [Client], [New], [WithOrgID]),
  the request builder [newRequest], the two retrying executors (the
  generic [Request] and the legacy method [request]) and the dashboard
  calls ([dashboard] and [deleteDashboard] with their public entries,
  [NewDashboard], [SaveDashboard], [Dashboards]).

  Go strings and byte slices are Rocq [string]s (sequences of 8-bit
  characters).  Go [int] and [int64] values are [Z].  What the standard
  library does (path cleaning, header canonicalisation, writing and
  parsing a URL, JSON syntax) is written out as executable functions
  following the library's documented algorithm; what the outside world does (the HTTP transport, the process
  environment) is a field of the record [World]. *)

From Stdlib Require Import String Ascii List ZArith Lia Bool Permutation.
From Stdlib Require Import DecimalString DecimalZ DecimalPos.
Import ListNotations.
Open Scope string_scope.

Set Implicit Arguments.
Set Warnings "-register-all".

(* ================================================================== *)
(** ** Strings *)
(* ================================================================== *)

Module Str.

Definition is_empty (s : string) : bool :=
  match s with EmptyString => true | String _ _ => false end.

(** [strings.Split(s, sep)] for a one-byte separator: always at least one
    piece, pieces contain no separator. *)
Fixpoint split (sep : ascii) (s : string) : list string :=
  match s with
  | EmptyString => [EmptyString]
  | String c r =>
      if Ascii.eqb c sep then EmptyString :: split sep r
      else match split sep r with
           | [] => [String c EmptyString]
           | h :: t => String c h :: t
           end
  end.

(** [strings.Join(l, sep)]. *)
Fixpoint join (sep : string) (l : list string) : string :=
  match l with
  | [] => ""
  | [x] => x
  | x :: rest => x ++ sep ++ join sep rest
  end.

Fixpoint take (n : nat) (s : string) : string :=
  match n, s with
  | S n', String c r => String c (take n' r)
  | _, _ => ""
  end.

End Str.

(* ================================================================== *)
(** ** Package [path]: [Clean] and [Join] *)
(* ================================================================== *)

Module GoPath.

Definition slash : ascii := "/"%char.

Definition rooted (p : string) : bool :=
  match p with String c _ => Ascii.eqb c slash | EmptyString => false end.

(** One path element against the elements kept so far (most recent
    first).  Empty elements (doubled or trailing separators) and [.] are
    dropped; [..] removes the element before it, is kept at the start of
    a relative path and is dropped at the root. *)
Definition clean_step (root : bool) (kept : list string) (seg : string)
  : list string :=
  if (seg =? "")%string then kept
  else if (seg =? ".")%string then kept
  else if (seg =? "..")%string then
    match kept with
    | top :: rest => if (top =? "..")%string then seg :: kept else rest
    | [] => if root then [] else [seg]
    end
  else seg :: kept.

Definition clean_segments (root : bool) (segs : list string) : list string :=
  rev (fold_left (clean_step root) segs []).

(** [path.Clean]: the shortest path equivalent to [p]. *)
Definition Clean (p : string) : string :=
  if Str.is_empty p then "."
  else
    let root := rooted p in
    let body := Str.join "/" (clean_segments root (Str.split slash p)) in
    if root then "/" ++ body
    else if Str.is_empty body then "." else body.

(** The buffer [path.Join] builds before cleaning: elements separated by
    one slash, empty elements skipped as long as nothing was written. *)
Fixpoint join_buf (buf : string) (elem : list string) : string :=
  match elem with
  | [] => buf
  | e :: rest =>
      if negb (Str.is_empty buf) || negb (Str.is_empty e)
      then join_buf ((if Str.is_empty buf then "" else buf ++ "/") ++ e) rest
      else join_buf buf rest
  end.

(** [path.Join(elem...)]. *)
Definition Join (elem : list string) : string :=
  if forallb Str.is_empty elem then ""
  else Clean (join_buf "" elem).

End GoPath.

(* ================================================================== *)
(** ** Package [encoding/json]: syntax and [Unmarshal] *)
(* ================================================================== *)

Module JSON.

(** A JSON text as a tree.  Numbers keep their literal; object members
    keep the order of the text. *)
Inductive value :=
| JNull
| JBool (b : bool)
| JNumber (lit : string)
| JString (s : string)
| JArray (items : list value)
| JObject (members : list (string * value)).

Inductive token :=
| TLBrace | TRBrace | TLBracket | TRBracket | TColon | TComma
| TString (s : string) | TNumber (lit : string)
| TTrue | TFalse | TNull.

Definition code (c : ascii) : N := N_of_ascii c.

Definition between (lo hi : N) (c : ascii) : bool :=
  (lo <=? code c)%N && (code c <=? hi)%N.

Definition dquote : ascii := ascii_of_nat 34.
Definition backslash : ascii := ascii_of_nat 92.

Definition is_space (c : ascii) : bool :=
  (code c =? 32)%N || (code c =? 9)%N || (code c =? 13)%N || (code c =? 10)%N.

Definition is_digit : ascii -> bool := between 48 57.

Definition hex_value (c : ascii) : option N :=
  if between 48 57 c then Some (code c - 48)%N
  else if between 97 102 c then Some (code c - 87)%N
  else if between 65 70 c then Some (code c - 55)%N
  else None.

(** The scanner's number states. *)
Inductive nstate := NNeg | NZero | NInt | NDot | NFrac | NE | NESign | NExp.

Definition nstep (st : nstate) (c : ascii) : option nstate :=
  let is_e := (code c =? 101)%N || (code c =? 69)%N in
  let is_dot := (code c =? 46)%N in
  let is_sign := (code c =? 43)%N || (code c =? 45)%N in
  match st with
  | NNeg => if (code c =? 48)%N then Some NZero
            else if between 49 57 c then Some NInt else None
  | NZero => if is_dot then Some NDot else if is_e then Some NE else None
  | NInt => if is_digit c then Some NInt
            else if is_dot then Some NDot else if is_e then Some NE else None
  | NDot => if is_digit c then Some NFrac else None
  | NFrac => if is_digit c then Some NFrac else if is_e then Some NE else None
  | NE => if is_sign then Some NESign
          else if is_digit c then Some NExp else None
  | NESign => if is_digit c then Some NExp else None
  | NExp => if is_digit c then Some NExp else None
  end.

Definition naccept (st : nstate) : bool :=
  match st with NZero | NInt | NFrac | NExp => true | _ => false end.

(** A string under construction: raw bytes and the UTF-16 units written
    as [\uXXXX]. *)
Definition item : Type := ascii + N.

Definition byte_of (n : N) : ascii := ascii_of_N (n mod 256).

(** [utf8.EncodeRune]. *)
Definition utf8_encode (cp : N) : list ascii :=
  if (cp <? 128)%N then [byte_of cp]
  else if (cp <? 2048)%N then
    [byte_of (192 + cp / 64); byte_of (128 + cp mod 64)]
  else if (cp <? 65536)%N then
    [byte_of (224 + cp / 4096); byte_of (128 + (cp / 64) mod 64);
     byte_of (128 + cp mod 64)]
  else
    [byte_of (240 + cp / 262144); byte_of (128 + (cp / 4096) mod 64);
     byte_of (128 + (cp / 64) mod 64); byte_of (128 + cp mod 64)].

Definition is_high (u : N) : bool := (55296 <=? u)%N && (u <? 56320)%N.
Definition is_low (u : N) : bool := (56320 <=? u)%N && (u <? 57344)%N.
Definition replacement : N := 65533.

(** How a byte starts a UTF-8 sequence: the length of the sequence and
    the range of its second byte ([utf8.DecodeRune]'s table); [None] for a
    byte that starts none. *)
Definition utf8_lead (c : ascii) : option (nat * N * N) :=
  let n := code c in
  if (n <? 194)%N then None
  else if (n <? 224)%N then Some (2%nat, 128, 191)%N
  else if (n =? 224)%N then Some (3%nat, 160, 191)%N
  else if (n =? 237)%N then Some (3%nat, 128, 159)%N
  else if (n <? 240)%N then Some (3%nat, 128, 191)%N
  else if (n =? 240)%N then Some (4%nat, 144, 191)%N
  else if (n <? 244)%N then Some (4%nat, 128, 191)%N
  else if (n =? 244)%N then Some (4%nat, 128, 143)%N
  else None.

(** The raw byte of a string, when it lies in a range. *)
Definition raw_between (lo hi : N) (i : item) : bool :=
  match i with
  | inl c => between lo hi c
  | inr _ => false
  end.

(** The bytes of a string are coerced to well-formed UTF-8: a byte that
    does not belong to a well-formed sequence becomes U+FFFD.  Escaped
    UTF-16 units become UTF-8: a high surrogate directly followed by a low
    one is one rune, any other surrogate is U+FFFD. *)
Fixpoint decode_items (l : list item) : list ascii :=
  match l with
  | [] => []
  | inl c :: rest =>
      if (code c <? 128)%N then c :: decode_items rest
      else
        let bad := (utf8_encode replacement ++ decode_items rest)%list in
        match utf8_lead c, rest with
        | Some (2%nat, lo, hi), i2 :: rest2 =>
            if raw_between lo hi i2
            then match i2 with
                 | inl c2 => c :: c2 :: decode_items rest2
                 | inr _ => bad
                 end
            else bad
        | Some (3%nat, lo, hi), i2 :: i3 :: rest3 =>
            if raw_between lo hi i2 && raw_between 128 191 i3
            then match i2, i3 with
                 | inl c2, inl c3 => c :: c2 :: c3 :: decode_items rest3
                 | _, _ => bad
                 end
            else bad
        | Some (4%nat, lo, hi), i2 :: i3 :: i4 :: rest4 =>
            if raw_between lo hi i2 && raw_between 128 191 i3 && raw_between 128 191 i4
            then match i2, i3, i4 with
                 | inl c2, inl c3, inl c4 => c :: c2 :: c3 :: c4 :: decode_items rest4
                 | _, _, _ => bad
                 end
            else bad
        | _, _ => bad
        end
  | inr u :: rest =>
      if is_high u then
        match rest with
        | inr lo :: rest' =>
            if is_low lo
            then (utf8_encode (65536 + (u - 55296) * 1024 + (lo - 56320))
                    ++ decode_items rest')%list
            else (utf8_encode replacement ++ decode_items rest)%list
        | _ => (utf8_encode replacement ++ decode_items rest)%list
        end
      else if is_low u then (utf8_encode replacement ++ decode_items rest)%list
      else (utf8_encode u ++ decode_items rest)%list
  end.

Definition finish_string (acc : list item) : string :=
  string_of_list_ascii (decode_items (rev acc)).

Definition finish_number (acc : list ascii) : string :=
  string_of_list_ascii (rev acc).

(** Where the scanner stands between two bytes. *)
Inductive mode :=
| MTop
| MStr (acc : list item)
| MEsc (acc : list item)
| MUni (acc : list item) (digits : list N)
| MNum (st : nstate) (acc : list ascii)
| MLit (expected : string) (tok : token).

(** A byte read outside any token. *)
Definition top_char (c : ascii) : option (mode * list token) :=
  if is_space c then Some (MTop, [])
  else if (code c =? 123)%N then Some (MTop, [TLBrace])
  else if (code c =? 125)%N then Some (MTop, [TRBrace])
  else if (code c =? 91)%N then Some (MTop, [TLBracket])
  else if (code c =? 93)%N then Some (MTop, [TRBracket])
  else if (code c =? 58)%N then Some (MTop, [TColon])
  else if (code c =? 44)%N then Some (MTop, [TComma])
  else if (code c =? 34)%N then Some (MStr [], [])
  else if (code c =? 116)%N then Some (MLit "rue" TTrue, [])
  else if (code c =? 102)%N then Some (MLit "alse" TFalse, [])
  else if (code c =? 110)%N then Some (MLit "ull" TNull, [])
  else if (code c =? 45)%N then Some (MNum NNeg [c], [])
  else if (code c =? 48)%N then Some (MNum NZero [c], [])
  else if between 49 57 c then Some (MNum NInt [c], [])
  else None.

Definition escape_char (c : ascii) : option ascii :=
  if (code c =? 34)%N then Some dquote
  else if (code c =? 92)%N then Some backslash
  else if (code c =? 47)%N then Some "/"%char
  else if (code c =? 98)%N then Some (ascii_of_nat 8)
  else if (code c =? 102)%N then Some (ascii_of_nat 12)
  else if (code c =? 110)%N then Some (ascii_of_nat 10)
  else if (code c =? 114)%N then Some (ascii_of_nat 13)
  else if (code c =? 116)%N then Some (ascii_of_nat 9)
  else None.

Definition unit_of_digits (ds : list N) : N :=
  fold_left (fun a d => (a * 16 + d)%N) ds 0%N.

(** The lexer: one pass over the bytes; [out] holds the tokens so far, most
    recent first. *)
Fixpoint lex (m : mode) (s : string) (out : list token) : option (list token) :=
  match s with
  | EmptyString =>
      match m with
      | MTop => Some (rev out)
      | MNum st acc =>
          if naccept st then Some (rev (TNumber (finish_number acc) :: out))
          else None
      | _ => None
      end
  | String c r =>
      match m with
      | MTop =>
          match top_char c with
          | Some (m', toks) => lex m' r (toks ++ out)%list
          | None => None
          end
      | MStr acc =>
          if (code c =? 34)%N then lex MTop r (TString (finish_string acc) :: out)
          else if (code c =? 92)%N then lex (MEsc acc) r out
          else if (code c <? 32)%N then None
          else lex (MStr (inl c :: acc)) r out
      | MEsc acc =>
          if (code c =? 117)%N then lex (MUni acc []) r out
          else match escape_char c with
               | Some d => lex (MStr (inl d :: acc)) r out
               | None => None
               end
      | MUni acc ds =>
          match hex_value c with
          | None => None
          | Some d =>
              let ds' := (ds ++ [d])%list in
              if (length ds' =? 4)%nat
              then lex (MStr (inr (unit_of_digits ds') :: acc)) r out
              else lex (MUni acc ds') r out
          end
      | MNum st acc =>
          match nstep st c with
          | Some st' => lex (MNum st' (c :: acc)) r out
          | None =>
              if naccept st then
                match top_char c with
                | Some (m', toks) =>
                    lex m' r (toks ++ TNumber (finish_number acc) :: out)%list
                | None => None
                end
              else None
          end
      | MLit expected tok =>
          match expected with
          | String e rest =>
              if Ascii.eqb c e then
                if Str.is_empty rest then lex MTop r (tok :: out)
                else lex (MLit rest tok) r out
              else None
          | EmptyString => None
          end
      end
  end.

(** An open array or object: what it holds so far (most recent first) and,
    for an object, the key waiting for its value. *)
Inductive frame :=
| FArr (items : list value)
| FObj (members : list (string * value)) (key : option string).

Inductive expect :=
| XValue
| XValueOrEnd
| XKeyOrEnd
| XKey
| XColon
| XNext
| XDone (v : value).

Definition maxNestingDepth : Z := 10000.

(** A finished value goes to the innermost open container, or is the
    result. *)
Definition deliver (v : value) (stack : list frame) : option (expect * list frame) :=
  match stack with
  | [] => Some (XDone v, [])
  | FArr items :: rest => Some (XNext, FArr (v :: items) :: rest)
  | FObj ms (Some k) :: rest => Some (XNext, FObj ((k, v) :: ms) None :: rest)
  | FObj _ None :: _ => None
  end.

Definition open (x : expect) (f : frame) (stack : list frame)
  : option (expect * list frame) :=
  if (Z.of_nat (length (f :: stack)) <=? maxNestingDepth)%Z
  then Some (x, f :: stack) else None.

Definition start_value (t : token) (stack : list frame)
  : option (expect * list frame) :=
  match t with
  | TNull => deliver JNull stack
  | TTrue => deliver (JBool true) stack
  | TFalse => deliver (JBool false) stack
  | TNumber lit => deliver (JNumber lit) stack
  | TString s => deliver (JString s) stack
  | TLBracket => open XValueOrEnd (FArr []) stack
  | TLBrace => open XKeyOrEnd (FObj [] None) stack
  | _ => None
  end.

Definition take_key (t : token) (stack : list frame)
  : option (expect * list frame) :=
  match t, stack with
  | TString k, FObj ms _ :: rest => Some (XColon, FObj ms (Some k) :: rest)
  | _, _ => None
  end.

Definition close (t : token) (stack : list frame)
  : option (expect * list frame) :=
  match t, stack with
  | TRBracket, FArr items :: rest => deliver (JArray (rev items)) rest
  | TRBrace, FObj ms None :: rest => deliver (JObject (rev ms)) rest
  | _, _ => None
  end.

Definition pstep (st : expect * list frame) (t : token)
  : option (expect * list frame) :=
  let (x, stack) := st in
  match x with
  | XValue => start_value t stack
  | XValueOrEnd =>
      match t with TRBracket => close t stack | _ => start_value t stack end
  | XKeyOrEnd =>
      match t with TRBrace => close t stack | _ => take_key t stack end
  | XKey => take_key t stack
  | XColon => match t with TColon => Some (XValue, stack) | _ => None end
  | XNext =>
      match t, stack with
      | TComma, FArr _ :: _ => Some (XValue, stack)
      | TComma, FObj _ _ :: _ => Some (XKey, stack)
      | _, _ => close t stack
      end
  | XDone _ => None
  end.

Fixpoint prun (st : expect * list frame) (toks : list token) : option value :=
  match toks with
  | [] => match st with (XDone v, _) => Some v | _ => None end
  | t :: rest =>
      match pstep st t with
      | Some st' => prun st' rest
      | None => None
      end
  end.

(** The value a JSON text denotes; [None] is a syntax error (what
    [checkValid] reports). *)
Definition parse (data : string) : option value :=
  match lex MTop data [] with
  | Some toks => prun (XValue, []) toks
  | None => None
  end.

Inductive error :=
| SyntaxError
| UnmarshalTypeError (field : string).

Inductive result (A : Type) :=
| Decoded (a : A)
| Failed (e : error).
Arguments Decoded {A} a.
Arguments Failed {A} e.

(** A Go type that [json.Unmarshal] can fill: [fromJSON j v] is [v]
    after the value [j] was stored into it. *)
Class Target (T : Type) := { fromJSON : value -> T -> result T }.

(** [json.Unmarshal(data, &v)]: the text is checked as a whole first, then
    stored. *)
Definition Unmarshal {T : Type} `{Target T} (data : string) (v : T) : result T :=
  match parse data with
  | None => Failed SyntaxError
  | Some j => fromJSON j v
  end.

(** Go's [map[string]interface{}]: [None] is the nil map; a key is bound
    once. *)
Definition object : Type := option (list (string * value)).

Fixpoint map_set (k : string) (v : value) (m : list (string * value))
  : list (string * value) :=
  match m with
  | [] => [(k, v)]
  | (k', v') :: rest =>
      if (k' =? k)%string then (k, v) :: rest else (k', v') :: map_set k v rest
  end.

Fixpoint map_get (k : string) (m : list (string * value)) : option value :=
  match m with
  | [] => None
  | (k', v) :: rest => if (k' =? k)%string then Some v else map_get k rest
  end.

Definition index (m : object) (k : string) : option value :=
  match m with None => None | Some l => map_get k l end.

Definition store_members (m : object) (ms : list (string * value)) : object :=
  Some (fold_left (fun acc kv => map_set (fst kv) (snd kv) acc) ms
          (match m with None => [] | Some l => l end)).

(** The digits of a number literal as a number, with how many there
    are. *)
Fixpoint digits_value (s : string) (acc : N) : N :=
  match s with
  | EmptyString => acc
  | String c r => digits_value r (if is_digit c then acc * 10 + (code c - 48) else acc)%N
  end.

(** A number literal cut in three: the digits before the point, the
    digits after it, and the exponent with its sign. *)
Fixpoint cut_number (s : string) (part : nat) (i f e : string) : string * string * string :=
  match s with
  | EmptyString => (i, f, e)
  | String c r =>
      if (code c =? 46)%N then cut_number r 1 i f e
      else if (code c =? 101)%N || (code c =? 69)%N then cut_number r 2 i f e
      else match part with
           | O => cut_number r part (i ++ String c EmptyString) f e
           | S O => cut_number r part i (f ++ String c EmptyString) e
           | _ => cut_number r part i f (e ++ String c EmptyString)
           end
  end.

Definition has_minus (s : string) : bool :=
  match s with
  | String c _ => (code c =? 45)%N
  | EmptyString => false
  end.

(** The least magnitude that [strconv.ParseFloat(lit, 64)] rounds to
    infinity: half way between the largest float64 and [2^1024]. *)
Definition float64_limit : Z := 2 ^ 1024 - 2 ^ 970.

(** [strconv.ParseFloat(lit, 64)] reports a range error: the magnitude of
    the literal, [m * 10^e], reaches [float64_limit].  (A magnitude too
    small for a float64 is no error.) *)
Definition float64_overflows (lit : string) : bool :=
  let '(i, f, e) := cut_number lit 0 "" "" "" in
  let m := Z.of_N (digits_value (i ++ f) 0) in
  let e := ((if has_minus e then -1 else 1) * Z.of_N (digits_value e 0)
            - Z.of_nat (String.length f))%Z in
  if (m =? 0)%Z then false
  else if (0 <=? e)%Z then
    if (400 <? e)%Z then true else (float64_limit <=? m * 10 ^ e)%Z
  else
    if (Z.of_nat (String.length (i ++ f)) <? - e)%Z then false
    else (float64_limit * 10 ^ (- e) <=? m)%Z.

(** A value can be stored into an [interface{}]: its numbers are in the
    range of float64. *)
Fixpoint storable (v : value) : bool :=
  match v with
  | JNumber lit => negb (float64_overflows lit)
  | JArray items => forallb storable items
  | JObject ms => forallb (fun kv => storable (snd kv)) ms
  | _ => true
  end.

#[global] Instance object_target : Target object :=
  {| fromJSON j m :=
       match j with
       | JNull => Decoded None
       | JObject ms =>
           if forallb (fun kv => storable (snd kv)) ms then Decoded (store_members m ms)
           else Failed (UnmarshalTypeError "")
       | _ => Failed (UnmarshalTypeError "")
       end |}.

End JSON.

(* ================================================================== *)
(** ** Package [gapi]: data *)
(* ================================================================== *)

Module Gapi.

(** *** What the standard library contributes *)

(** [httpguts.IsTokenRune] / [validHeaderFieldByte]: the bytes of an HTTP
    token. *)
Definition is_token_byte (c : ascii) : bool :=
  let n := JSON.code c in
  JSON.between 48 57 c || JSON.between 65 90 c || JSON.between 97 122 c
  || existsb (N.eqb n) [33; 35; 36; 37; 38; 39; 42; 43; 45; 46; 94; 95; 96; 124; 126]%N.

Fixpoint all_bytes (p : ascii -> bool) (s : string) : bool :=
  match s with
  | EmptyString => true
  | String c r => p c && all_bytes p r
  end.

Definition to_upper (c : ascii) : ascii :=
  if JSON.between 97 122 c then ascii_of_N (JSON.code c - 32) else c.

Definition to_lower (c : ascii) : ascii :=
  if JSON.between 65 90 c then ascii_of_N (JSON.code c + 32) else c.

Fixpoint canonical_bytes (upper : bool) (s : string) : string :=
  match s with
  | EmptyString => EmptyString
  | String c r =>
      let c' := if upper then to_upper c else to_lower c in
      String c' (canonical_bytes (Ascii.eqb c' "-"%char) r)
  end.

(** [textproto.CanonicalMIMEHeaderKey]: first letter and letters after a
    hyphen in upper case, the rest in lower case; a key holding a byte that
    is not a token byte is returned as it is. *)
Definition CanonicalMIMEHeaderKey (s : string) : string :=
  if all_bytes is_token_byte s then canonical_bytes true s else s.

(** [http.Header], as the sequence of [Add] calls that built it: the values
    of a key are the entries under that key, in order. *)
Definition Header : Type := list (string * string).

Definition Header_Add (h : Header) (key value : string) : Header :=
  (h ++ [(CanonicalMIMEHeaderKey key, value)])%list.

Definition Header_Values (h : Header) (key : string) : list string :=
  map snd (filter (fun kv => (fst kv =? CanonicalMIMEHeaderKey key)%string) h).

(** [strconv.FormatInt(i, 10)]. *)
Definition FormatInt10 (i : Z) : string := NilZero.string_of_int (Z.to_int i).

(** [url.Userinfo] and the fields of [url.URL] the client touches.  The
    other fields of a URL ([Opaque], [RawPath], [ForceQuery], [Fragment])
    are empty, as [url.Parse] leaves them for a base URL made of scheme,
    credentials, host, path and query. *)
Record Userinfo := { username : string; password : option string }.

Record URL := {
  Scheme : string;
  User : option Userinfo;
  Host : string;
  Path : string;
  RawQuery : string
}.

(** [url.Values]: keys with their values. *)
Definition Values : Type := list (string * list string).

Definition hex_digit (n : N) : ascii :=
  if (n <? 10)%N then ascii_of_N (48 + n) else ascii_of_N (55 + n).

Definition unreserved (c : ascii) : bool :=
  JSON.between 48 57 c || JSON.between 65 90 c || JSON.between 97 122 c
  || existsb (N.eqb (JSON.code c)) [45; 95; 46; 126]%N.

(** [url.QueryEscape]. *)
Fixpoint QueryEscape (s : string) : string :=
  match s with
  | EmptyString => EmptyString
  | String c r =>
      if unreserved c then String c (QueryEscape r)
      else if (JSON.code c =? 32)%N then String "+"%char (QueryEscape r)
      else String "%"%char
             (String (hex_digit (JSON.code c / 16))
                (String (hex_digit (JSON.code c mod 16)) (QueryEscape r)))
  end.

Fixpoint insert_sorted (kv : string * list string) (l : Values) : Values :=
  match l with
  | [] => [kv]
  | kv' :: rest =>
      if String.leb (fst kv) (fst kv') then kv :: l
      else kv' :: insert_sorted kv rest
  end.

Definition sort_keys (v : Values) : Values := fold_right insert_sorted [] v.

(** [Values.Encode]: [k=v] pairs joined by [&], keys in sorted order. *)
Definition Values_Encode (v : Values) : string :=
  Str.join "&"
    (flat_map (fun kv => map (fun x => QueryEscape (fst kv) ++ "=" ++ QueryEscape x)
                             (snd kv))
              (sort_keys v)).

(** The dynamic type and content of an [io.Reader] handed over as a request
    body. *)
Inductive Reader :=
| BytesBuffer (unread : string)
| BytesReader (unread : string)
| TeeReader (r : Reader)
| OtherReader (unread : string).

(** The bytes a reader yields when read to its end. *)
Fixpoint Reader_bytes (r : Reader) : string :=
  match r with
  | BytesBuffer s | BytesReader s | OtherReader s => s
  | TeeReader r' => Reader_bytes r'
  end.

Definition Reader_type (r : Reader) : string :=
  match r with
  | BytesBuffer _ => "*bytes.Buffer"
  | BytesReader _ => "*bytes.Reader"
  | TeeReader _ => "*io.teeReader"
  | OtherReader _ => "io.Reader"
  end.

(** [http.Request]. *)
Record http_Request := {
  Method : string;
  ReqURL : URL;
  ReqHeader : Header;
  ReqBody : option Reader
}.

Definition body_bytes (req : http_Request) : option string :=
  option_map Reader_bytes (ReqBody req).

(** [http.Response], with what [ioutil.ReadAll] makes of its body: the
    bytes read and the error that stopped the read, if any. *)
Record http_Response := {
  StatusCode : Z;
  ReadAll : string * option string
}.

(** One [client.Do(req)]: the response pointer and error it returns, and
    how many bytes of the request body the transport read before it
    returned. *)
Record RoundTrip := {
  consumed : nat;
  resp_of : option http_Response;
  err_of : option string
}.

(** *** The client *)

(** [Config].  The header map is a Go map, that is a reference: [None] is
    nil, [Some a] the map at address [a] of the world's store.  [BasicAuth]
    and [Config_Client] are pointers to values this package only reads. *)
Record Config := {
  APIKey : string;
  BasicAuth : option Userinfo;
  HTTPHeaders : option nat;
  Config_Client : option nat;
  OrgID : Z;
  NumRetries : Z
}.

(** [Client]; [client] is the [*http.Client] it sends with. *)
Record Client := {
  config : Config;
  baseURL : URL;
  client : nat
}.

(** What a call depends on outside its arguments. *)
Record World := {
  (** [os.Getenv("GF_LOG")] *)
  GF_LOG : string;
  (** the entries of the header map at an address, in the order [range]
      visits them *)
  header_map : nat -> list (string * string);
  (** the error of [url.Parse] on a URL's text, if it has one *)
  url_Parse_error : URL -> option string;
  (** [Do hc n req]: what the HTTP client [hc] answers to the call's send
      number [n] *)
  Do : nat -> Z -> http_Request -> RoundTrip
}.

Inductive error :=
| MarshalError (msg : string)
| NewRequestError (msg : string)
| TransportError (msg : string)
| ReadError (msg : string)
| UnmarshalError (e : JSON.error)
| ErrorResponseUnmarshalError (responseBytes : string) (status : Z) (e : JSON.error)
| APIError (status : Z) (Body : JSON.object)
| StatusError (status : Z) (body : string).

Inductive panic :=
| NilPointerDereference
| InterfaceConversion (dynamic : string).

(** The three ways a Go call ends. *)
Inductive result (A : Type) :=
| Ok (a : A)
| Err (e : error)
| Panic (p : panic).
Arguments Ok {A} a.
Arguments Err {A} e.
Arguments Panic {A} p.

(** What a call does that the outside can see. *)
Inductive event :=
| EvLogRequest (method : string) (u : URL) (body : option string)
| EvLogResponse (status : Z) (body : string)
| EvSleep (seconds : Z)
| EvDo (n : Z) (req : http_Request).

Definition trace : Type := list event.

Definition after {A : Type} (evs : trace) (r : trace * A) : trace * A :=
  ((evs ++ fst r)%list, snd r).

(** A Go type that [json.Marshal] accepts. *)
Class Marshaler (T : Type) := { Marshal : T -> string + string }.

(** The zero value of a Go type. *)
Class Zero (T : Type) := { zero : T }.

(** *** [WithOrgID] *)

(** Clients live in a heap; a [*Client] is an index into it. *)
Definition Heap : Type := list Client.

Definition deref (h : Heap) (p : nat) : option Client := nth_error h p.

Definition alloc (h : Heap) (c : Client) : Heap * nat :=
  ((h ++ [c])%list, length h).

Definition set_OrgID (cfg : Config) (orgID : Z) : Config :=
  {| APIKey := APIKey cfg; BasicAuth := BasicAuth cfg;
     HTTPHeaders := HTTPHeaders cfg; Config_Client := Config_Client cfg;
     OrgID := orgID; NumRetries := NumRetries cfg |}.

(** [func (c Client) WithOrgID(orgID int64) *Client]: the receiver is a
    copy of the caller's client; the copy's [config.OrgID] is assigned and
    the copy's address returned. *)
Definition WithOrgID (c : Client) (orgID : Z) (h : Heap) : Heap * nat :=
  let c' := {| config := set_OrgID (config c) orgID;
               baseURL := baseURL c; client := client c |} in
  alloc h c'.

(** [m[k] = v] on the header map at address [a]. *)
Fixpoint assoc_set (k v : string) (m : list (string * string))
  : list (string * string) :=
  match m with
  | [] => [(k, v)]
  | (k', v') :: rest =>
      if (k' =? k)%string then (k, v) :: rest else (k', v') :: assoc_set k v rest
  end.

Definition header_map_set (w : World) (a : nat) (k v : string) : World :=
  {| GF_LOG := GF_LOG w;
     header_map := fun a' => if Nat.eqb a' a then assoc_set k v (header_map w a')
                             else header_map w a';
     url_Parse_error := url_Parse_error w;
     Do := Do w |}.

(** *** [newRequest] *)

Definition validMethod (method : string) : bool :=
  negb (Str.is_empty method) && all_bytes is_token_byte method.

(** [strings.ToLower] on a scheme, whose bytes are ASCII. *)
Fixpoint ToLower (s : string) : string :=
  match s with
  | EmptyString => EmptyString
  | String c r => String (to_lower c) (ToLower r)
  end.

(** [s] up to its first separator, and [s] from that separator on. *)
Fixpoint cut_slash (s : string) : string * string :=
  match s with
  | EmptyString => (EmptyString, EmptyString)
  | String c r =>
      if Ascii.eqb c GoPath.slash then (EmptyString, s)
      else (String c (fst (cut_slash r)), snd (cut_slash r))
  end.

Fixpoint has_colon (s : string) : bool :=
  match s with
  | EmptyString => false
  | String c r => Ascii.eqb c ":"%char || has_colon r
  end.

(** [removeEmptyPort]: a host that ends in a colon loses it. *)
Fixpoint removeEmptyPort (host : string) : string :=
  match host with
  | EmptyString => EmptyString
  | String c EmptyString => if Ascii.eqb c ":"%char then EmptyString else host
  | String c r => String c (removeEmptyPort r)
  end.

(** The URL of the request that [http.NewRequest] makes of [u.String()]:
    [u] is written out and parsed again, and an empty port is removed from
    the host.  Field by field, for a text that parses and a [u] whose path
    is what [path.Join] returns (empty or clean) and whose other fields
    ([Opaque], [RawPath], [Fragment], [ForceQuery]) are empty:
    - the scheme comes back in lower case, the credentials and the query
      as they are;
    - with a host, [String] puts a separator between the host and a path
      that does not start with one, so the path comes back rooted;
    - without a host but with a scheme or credentials, [String] still
      writes the two separators of an authority: a rooted path comes back
      as it is, and of a path that is not rooted the first element is read
      as the host (as it is when it is a host name) and the rest as the
      path;
    - with none of the three the path comes back as it is, behind [./]
      when its first element holds a colon. *)
Definition reparsed (u : URL) : URL :=
  let has_host := negb (Str.is_empty (Host u)) in
  let has_authority :=
    negb (Str.is_empty (Scheme u)) || has_host
    || match User u with Some _ => true | None => false end in
  let relative := negb (Str.is_empty (Path u)) && negb (GoPath.rooted (Path u)) in
  let host_path :=
    if has_host then (Host u, if relative then "/" ++ Path u else Path u)
    else if has_authority then
      if relative then cut_slash (Path u) else (EmptyString, Path u)
    else if relative && has_colon (fst (cut_slash (Path u)))
         then (EmptyString, "./" ++ Path u)
         else (EmptyString, Path u) in
  {| Scheme := ToLower (Scheme u); User := User u;
     Host := removeEmptyPort (fst host_path); Path := snd host_path;
     RawQuery := RawQuery u |}.

(** [http.NewRequest(method, url.String(), body)]: an empty method means
    GET; the method must be a token and the URL text must parse; the
    request's URL is the parsed text. *)
Definition http_NewRequest (w : World) (method : string) (u : URL)
    (body : option Reader) : string + http_Request :=
  let method := if Str.is_empty method then "GET" else method in
  if validMethod method then
    match url_Parse_error w u with
    | Some e => inl e
    | None => inr {| Method := method; ReqURL := reparsed u; ReqHeader := [];
                     ReqBody := body |}
    end
  else inl "net/http: invalid method".

Definition set_Header (req : http_Request) (h : Header) : http_Request :=
  {| Method := Method req; ReqURL := ReqURL req; ReqHeader := h; ReqBody := ReqBody req |}.

Definition logging (w : World) : bool := negb (Str.is_empty (GF_LOG w)).

(** The verbose-logging block of [newRequest]: the body is asserted to be a
    [*bytes.Buffer]. *)
Definition log_request (w : World) (method : string) (u : URL)
    (body : option Reader) : trace * option panic :=
  if logging w then
    match body with
    | None => ([EvLogRequest method u None], None)
    | Some (BytesBuffer s) => ([EvLogRequest method u (Some s)], None)
    | Some r => ([], Some (InterfaceConversion (Reader_type r)))
    end
  else ([], None).

Definition request_url (c : Client) (requestPath : string) (query : Values) : URL :=
  {| Scheme := Scheme (baseURL c); User := User (baseURL c); Host := Host (baseURL c);
     Path := GoPath.Join [Path (baseURL c); requestPath];
     RawQuery := Values_Encode query |}.

Definition custom_headers (w : World) (c : Client) : list (string * string) :=
  match HTTPHeaders (config c) with
  | None => []
  | Some a => header_map w a
  end.

(** The headers [newRequest] adds from the configuration: the bearer
    token, the organization id, then every entry of the header map. *)
Definition configured_headers (w : World) (c : Client) (h : Header) : Header :=
  let h := if negb (Str.is_empty (APIKey (config c)))
           then Header_Add h "Authorization" ("Bearer " ++ APIKey (config c))
           else h in
  let h := if negb (OrgID (config c) =? 0)%Z
           then Header_Add h "X-Grafana-Org-Id" (FormatInt10 (OrgID (config c)))
           else h in
  fold_left (fun h kv => Header_Add h (fst kv) (snd kv)) (custom_headers w c) h.

Definition newRequest (w : World) (c : Client) (method requestPath : string)
    (query : Values) (body : option Reader) : trace * result http_Request :=
  let url := request_url c requestPath query in
  match http_NewRequest w method url body with
  | inl e => ([], Err (NewRequestError e))
  | inr req =>
      let h := configured_headers w c (ReqHeader req) in
      match log_request w method url body with
      | (_, Some p) => ([], Panic p)
      | (log, None) =>
          let h := Header_Add h "Content-Type" "application/json" in
          (log, Ok (set_Header req h))
      end
  end.

(** *** The retrying executors *)

(** How a retry loop is left: by [return] from inside it, by a panic, or
    through its end or [break] with the variables it assigned. *)
Inductive loop_exit (S : Type) :=
| LoopReturn (e : error)
| LoopPanic (p : panic)
| LoopEnd (s : S).
Arguments LoopReturn {S} e.
Arguments LoopPanic {S} p.
Arguments LoopEnd {S} s.

(** [resp.StatusCode < http.StatusInternalServerError &&
     resp.StatusCode != http.StatusTooManyRequests] *)
Definition final (status : Z) : bool :=
  (status <? 500)%Z && negb (status =? 429)%Z.

(** The number of times [for n := 0; n <= c.config.NumRetries; n++] runs
    its body when nothing leaves it early. *)
Definition iterations (c : Client) : nat := Z.to_nat (NumRetries (config c) + 1).

Definition sleep_before (n : Z) : trace :=
  if (n =? 0)%Z then [] else [EvSleep 5].

(** [requestBytes] after the first lines of [Request]: nil when there is
    no request body, else what [json.Marshal] gives (or its error). *)
Definition marshal_body {ReqT : Type} `{Marshaler ReqT} (requestBody : option ReqT)
  : string + string :=
  match requestBody with
  | None => inl EmptyString
  | Some b => Marshal b
  end.

(** What a trace says about the attempts made. *)
Definition is_Do (e : event) : bool :=
  match e with EvDo _ _ => true | _ => false end.

Definition attempts (tr : trace) : nat := length (filter is_Do tr).

Definition sent_requests (tr : trace) : list http_Request :=
  flat_map (fun e => match e with EvDo _ req => [req] | _ => [] end) tr.

Definition sent_bodies (tr : trace) : list (option string) :=
  map body_bytes (sent_requests tr).

Definition sleeps (tr : trace) : list Z :=
  flat_map (fun e => match e with EvSleep s => [s] | _ => [] end) tr.

Section Executors.

Variable w : World.
Variable c : Client.
Variables method requestPath : string.
Variable query : Values.

(** **** The generic [Request] *)

(** The variables of [Request] that its loop assigns: [resp] and
    [responseBytes].  The loop's [err] is not among them: [req, err :=
    c.newRequest(...)] declares an [err] of the loop body, and the
    assignments from [c.client.Do] and [ioutil.ReadAll] go to that one. *)
Record Request_vars := {
  resp : option http_Response;
  responseBytes : string
}.

(** [k] counts the iterations left, [n] is the loop counter. *)
Fixpoint Request_loop (requestBytes : string) (k : nat) (n : Z) (v : Request_vars)
  : trace * loop_exit Request_vars :=
  match k with
  | O => ([], LoopEnd v)
  | S k' =>
      match newRequest w c method requestPath query (Some (BytesReader requestBytes)) with
      | (log, Err e) => (log, LoopReturn e)
      | (log, Panic p) => (log, LoopPanic p)
      | (log, Ok req) =>
          let rt := Do w (client c) n req in
          let evs := (log ++ sleep_before n ++ [EvDo n req])%list in
          match err_of rt with
          | Some _ =>
              after evs (Request_loop requestBytes k' (n + 1)
                           {| resp := resp_of rt; responseBytes := responseBytes v |})
          | None =>
              match resp_of rt with
              | None => (evs, LoopPanic NilPointerDereference)
              | Some r =>
                  let v' := {| resp := Some r; responseBytes := fst (ReadAll r) |} in
                  match snd (ReadAll r) with
                  | Some _ => after evs (Request_loop requestBytes k' (n + 1) v')
                  | None =>
                      if final (StatusCode r) then (evs, LoopEnd v')
                      else after evs (Request_loop requestBytes k' (n + 1) v')
                  end
              end
          end
      end
  end.

(** [var resp *http.Response] and [var responseBytes []byte] before the
    loop. *)
Definition Request_start : Request_vars :=
  {| resp := None; responseBytes := EmptyString |}.

(** What [Request] does with the variables the loop left, from
    [if err != nil] on; [err] is the function's own variable. *)
Definition Request_finish {ResT : Type} `{JSON.Target ResT} `{Zero ResT}
    (err : option error) (v : Request_vars) : result ResT :=
  match err with
  | Some e => Err e
  | None =>
      match resp v with
      | None => Panic NilPointerDereference
      | Some r =>
          if (StatusCode r >=? 400)%Z then
            match JSON.Unmarshal (responseBytes v) (None : JSON.object) with
            | JSON.Failed e =>
                Err (ErrorResponseUnmarshalError (responseBytes v) (StatusCode r) e)
            | JSON.Decoded errContent => Err (APIError (StatusCode r) errContent)
            end
          else
            match JSON.Unmarshal (responseBytes v) (zero : ResT) with
            | JSON.Failed e => Err (UnmarshalError e)
            | JSON.Decoded responseStruct => Ok responseStruct
            end
      end
  end.

Definition Request {ReqT ResT : Type} `{Marshaler ReqT} `{JSON.Target ResT} `{Zero ResT}
    (requestBody : option ReqT) : trace * result ResT :=
  match marshal_body requestBody with
  | inr e => ([], Err (MarshalError e))
  | inl requestBytes =>
      let err : option error := None in
      match Request_loop requestBytes (iterations c) 0 Request_start with
      | (tr, LoopReturn e) => (tr, Err e)
      | (tr, LoopPanic p) => (tr, Panic p)
      | (tr, LoopEnd v) => (tr, Request_finish err v)
      end
  end.

(** **** The legacy [request] *)

(** The variables of [request] that its loop assigns. *)
Record request_vars := {
  body : option Reader;
  bodyBuffer : string;
  l_resp : option http_Response;
  l_err : option error;
  bodyContents : string
}.

(** What reading [k] bytes of the request body writes to [bodyBuffer]:
    a [TeeReader] copies what is read from it, other readers nothing. *)
Definition tee (b : option Reader) (k : nat) (buf : string) : string :=
  match b with
  | Some (TeeReader r) => buf ++ Str.take k (Reader_bytes r)
  | _ => buf
  end.

Fixpoint request_loop (k : nat) (n : Z) (v : request_vars)
  : trace * loop_exit request_vars :=
  match k with
  | O => ([], LoopEnd v)
  | S k' =>
      let body' := if (n >? 0)%Z then Some (BytesReader (bodyBuffer v)) else body v in
      match newRequest w c method requestPath query body' with
      | (log, Err e) => (log, LoopReturn e)
      | (log, Panic p) => (log, LoopPanic p)
      | (log, Ok req) =>
          let rt := Do w (client c) n req in
          let evs := (log ++ sleep_before n ++ [EvDo n req])%list in
          let buf := tee body' (consumed rt) (bodyBuffer v) in
          match err_of rt with
          | Some e =>
              after evs (request_loop k' (n + 1)
                           {| body := body'; bodyBuffer := buf; l_resp := resp_of rt;
                              l_err := Some (TransportError e);
                              bodyContents := bodyContents v |})
          | None =>
              match resp_of rt with
              | None => (evs, LoopPanic NilPointerDereference)
              | Some r =>
                  let v' := {| body := body'; bodyBuffer := buf; l_resp := Some r;
                               l_err := option_map ReadError (snd (ReadAll r));
                               bodyContents := fst (ReadAll r) |} in
                  match snd (ReadAll r) with
                  | Some _ => after evs (request_loop k' (n + 1) v')
                  | None =>
                      if final (StatusCode r) then (evs, LoopEnd v')
                      else after evs (request_loop k' (n + 1) v')
                  end
              end
          end
      end
  end.

(** [request] from [if err != nil] on.  [responseStruct] is [None] for a
    nil interface and [Some v] for a pointer to a variable holding [v]; the
    result is what that variable holds in the end. *)
Definition request_finish {T : Type} `{JSON.Target T}
    (responseStruct : option T) (v : request_vars) : trace * result (option T) :=
  match l_err v with
  | Some e => ([], Err e)
  | None =>
      match l_resp v with
      | None => ([], Panic NilPointerDereference)
      | Some r =>
          let log := if logging w
                     then [EvLogResponse (StatusCode r) (bodyContents v)] else [] in
          if (StatusCode r >=? 400)%Z
          then (log, Err (StatusError (StatusCode r) (bodyContents v)))
          else
            match responseStruct with
            | None => (log, Ok None)
            | Some target =>
                match JSON.Unmarshal (bodyContents v) target with
                | JSON.Failed e => (log, Err (UnmarshalError e))
                | JSON.Decoded target' => (log, Ok (Some target'))
                end
            end
      end
  end.

(** The variables before the loop: with retries configured and a body
    given, the body is read through a [TeeReader] that fills
    [bodyBuffer]. *)
Definition request_start (body0 : option Reader) : request_vars :=
  {| body := match body0 with
             | Some r => if (NumRetries (config c) >? 0)%Z then Some (TeeReader r) else body0
             | None => None
             end;
     bodyBuffer := EmptyString; l_resp := None; l_err := None;
     bodyContents := EmptyString |}.

Definition request {T : Type} `{JSON.Target T}
    (body0 : option Reader) (responseStruct : option T) : trace * result (option T) :=
  match request_loop (iterations c) 0 (request_start body0) with
  | (tr, LoopReturn e) => (tr, Err e)
  | (tr, LoopPanic p) => (tr, Panic p)
  | (tr, LoopEnd v) => after tr (request_finish responseStruct v)
  end.

End Executors.

(** *** Dashboards *)

(** A Go pointer used as decoding target: nil, or the address of a
    variable holding [v]. *)
Inductive pointer (T : Type) :=
| nil
| addr (v : T).
Arguments nil {T}.
Arguments addr {T} v.

Record DashboardMeta := {
  IsStarred : bool;
  Slug : string;
  Folder : Z;
  URL_ : string
}.

Record Dashboard_ := {
  Meta : DashboardMeta;
  Model : JSON.object;
  FolderID : Z;
  FolderUID : string;
  Overwrite : bool;
  Message : string
}.

#[global] Instance Zero_DashboardMeta : Zero DashboardMeta :=
  {| zero := {| IsStarred := false; Slug := EmptyString; Folder := 0; URL_ := EmptyString |} |}.

#[global] Instance Zero_Dashboard : Zero Dashboard_ :=
  {| zero := {| Meta := zero; Model := None; FolderID := 0; FolderUID := EmptyString;
                Overwrite := false; Message := EmptyString |} |}.

#[global] Instance Zero_object : Zero JSON.object := {| zero := None |}.

#[global] Instance Zero_int64 : Zero Z := {| zero := 0%Z |}.

(** [result.FolderID = result.Meta.Folder] *)
Definition set_FolderID (d : Dashboard_) (f : Z) : Dashboard_ :=
  {| Meta := Meta d; Model := Model d; FolderID := f; FolderUID := FolderUID d;
     Overwrite := Overwrite d; Message := Message d |}.

(** **** Decoding into the dashboard types, as [encoding/json] does it for
    their field tags. *)

(** Simple case folding against tags that are ASCII: letters in lower
    case, and the two runes outside ASCII that fold with an ASCII letter,
    U+017F (long s, bytes C5 BF) and U+212A (Kelvin sign, bytes E2 84 AA),
    as [s] and [k]. *)
Fixpoint fold_bytes (l : list ascii) : list ascii :=
  match l with
  | [] => []
  | c1 :: rest1 =>
      match rest1 with
      | c2 :: rest2 =>
          if (JSON.code c1 =? 197)%N && (JSON.code c2 =? 191)%N
          then "s"%char :: fold_bytes rest2
          else
            match rest2 with
            | c3 :: rest3 =>
                if (JSON.code c1 =? 226)%N && (JSON.code c2 =? 132)%N
                   && (JSON.code c3 =? 170)%N
                then "k"%char :: fold_bytes rest3
                else to_lower c1 :: fold_bytes rest1
            | [] => to_lower c1 :: fold_bytes rest1
            end
      | [] => [to_lower c1]
      end
  end.

Definition fold_case (s : string) : string :=
  string_of_list_ascii (fold_bytes (list_ascii_of_string s)).

(** A member key names a field when it equals the field's tag under simple
    case folding. *)
Definition names (key tag : string) : bool := (fold_case key =? fold_case tag)%string.

Definition min_int64 : Z := - 2 ^ 63.
Definition max_int64 : Z := 2 ^ 63 - 1.

(** [strconv.ParseInt(lit, 10, 64)] on a JSON number literal. *)
Definition int64_of_literal (lit : string) : option Z :=
  match NilZero.int_of_string lit with
  | Some d =>
      let z := Z.of_int d in
      if (min_int64 <=? z)%Z && (z <=? max_int64)%Z then Some z else None
  | None => None
  end.

Definition decode_int64 (tag : string) (j : JSON.value) (old : Z) : JSON.result Z :=
  match j with
  | JSON.JNull => JSON.Decoded old
  | JSON.JNumber lit =>
      match int64_of_literal lit with
      | Some z => JSON.Decoded z
      | None => JSON.Failed (JSON.UnmarshalTypeError tag)
      end
  | _ => JSON.Failed (JSON.UnmarshalTypeError tag)
  end.

Definition decode_string (tag : string) (j : JSON.value) (old : string)
  : JSON.result string :=
  match j with
  | JSON.JNull => JSON.Decoded old
  | JSON.JString s => JSON.Decoded s
  | _ => JSON.Failed (JSON.UnmarshalTypeError tag)
  end.

Definition decode_bool (tag : string) (j : JSON.value) (old : bool)
  : JSON.result bool :=
  match j with
  | JSON.JNull => JSON.Decoded old
  | JSON.JBool b => JSON.Decoded b
  | _ => JSON.Failed (JSON.UnmarshalTypeError tag)
  end.

Definition bind {A B : Type} (r : JSON.result A) (f : A -> JSON.result B)
  : JSON.result B :=
  match r with
  | JSON.Decoded a => f a
  | JSON.Failed e => JSON.Failed e
  end.

(** Members are stored one after the other; a member that names no field
    is skipped. *)
Fixpoint decode_members {T : Type} (field : string -> JSON.value -> T -> option (JSON.result T))
    (ms : list (string * JSON.value)) (v : T) : JSON.result T :=
  match ms with
  | [] => JSON.Decoded v
  | (k, j) :: rest =>
      match field k j v with
      | None => decode_members field rest v
      | Some r => bind r (decode_members field rest)
      end
  end.

Definition decode_struct {T : Type} (field : string -> JSON.value -> T -> option (JSON.result T))
    (j : JSON.value) (v : T) : JSON.result T :=
  match j with
  | JSON.JNull => JSON.Decoded v
  | JSON.JObject ms => decode_members field ms v
  | _ => JSON.Failed (JSON.UnmarshalTypeError EmptyString)
  end.

Definition DashboardMeta_field (k : string) (j : JSON.value) (m : DashboardMeta)
  : option (JSON.result DashboardMeta) :=
  if names k "isStarred" then
    Some (bind (decode_bool "isStarred" j (IsStarred m)) (fun b =>
      JSON.Decoded {| IsStarred := b; Slug := Slug m; Folder := Folder m; URL_ := URL_ m |}))
  else if names k "slug" then
    Some (bind (decode_string "slug" j (Slug m)) (fun s =>
      JSON.Decoded {| IsStarred := IsStarred m; Slug := s; Folder := Folder m; URL_ := URL_ m |}))
  else if names k "folderId" then
    Some (bind (decode_int64 "folderId" j (Folder m)) (fun z =>
      JSON.Decoded {| IsStarred := IsStarred m; Slug := Slug m; Folder := z; URL_ := URL_ m |}))
  else if names k "url" then
    Some (bind (decode_string "url" j (URL_ m)) (fun s =>
      JSON.Decoded {| IsStarred := IsStarred m; Slug := Slug m; Folder := Folder m; URL_ := s |}))
  else None.

#[global] Instance DashboardMeta_target : JSON.Target DashboardMeta :=
  {| JSON.fromJSON := decode_struct DashboardMeta_field |}.

Definition Dashboard_field (k : string) (j : JSON.value) (d : Dashboard_)
  : option (JSON.result Dashboard_) :=
  if names k "meta" then
    Some (bind (JSON.fromJSON j (Meta d)) (fun m =>
      JSON.Decoded {| Meta := m; Model := Model d; FolderID := FolderID d;
                      FolderUID := FolderUID d; Overwrite := Overwrite d;
                      Message := Message d |}))
  else if names k "dashboard" then
    Some (bind (JSON.fromJSON j (Model d)) (fun m =>
      JSON.Decoded {| Meta := Meta d; Model := m; FolderID := FolderID d;
                      FolderUID := FolderUID d; Overwrite := Overwrite d;
                      Message := Message d |}))
  else if names k "folderId" then
    Some (bind (decode_int64 "folderId" j (FolderID d)) (fun z =>
      JSON.Decoded (set_FolderID d z)))
  else if names k "folderUid" then
    Some (bind (decode_string "folderUid" j (FolderUID d)) (fun s =>
      JSON.Decoded {| Meta := Meta d; Model := Model d; FolderID := FolderID d;
                      FolderUID := s; Overwrite := Overwrite d; Message := Message d |}))
  else if names k "overwrite" then
    Some (bind (decode_bool "overwrite" j (Overwrite d)) (fun b =>
      JSON.Decoded {| Meta := Meta d; Model := Model d; FolderID := FolderID d;
                      FolderUID := FolderUID d; Overwrite := b; Message := Message d |}))
  else if names k "message" then
    Some (bind (decode_string "message" j (Message d)) (fun s =>
      JSON.Decoded {| Meta := Meta d; Model := Model d; FolderID := FolderID d;
                      FolderUID := FolderUID d; Overwrite := Overwrite d; Message := s |}))
  else None.

#[global] Instance Dashboard_target : JSON.Target Dashboard_ :=
  {| JSON.fromJSON := decode_struct Dashboard_field |}.

(** Decoding into a pointer: [null] makes it nil; any other value is stored
    into what it points to, a new zero value if it was nil. *)
#[global] Instance pointer_target (T : Type) `{JSON.Target T} `{Zero T}
  : JSON.Target (pointer T) :=
  {| JSON.fromJSON j p :=
       match j with
       | JSON.JNull => JSON.Decoded nil
       | _ => bind (JSON.fromJSON j (match p with addr v => v | nil => zero end))
                   (fun v => JSON.Decoded (addr v))
       end |}.

#[global] Instance int64_target : JSON.Target Z :=
  {| JSON.fromJSON := decode_int64 EmptyString |}.

#[global] Instance int64_marshaler : Marshaler Z :=
  {| Marshal i := inl (FormatInt10 i) |}.

(** The method [dashboard(path)] of [Client]:
    [result] starts as the address of a zero [Dashboard], [&result] is the
    decoding target, and [result.FolderID] is assigned through whatever
    [result] is afterwards. *)
Definition dashboard (w : World) (c : Client) (path : string)
  : trace * result Dashboard_ :=
  let result0 : pointer Dashboard_ := addr zero in
  match request w c "GET" path [] None (Some result0) with
  | (tr, Err e) => (tr, Err e)
  | (tr, Panic p) => (tr, Panic p)
  | (tr, Ok r) =>
      match (match r with Some p => p | None => result0 end) with
      | nil => (tr, Panic NilPointerDereference)
      | addr d => (tr, Ok (set_FolderID d (Folder (Meta d))))
      end
  end.

(** [Dashboard(slug)], deprecated in the source in favour of
    [DashboardByUID]. *)
Definition Dashboard (w : World) (c : Client) (slug : string) : trace * result Dashboard_ :=
  dashboard w c ("/api/dashboards/db/" ++ slug).

Definition DashboardByUID (w : World) (c : Client) (uid : string) : trace * result Dashboard_ :=
  dashboard w c ("/api/dashboards/uid/" ++ uid).

(** [deleteDashboard]: no body, no output struct. *)
Definition deleteDashboard (w : World) (c : Client) (path : string) : trace * result unit :=
  match request (T := JSON.object) w c "DELETE" path [] None None with
  | (tr, Err e) => (tr, Err e)
  | (tr, Panic p) => (tr, Panic p)
  | (tr, Ok _) => (tr, Ok tt)
  end.

(** *** [New] *)

(** [New(baseURL, cfg)].  [url_Parse] is [url.Parse] on the text given
    ([inl] its error) and [DefaultClient] the client that
    [cleanhttp.DefaultClient()] allocates for this call. *)
Definition New (url_Parse : string -> string + URL) (DefaultClient : nat)
    (baseURL : string) (cfg : Config) : string + Client :=
  match url_Parse baseURL with
  | inl err => inl err
  | inr u =>
      let u := match BasicAuth cfg with
               | Some auth =>
                   {| Scheme := Scheme u; User := Some auth; Host := Host u;
                      Path := Path u; RawQuery := RawQuery u |}
               | None => u
               end in
      let cli := match Config_Client cfg with
                 | Some cli => cli
                 | None => DefaultClient
                 end in
      inr {| config := cfg; baseURL := u; client := cli |}
  end.

(** *** The other dashboard endpoints *)

(** [url.Values.Set(key, value)]: the key's values become the one
    value. *)
Fixpoint Values_Set (v : Values) (key value : string) : Values :=
  match v with
  | [] => [(key, [value])]
  | (k, vs) :: rest =>
      if (k =? key)%string then (key, [value]) :: rest
      else (k, vs) :: Values_Set rest key value
  end.

(** [DeleteDashboard(slug)], deprecated in the source, and
    [DeleteDashboardByUID(uid)]. *)
Definition DeleteDashboard (w : World) (c : Client) (slug : string) : trace * result unit :=
  deleteDashboard w c ("/api/dashboards/db/" ++ slug).

Definition DeleteDashboardByUID (w : World) (c : Client) (uid : string)
  : trace * result unit :=
  deleteDashboard w c ("/api/dashboards/uid/" ++ uid).

(** [DashboardSaveResponse]. *)
Module SaveResponse.

Record t := {
  Slug : string;
  ID : Z;
  UID : string;
  Status : string;
  Version : Z
}.

Definition field (k : string) (j : JSON.value) (r : t) : option (JSON.result t) :=
  if names k "slug" then
    Some (bind (decode_string "slug" j (Slug r)) (fun s =>
      JSON.Decoded {| Slug := s; ID := ID r; UID := UID r; Status := Status r;
                      Version := Version r |}))
  else if names k "id" then
    Some (bind (decode_int64 "id" j (ID r)) (fun z =>
      JSON.Decoded {| Slug := Slug r; ID := z; UID := UID r; Status := Status r;
                      Version := Version r |}))
  else if names k "uid" then
    Some (bind (decode_string "uid" j (UID r)) (fun s =>
      JSON.Decoded {| Slug := Slug r; ID := ID r; UID := s; Status := Status r;
                      Version := Version r |}))
  else if names k "status" then
    Some (bind (decode_string "status" j (Status r)) (fun s =>
      JSON.Decoded {| Slug := Slug r; ID := ID r; UID := UID r; Status := s;
                      Version := Version r |}))
  else if names k "version" then
    Some (bind (decode_int64 "version" j (Version r)) (fun z =>
      JSON.Decoded {| Slug := Slug r; ID := ID r; UID := UID r; Status := Status r;
                      Version := z |}))
  else None.

End SaveResponse.

Definition DashboardSaveResponse : Type := SaveResponse.t.

#[global] Instance Zero_DashboardSaveResponse : Zero DashboardSaveResponse :=
  {| zero := {| SaveResponse.Slug := EmptyString; SaveResponse.ID := 0;
                SaveResponse.UID := EmptyString; SaveResponse.Status := EmptyString;
                SaveResponse.Version := 0 |} |}.

#[global] Instance DashboardSaveResponse_target : JSON.Target DashboardSaveResponse :=
  {| JSON.fromJSON := decode_struct SaveResponse.field |}.

(** The tail shared by [SaveDashboard] and [NewDashboard]: the marshaled
    bytes go out in a [*bytes.Buffer], [result] starts as the address of a
    zero response, [&result] is the decoding target, and [result] is
    returned as it is afterwards. *)
Definition post_dashboard (w : World) (c : Client) (data : string + string)
  : trace * result (pointer DashboardSaveResponse) :=
  match data with
  | inr e => ([], Err (MarshalError e))
  | inl bytes =>
      let result0 : pointer DashboardSaveResponse := addr zero in
      match request w c "POST" "/api/dashboards/db" [] (Some (BytesBuffer bytes))
                    (Some result0) with
      | (tr, Err e) => (tr, Err e)
      | (tr, Panic p) => (tr, Panic p)
      | (tr, Ok r) => (tr, Ok (match r with Some p => p | None => result0 end))
      end
  end.

(** The value of a [map[string]interface{}] as a member of another. *)
Definition value_of_object (m : JSON.object) : JSON.value :=
  match m with
  | None => JSON.JNull
  | Some ms => JSON.JObject ms
  end.

(** [SaveDashboard(model, overwrite)], deprecated in the source: the body
    is the map with the keys [dashboard] and [overwrite]. *)
Definition SaveDashboard {M : Marshaler JSON.object} (w : World) (c : Client)
    (model : JSON.object) (overwrite : bool)
  : trace * result (pointer DashboardSaveResponse) :=
  let wrapper : JSON.object :=
    Some [("dashboard", value_of_object model); ("overwrite", JSON.JBool overwrite)] in
  post_dashboard w c (Marshal wrapper).

(** [NewDashboard(dashboard)]. *)
Definition NewDashboard {M : Marshaler Dashboard_} (w : World) (c : Client)
    (dashboard : Dashboard_) : trace * result (pointer DashboardSaveResponse) :=
  post_dashboard w c (Marshal dashboard).

(** [Dashboards()].  The element type of the slices is declared in a file
    that is not among the sources; it is the parameter [E], with its
    decoding as a slice.  An [E] is an element as [append] copies it: where
    the element type has slice or map fields, the copy in [dashboards]
    shares what they refer to with the element of [newDashboards] it was
    copied from, and the next page is decoded in place into
    [newDashboards]; what a field refers to is therefore not part of an
    [E] once a later page has been decoded, and the statements about
    [Dashboards] rely on the elements of the last page and on the lengths
    only.  [fuel] bounds the rounds of the [for] loop: [None] is a loop
    that has not returned within them. *)
Section Dashboards.

Variable E : Type.
Variable slices : JSON.Target (list E).

Definition limit : Z := 1000.

Fixpoint Dashboards_loop (w : World) (c : Client) (fuel : nat) (page : Z)
    (query : Values) (newDashboards dashboards : list E)
  : trace * option (result (list E)) :=
  match fuel with
  | O => ([], None)
  | S fuel' =>
      let page := (page + 1)%Z in
      let query := Values_Set query "page" (FormatInt10 page) in
      match request w c "GET" "/api/search" query None (Some newDashboards) with
      | (tr, Err e) => (tr, Some (Err e))
      | (tr, Panic p) => (tr, Some (Panic p))
      | (tr, Ok r) =>
          let newDashboards := match r with Some l => l | None => newDashboards end in
          let dashboards := (dashboards ++ newDashboards)%list in
          if (Z.of_nat (length newDashboards) <? limit)%Z
          then (tr, Some (Ok dashboards))
          else after tr (Dashboards_loop w c fuel' page query newDashboards dashboards)
      end
  end.

Definition Dashboards (w : World) (c : Client) (fuel : nat)
  : trace * option (result (list E)) :=
  let query := Values_Set (Values_Set [] "type" "dash-db") "limit" (FormatInt10 limit) in
  Dashboards_loop w c fuel 0 query [] [].

End Dashboards.

(** [[]interface{}] as a decoding target: [null] makes the slice nil, an
    array replaces its elements. *)
#[global] Instance values_target : JSON.Target (list JSON.value) :=
  {| JSON.fromJSON j l :=
       match j with
       | JSON.JNull => JSON.Decoded []
       | JSON.JArray items =>
           if forallb JSON.storable items then JSON.Decoded items
           else JSON.Failed (JSON.UnmarshalTypeError EmptyString)
       | _ => JSON.Failed (JSON.UnmarshalTypeError EmptyString)
       end |}.

End Gapi.

(* ================================================================== *)
(** ** Vocabulary of the statements, and the inputs of the closed ones *)
(* ================================================================== *)

Module Runs.

Import Gapi.

(** *** Vocabulary *)

(** A path with or without a leading and a trailing separator. *)
Definition slashes (lead : bool) (core : string) (trail : bool) : string :=
  (if lead then "/" else "") ++ core ++ (if trail then "/" else "").

Fixpoint has_slash (s : string) : bool :=
  match s with
  | EmptyString => false
  | String c r => Ascii.eqb c GoPath.slash || has_slash r
  end.

(** A path element that cleaning leaves alone: not empty, without
    separator, and neither [.] nor [..]. *)
Definition plain (seg : string) : bool :=
  negb (Str.is_empty seg) && negb (has_slash seg)
  && negb (seg =? ".")%string && negb (seg =? "..")%string.

(** The request has a header line [key: value]. *)
Definition carries (req : http_Request) (key value : string) : Prop :=
  In value (Header_Values (ReqHeader req) key).

(** Some entry of the header map is filed under [key]. *)
Definition collides (custom : list (string * string)) (key : string) : bool :=
  existsb (fun kv => (CanonicalMIMEHeaderKey (fst kv) =? CanonicalMIMEHeaderKey key)%string)
          custom.

(** [http.NewRequest] accepts the method and the URL of the call. *)
Definition buildable (w : World) (c : Client) (method requestPath : string)
    (query : Values) : bool :=
  validMethod (if Str.is_empty method then "GET" else method)
  && match url_Parse_error w (request_url c requestPath query) with
     | None => true
     | Some _ => false
     end.

(** The request [newRequest] builds around a body. *)
Definition built_request (w : World) (c : Client) (method requestPath : string)
    (query : Values) (body : option Reader) : http_Request :=
  {| Method := if Str.is_empty method then "GET" else method;
     ReqURL := reparsed (request_url c requestPath query);
     ReqHeader := Header_Add (configured_headers w c []) "Content-Type" "application/json";
     ReqBody := body |}.

(** The events of [k] attempts in a row, from send number [n] on, when
    each builds the request [req] and logs [log] doing so. *)
Fixpoint attempt_events (log : trace) (req : http_Request) (n : Z) (k : nat) : trace :=
  match k with
  | O => []
  | S k' => ((log ++ sleep_before n ++ [EvDo n req]) ++ attempt_events log req (n + 1) k')%list
  end.

(** The answer to a send makes the loop go round again: a send error, a
    body-read error, or a status that is not final. *)
Definition retried (rt : RoundTrip) : bool :=
  match err_of rt with
  | Some _ => true
  | None =>
      match resp_of rt with
      | Some r =>
          match snd (ReadAll r) with
          | Some _ => true
          | None => negb (final (StatusCode r))
          end
      | None => false
      end
  end.

(** The answer to a send is a failure: a send error or a body-read
    error. *)
Definition failed (rt : RoundTrip) : bool :=
  match err_of rt with
  | Some _ => true
  | None =>
      match resp_of rt with
      | Some r => match snd (ReadAll r) with Some _ => true | None => false end
      | None => false
      end
  end.

(** The failure of a failed send, as the legacy [request] records it. *)
Definition failure (rt : RoundTrip) : option error :=
  match err_of rt with
  | Some e => Some (TransportError e)
  | None =>
      match resp_of rt with
      | Some r => option_map ReadError (snd (ReadAll r))
      | None => None
      end
  end.

(** The answer is a response with this status and body, read without
    error. *)
Definition answers (rt : RoundTrip) (status : Z) (body : string) : Prop :=
  err_of rt = None
  /\ exists r, resp_of rt = Some r /\ StatusCode r = status /\ ReadAll r = (body, None).

(** [Request]'s variables after a retried send. *)
Definition Request_vars_after (rt : RoundTrip) (v : Request_vars) : Request_vars :=
  match err_of rt with
  | Some _ => {| resp := resp_of rt; responseBytes := responseBytes v |}
  | None =>
      match resp_of rt with
      | Some r => {| resp := Some r; responseBytes := fst (ReadAll r) |}
      | None => v
      end
  end.

(** [Request]'s variables after [k] retried sends of [req] from number [n]
    on. *)
Fixpoint Request_vars_after_all (w : World) (c : Client) (req : http_Request)
    (n : Z) (k : nat) (v : Request_vars) : Request_vars :=
  match k with
  | O => v
  | S k' => Request_vars_after_all w c req (n + 1) k'
              (Request_vars_after (Do w (client c) n req) v)
  end.

(** The legacy loop, seen from its variables [v] at the head of round [n]:
    the body it sends, the request it builds, the answer it gets, and the
    variables it goes on with when the answer is retried. *)
Definition body_at (n : Z) (v : request_vars) : option Reader :=
  if (n >? 0)%Z then Some (BytesReader (bodyBuffer v)) else body v.

Definition send_at (w : World) (c : Client) (method requestPath : string)
    (query : Values) (n : Z) (v : request_vars) : http_Request :=
  built_request w c method requestPath query (body_at n v).

Definition answer_at (w : World) (c : Client) (method requestPath : string)
    (query : Values) (n : Z) (v : request_vars) : RoundTrip :=
  Do w (client c) n (send_at w c method requestPath query n v).

Definition request_vars_after (w : World) (c : Client) (method requestPath : string)
    (query : Values) (n : Z) (v : request_vars) : request_vars :=
  let rt := answer_at w c method requestPath query n v in
  {| body := body_at n v;
     bodyBuffer := tee (body_at n v) (consumed rt) (bodyBuffer v);
     l_resp := resp_of rt;
     l_err := failure rt;
     bodyContents := match err_of rt, resp_of rt with
                     | None, Some r => fst (ReadAll r)
                     | _, _ => bodyContents v
                     end |}.

Fixpoint request_vars_after_all (w : World) (c : Client) (method requestPath : string)
    (query : Values) (n : Z) (k : nat) (v : request_vars) : request_vars :=
  match k with
  | O => v
  | S k' => request_vars_after_all w c method requestPath query (n + 1) k'
              (request_vars_after w c method requestPath query n v)
  end.

(** The world [w] with [GF_LOG] set to [s]. *)
Definition with_GF_LOG (w : World) (s : string) : World :=
  {| GF_LOG := s; header_map := header_map w; url_Parse_error := url_Parse_error w;
     Do := Do w |}.

(** *** Inputs of the closed statements *)

(** [s] between double quotes. *)
Definition quoted (s : string) : string :=
  String JSON.dquote (s ++ String JSON.dquote "").

(** The body [{"message":"not found"}]. *)
Definition not_found_body : string :=
  "{" ++ quoted "message" ++ ":" ++ quoted "not found" ++ "}".

(** The body [{"meta":{"folderId":7},"folderId":3}]. *)
Definition dashboard_body : string :=
  "{" ++ quoted "meta" ++ ":{" ++ quoted "folderId" ++ ":7},"
      ++ quoted "folderId" ++ ":3}".

Definition grafana (path : string) : URL :=
  {| Scheme := "http"; User := None; Host := "grafana.example"; Path := path;
     RawQuery := "" |}.

(** A URL that is a path and nothing else, as [url.Parse] returns it for
    a text without scheme and authority. *)
Definition bare (path : string) : URL :=
  {| Scheme := ""; User := None; Host := ""; Path := path; RawQuery := "" |}.

Definition plain_config (retries : Z) : Config :=
  {| APIKey := ""; BasicAuth := None; HTTPHeaders := None; Config_Client := None;
     OrgID := 0; NumRetries := retries |}.

Definition plain_client (path : string) (retries : Z) : Client :=
  {| config := plain_config retries; baseURL := grafana path; client := 0 |}.

Definition keyed_client : Client :=
  {| config := {| APIKey := "secret"; BasicAuth := None; HTTPHeaders := Some 0;
                  Config_Client := None; OrgID := 42; NumRetries := 0 |};
     baseURL := grafana "/api"; client := 0 |}.

Definition headers_only_client : Client :=
  {| config := {| APIKey := ""; BasicAuth := None; HTTPHeaders := Some 0;
                  Config_Client := None; OrgID := 0; NumRetries := 0 |};
     baseURL := grafana "/api"; client := 0 |}.

(** A transport that refuses every connection: no response, nothing read
    of the request body. *)
Definition refused : RoundTrip :=
  {| consumed := 0; resp_of := None; err_of := Some "connection refused" |}.

(** A transport that reads the request body (up to 4 KiB of it) and
    answers with a status and a body that is read without error. *)
Definition answer (status : Z) (body : string) : RoundTrip :=
  {| consumed := 4096;
     resp_of := Some {| StatusCode := status; ReadAll := (body, None) |};
     err_of := None |}.

(** A transport that refuses the first two connections and answers the
    third send with 200 and the body [{}]. *)
Definition third_time_lucky (n : Z) : RoundTrip :=
  if (n <? 2)%Z then refused else answer 200 "{}".

(** A transport whose first connection breaks after one byte of the
    request body was read, and that answers from then on. *)
Definition broken_after_one_byte (n : Z) : RoundTrip :=
  if (n =? 0)%Z
  then {| consumed := 1; resp_of := None; err_of := Some "connection reset" |}
  else answer 200 "{}".

(** A transport that answers 500 to the first send and 200 from then on. *)
Definition second_time_lucky (n : Z) : RoundTrip :=
  if (n =? 0)%Z then answer 500 "{}" else answer 200 "{}".

(** A world whose header maps all hold [headers], whose URLs all parse, and
    whose HTTP clients answer send number [n] with [script n]. *)
Definition world (gf_log : string) (headers : list (string * string))
    (script : Z -> RoundTrip) : World :=
  {| GF_LOG := gf_log; header_map := fun _ => headers;
     url_Parse_error := fun _ => None; Do := fun _ n _ => script n |}.

(** *** More vocabulary: retry loops, dashboards, paging *)

(** The legacy [request], round by round, as long as every round before
    is retried: the variables at the head of round [i], the request that
    round sends, and the answer it gets. *)
Definition round_vars (w : World) (c : Client) (method requestPath : string)
    (query : Values) (body0 : option Reader) (i : nat) : request_vars :=
  request_vars_after_all w c method requestPath query 0 i (request_start c body0).

Definition round_request (w : World) (c : Client) (method requestPath : string)
    (query : Values) (body0 : option Reader) (i : nat) : http_Request :=
  send_at w c method requestPath query (Z.of_nat i)
          (round_vars w c method requestPath query body0 i).

Definition round_answer (w : World) (c : Client) (method requestPath : string)
    (query : Values) (body0 : option Reader) (i : nat) : RoundTrip :=
  Do w (client c) (Z.of_nat i) (round_request w c method requestPath query body0 i).

(** The HTTP status an error carries, if it carries one: the [APIError]
    and the wrapped parse error of [Request], the status error of
    [request]. *)
Definition reported_status {T : Type} (r : result T) : option Z :=
  match r with
  | Err (APIError status _) => Some status
  | Err (ErrorResponseUnmarshalError _ status _) => Some status
  | Err (StatusError status _) => Some status
  | _ => None
  end.

(** What the exit of a retry loop that was given [k] rounds says, [held]
    being the response its variables hold: it ran all [k] rounds or holds
    a response with a final status, and only a request that cannot be
    built makes it return. *)
Definition exit_ok {V : Type} (held : V -> option http_Response) (k : nat) (tr : trace)
    (exit : loop_exit V) : Prop :=
  match exit with
  | LoopEnd v' =>
      attempts tr = k
      \/ exists r, held v' = Some r /\ final (StatusCode r) = true
  | LoopReturn e => exists msg, e = NewRequestError msg
  | LoopPanic _ => True
  end.

(** The query [Dashboards] sends for page [i]: [type], [limit] and
    [page], set in this order. *)
Definition page_query (i : Z) : Values :=
  Values_Set (Values_Set (Values_Set [] "type" "dash-db") "limit" (FormatInt10 limit))
             "page" (FormatInt10 i).

(** *** More inputs of the closed statements *)

(** The body [{"id":12,"uid":"abc","status":"success","version":3}]. *)
Definition saved_body : string :=
  "{" ++ quoted "id" ++ ":12," ++ quoted "uid" ++ ":" ++ quoted "abc" ++ ","
      ++ quoted "status" ++ ":" ++ quoted "success" ++ "," ++ quoted "version" ++ ":3}".

(** The text of [{"dashboard":null,"overwrite":false}]. *)
Definition nil_model_wrapper : string :=
  "{" ++ quoted "dashboard" ++ ":null," ++ quoted "overwrite" ++ ":false}".

(** A JSON array of 1000 numbers: a full page. *)
Definition full_page : string := "[" ++ Str.join "," (repeat "0" 1000) ++ "]".

(** A server that answers the search for page 1 with a full page and every
    other request with [other]. *)
Definition search_server (other : RoundTrip) : World :=
  {| GF_LOG := ""; header_map := fun _ => [];
     url_Parse_error := fun _ => None;
     Do := fun _ _ req =>
             if (RawQuery (ReqURL req) =? "limit=1000&page=1&type=dash-db")%string
             then answer 200 full_page else other |}.

(** The pages [search_server] serves when it answers [[7]] to the other
    requests. *)
Definition two_pages (i : nat) : list JSON.value :=
  match i with
  | 1 => repeat (JSON.JNumber "0") 1000
  | 2 => [JSON.JNumber "7"]
  | _ => []
  end.

End Runs.

(* ================================================================== *)
(** * Properties *)
(* ================================================================== *)

Import Gapi.
Import Runs.

Unset Implicit Arguments.

(** ** Strings and paths *)

Lemma is_empty_true (s : string) : Str.is_empty s = true <-> s = "".
Proof. destruct s; simpl; split; congruence. Qed.

Lemma is_empty_false (s : string) : Str.is_empty s = false <-> s <> "".
Proof. destruct s; simpl; split; congruence. Qed.

Lemma take_length (s : string) : Str.take (String.length s) s = s.
Proof. induction s; simpl; congruence. Qed.

Lemma take_ge (s : string) (k : nat) : String.length s <= k -> Str.take k s = s.
Proof.
  revert k; induction s as [|a s IH]; intros k Hk.
  - destruct k; reflexivity.
  - destruct k; simpl in *; [lia|]. rewrite IH by lia. reflexivity.
Qed.

(** Rows of the test table of package [path]. *)
Example Clean_table :
  map GoPath.Clean
    [""; "abc"; "abc/def"; "."; ".."; "../.."; "../../abc"; "/abc"; "/";
     "abc/"; "./"; "../"; "/abc/"; "abc//def//ghi"; "//abc"; "///abc";
     "//abc//"; "abc/./def"; "/./abc/def"; "abc/."; "abc/def/ghi/../jkl";
     "abc/def/../ghi/../jkl"; "abc/def/.."; "abc/def/../.."; "/abc/def/../..";
     "abc/def/../../.."; "/abc/def/../../..";
     "abc/def/../../../ghi/jkl/../../../mno"; "abc/./../def";
     "abc//./../def"; "abc/../../././../def"]
  = ["."; "abc"; "abc/def"; "."; ".."; "../.."; "../../abc"; "/abc"; "/";
     "abc"; "."; ".."; "/abc"; "abc/def/ghi"; "/abc"; "/abc";
     "/abc"; "abc/def"; "/abc/def"; "abc"; "abc/def/jkl";
     "abc/jkl"; "abc"; "."; "/";
     ".."; "/";
     "../../mno"; "def";
     "def"; "../../def"].
Proof. reflexivity. Qed.

Example Join_table :
  map GoPath.Join [["a"; "b"]; ["a"; ""]; [""; "b"]; ["/"; "a"]; ["/"; ""];
                   ["a/"; "b"]; ["a/"; ""]; [""; ""]; []; ["a"; "b"; "c"]]
  = ["a/b"; "a"; "b"; "/a"; "/"; "a/b"; "a"; ""; ""; "a/b/c"].
Proof. reflexivity. Qed.

Lemma Header_Values_Add (h : Header) (k v key : string) :
  Header_Values (Header_Add h k v) key
  = (Header_Values h key
     ++ if (CanonicalMIMEHeaderKey k =? CanonicalMIMEHeaderKey key)%string
        then [v] else [])%list.
Proof.
  unfold Header_Values, Header_Add. rewrite filter_app, map_app. cbn [filter fst].
  destruct (CanonicalMIMEHeaderKey k =? CanonicalMIMEHeaderKey key)%string; reflexivity.
Qed.

Lemma Header_Values_custom (custom : list (string * string)) (h : Header) (key : string) :
  Header_Values (fold_left (fun h kv => Header_Add h (fst kv) (snd kv)) custom h) key
  = (Header_Values h key
     ++ map snd (filter (fun kv => (CanonicalMIMEHeaderKey (fst kv)
                                      =? CanonicalMIMEHeaderKey key)%string) custom))%list.
Proof.
  revert h; induction custom as [|[k v] custom IH]; intros h; cbn [fold_left filter].
  - rewrite app_nil_r. reflexivity.
  - rewrite IH, Header_Values_Add. cbn [fst snd].
    destruct (CanonicalMIMEHeaderKey k =? CanonicalMIMEHeaderKey key)%string;
      cbn [map snd]; rewrite <- app_assoc; reflexivity.
Qed.

Lemma no_collision_filter (custom : list (string * string)) (key : string) :
  collides custom key = false ->
  filter (fun kv => (CanonicalMIMEHeaderKey (fst kv) =? CanonicalMIMEHeaderKey key)%string)
         custom = [].
Proof.
  unfold collides. induction custom as [|kv custom IH]; cbn [existsb filter]; intros H.
  - reflexivity.
  - apply orb_false_iff in H. destruct H as [H1 H2]. rewrite H1. auto.
Qed.

(** What [newRequest] returns when it returns a request. *)
Lemma newRequest_Ok (w : World) (c : Client) (method requestPath : string)
    (query : Values) (body : option Reader) (log : trace) (req : http_Request) :
  newRequest w c method requestPath query body = (log, Ok req) ->
  req = {| Method := if Str.is_empty method then "GET" else method;
           ReqURL := reparsed (request_url c requestPath query);
           ReqHeader := Header_Add (configured_headers w c [])
                          "Content-Type" "application/json";
           ReqBody := body |}
  /\ log_request w method (request_url c requestPath query) body = (log, None).
Proof.
  unfold newRequest, http_NewRequest.
  destruct (validMethod _); [|discriminate].
  destruct (url_Parse_error w _); [discriminate|].
  destruct (log_request w method _ body) as [l [p|]] eqn:Hlog; [discriminate|].
  intros H. inversion H; subst. split; reflexivity.
Qed.

Lemma configured_headers_values (w : World) (c : Client) (key : string) :
  Header_Values (configured_headers w c []) key
  = ((if negb (Str.is_empty (APIKey (config c)))
         && (CanonicalMIMEHeaderKey "Authorization" =? CanonicalMIMEHeaderKey key)%string
      then [("Bearer " ++ APIKey (config c))%string] else [])
     ++ (if negb (OrgID (config c) =? 0)%Z
            && (CanonicalMIMEHeaderKey "X-Grafana-Org-Id" =? CanonicalMIMEHeaderKey key)%string
         then [FormatInt10 (OrgID (config c))] else [])
     ++ map snd (filter (fun kv => (CanonicalMIMEHeaderKey (fst kv)
                                      =? CanonicalMIMEHeaderKey key)%string)
                        (custom_headers w c)))%list.
Proof.
  unfold configured_headers. rewrite Header_Values_custom.
  rewrite (app_assoc _ _ (map snd _)). f_equal.
  destruct (negb (Str.is_empty (APIKey (config c))));
    destruct (negb (OrgID (config c) =? 0)%Z); cbn [andb];
    repeat rewrite Header_Values_Add; unfold Header_Values; cbn [filter map app];
    repeat match goal with |- context [if ?b then _ else _] => destruct b end;
    reflexivity.
Qed.

Lemma FormatInt10_decimal (i : Z) :
  (min_int64 <= i <= max_int64)%Z -> int64_of_literal (FormatInt10 i) = Some i.
Proof.
  intros Hi. unfold int64_of_literal, FormatInt10.
  rewrite NilZero.isi.
  - rewrite DecimalZ.of_to.
    destruct (min_int64 <=? i)%Z eqn:H1; [|lia].
    destruct (i <=? max_int64)%Z eqn:H2; [reflexivity|lia].
  - destruct i; simpl; try discriminate.
    intros H; inversion H. eapply DecimalPos.Unsigned.to_uint_nonnil; eauto.
  - destruct i; simpl; try discriminate.
    intros H; inversion H. eapply DecimalPos.Unsigned.to_uint_nonnil; eauto.
Qed.

(** C8 (amended): every request built by [newRequest] carries
    [Content-Type: application/json]; it carries [Authorization: Bearer
    <APIKey>] if the configured APIKey is nonempty, and only then unless an
    entry of the configured header map is itself filed under
    [Authorization]; it carries [X-Grafana-Org-Id] with the OrgID in base 10
    if the configured OrgID is nonzero, and only then unless an entry of the
    header map is filed under that name; and every configured custom header
    is on the request. *)
Theorem C8_newRequest_headers (w : World) (c : Client) (method requestPath : string)
    (query : Values) (body : option Reader) (log : trace) (req : http_Request) :
  newRequest w c method requestPath query body = (log, Ok req) ->
  carries req "Content-Type" "application/json"
  /\ (APIKey (config c) <> "" ->
      carries req "Authorization" ("Bearer " ++ APIKey (config c)))
  /\ (collides (custom_headers w c) "Authorization" = false ->
      forall value, carries req "Authorization" value <->
                    APIKey (config c) <> "" /\ value = "Bearer " ++ APIKey (config c))
  /\ (OrgID (config c) <> 0%Z ->
      carries req "X-Grafana-Org-Id" (FormatInt10 (OrgID (config c))))
  /\ (collides (custom_headers w c) "X-Grafana-Org-Id" = false ->
      forall value, carries req "X-Grafana-Org-Id" value <->
                    OrgID (config c) <> 0%Z /\ value = FormatInt10 (OrgID (config c)))
  /\ ((min_int64 <= OrgID (config c) <= max_int64)%Z ->
      int64_of_literal (FormatInt10 (OrgID (config c))) = Some (OrgID (config c)))
  /\ (forall k v, In (k, v) (custom_headers w c) -> carries req k v).
Proof.
  intros H. apply newRequest_Ok in H. destruct H as [-> _].
  unfold carries. cbn [ReqHeader].
  assert (Hval : forall key,
             Header_Values (Header_Add (configured_headers w c []) "Content-Type"
                                       "application/json") key
             = (Header_Values (configured_headers w c []) key
                ++ if (CanonicalMIMEHeaderKey "Content-Type"
                       =? CanonicalMIMEHeaderKey key)%string
                   then ["application/json"] else [])%list)
    by (intros; apply Header_Values_Add).
  assert (Hno : forall key,
             collides (custom_headers w c) key = false ->
             filter (fun kv => (CanonicalMIMEHeaderKey (fst kv)
                                  =? CanonicalMIMEHeaderKey key)%string)
                    (custom_headers w c) = [])
    by (intros; apply no_collision_filter; assumption).
  split; [|split; [|split; [|split; [|split; [|split]]]]].
  - rewrite Hval. apply in_or_app. right. left. reflexivity.
  - intros Hk. rewrite Hval, configured_headers_values.
    apply is_empty_false in Hk. rewrite Hk. apply in_or_app. left. left. reflexivity.
  - intros H value. rewrite Hval, configured_headers_values, (Hno _ H).
    change (CanonicalMIMEHeaderKey "X-Grafana-Org-Id" =? CanonicalMIMEHeaderKey "Authorization")%string
      with false.
    change (CanonicalMIMEHeaderKey "Content-Type" =? CanonicalMIMEHeaderKey "Authorization")%string
      with false.
    rewrite andb_false_r. cbn [map app].
    destruct (Str.is_empty (APIKey (config c))) eqn:He; cbn.
    + apply is_empty_true in He. intuition congruence.
    + apply is_empty_false in He. intuition congruence.
  - intros Ho. rewrite Hval, configured_headers_values.
    apply Z.eqb_neq in Ho. rewrite Ho. apply in_or_app. left.
    apply in_or_app. right. left. reflexivity.
  - intros H value. rewrite Hval, configured_headers_values, (Hno _ H).
    change (CanonicalMIMEHeaderKey "Authorization" =? CanonicalMIMEHeaderKey "X-Grafana-Org-Id")%string
      with false.
    change (CanonicalMIMEHeaderKey "Content-Type" =? CanonicalMIMEHeaderKey "X-Grafana-Org-Id")%string
      with false.
    rewrite andb_false_r. cbn [map app].
    destruct (OrgID (config c) =? 0)%Z eqn:He; cbn.
    + apply Z.eqb_eq in He. intuition congruence.
    + apply Z.eqb_neq in He. intuition congruence.
  - apply FormatInt10_decimal.
  - intros k v Hin. rewrite Hval, configured_headers_values.
    apply in_or_app. left. apply in_or_app. right. apply in_or_app. right.
    apply in_map_iff. exists (k, v). split; [reflexivity|].
    apply filter_In. split; [exact Hin|]. apply String.eqb_refl.
Qed.

Lemma C8_newRequest_headers_witness :
  exists log req,
    newRequest (world "" [("x-trace", "on")] (fun _ => refused)) keyed_client
               "GET" "/dashboards/db/x" [] None = (log, Ok req)
    /\ carries req "Content-Type" "application/json"
    /\ carries req "Authorization" "Bearer secret"
    /\ carries req "X-Grafana-Org-Id" "42"
    /\ carries req "X-Trace" "on".
Proof.
  eexists; eexists; split; [reflexivity|].
  destruct (C8_newRequest_headers
              (world "" [("x-trace", "on")] (fun _ => refused)) keyed_client
              "GET" "/dashboards/db/x" [] None _ _ eq_refl)
    as (Hct & Hauth & _ & Horg & _ & _ & Hcustom).
  split; [exact Hct|]. split; [apply Hauth; discriminate|].
  split; [apply Horg; discriminate|].
  apply (Hcustom "x-trace" "on"). left. reflexivity.
Defined.

(** C8, as stated, fails where the header map itself names the
    organization or authorization header: with OrgID zero and an empty
    APIKey the request still carries [X-Grafana-Org-Id: 0] and
    [Authorization: Bearer ] (the id in base 10, the empty token). *)
Lemma C8_counterexample :
  exists log req,
    newRequest (world "" [("X-Grafana-Org-Id", "0"); ("Authorization", "Bearer ")]
                      (fun _ => refused))
               headers_only_client "GET" "/dashboards/db/x" [] None = (log, Ok req)
    /\ OrgID (config headers_only_client) = 0%Z
    /\ carries req "X-Grafana-Org-Id" (FormatInt10 (OrgID (config headers_only_client)))
    /\ APIKey (config headers_only_client) = ""
    /\ carries req "Authorization" ("Bearer " ++ APIKey (config headers_only_client)).
Proof.
  eexists; eexists; split; [reflexivity|].
  split; [reflexivity|]. split; [vm_compute; auto|]. split; [reflexivity|].
  vm_compute; auto.
Qed.

(** C7 (amended): the request URL's path is the base path joined with the
    call path: base [/api] and call path [/dashboards/db/x] give exactly
    [/api/dashboards/db/x], whether or not the base path ends in a
    separator and whether or not the call path starts or ends with one.
    The join itself adds no leading separator: for a base path written
    without one ([api]) the request path is still [/api/dashboards/db/x]
    when the base URL has a host, because the URL text puts a separator
    behind the host, but it is [api/dashboards/db/x] for a base URL
    without scheme, credentials and host. *)
Theorem C7_newRequest_path (w : World) (c : Client) (method : string) (query : Values)
    (body : option Reader) (log : trace) (req : http_Request) (lb tb lc tc : bool) :
  Path (baseURL c) = slashes lb "api" tb ->
  newRequest w c method (slashes lc "dashboards/db/x" tc) query body = (log, Ok req) ->
  (Host (baseURL c) <> "" \/ lb = true ->
   Path (ReqURL req) = "/api/dashboards/db/x")
  /\ (Scheme (baseURL c) = "" -> User (baseURL c) = None -> Host (baseURL c) = "" ->
      lb = false ->
      Path (ReqURL req) = "api/dashboards/db/x").
Proof.
  intros Hbase H. apply newRequest_Ok in H. destruct H as [-> _].
  cbn [ReqURL]. unfold reparsed, request_url. cbn [Scheme User Host Path RawQuery].
  rewrite Hbase. split.
  - intros [Hhost | ->].
    + apply is_empty_false in Hhost. rewrite Hhost.
      destruct lb, tb, lc, tc; reflexivity.
    + destruct (Str.is_empty (Host (baseURL c))),
               (negb (Str.is_empty (Scheme (baseURL c))) || negb true
                || match User (baseURL c) with Some _ => true | None => false end),
               (negb (Str.is_empty (Scheme (baseURL c))) || negb false
                || match User (baseURL c) with Some _ => true | None => false end),
               tb, lc, tc; reflexivity.
  - intros -> -> -> ->. destruct tb, lc, tc; reflexivity.
Qed.

Lemma C7_newRequest_path_witness :
  exists log req,
    Path (baseURL (plain_client "/api/" 0)) = slashes true "api" true
    /\ newRequest (world "" [] (fun _ => refused)) (plain_client "/api/" 0)
                  "GET" (slashes false "dashboards/db/x" true) [] None = (log, Ok req)
    /\ Path (ReqURL req) = "/api/dashboards/db/x".
Proof.
  eexists; eexists. split; [reflexivity|]. split; [reflexivity|].
  apply (C7_newRequest_path (world "" [] (fun _ => refused)) (plain_client "/api/" 0)
           "GET" [] None _ _ true true false true eq_refl eq_refl).
  right. reflexivity.
Defined.

(** C7, as stated, fails for a base path without a leading separator when
    the base URL has no host either, as [url.Parse] returns it for the text
    [api]: the request path has no leading separator. *)
Lemma C7_counterexample :
  snd (newRequest (world "" [] (fun _ => refused))
                  {| config := plain_config 0; baseURL := bare "api"; client := 0 |}
                  "GET" "/dashboards/db/x" [] None)
  = Ok {| Method := "GET"; ReqURL := bare "api/dashboards/db/x";
          ReqHeader := [("Content-Type", "application/json")]; ReqBody := None |}
  /\ ("api/dashboards/db/x" =? "/api/dashboards/db/x")%string = false.
Proof. split; reflexivity. Qed.

(** ** [WithOrgID] *)

Lemma deref_alloc_new (h : Heap) (c : Client) :
  deref (fst (alloc h c)) (snd (alloc h c)) = Some c.
Proof.
  unfold deref, alloc; cbn [fst snd].
  rewrite nth_error_app2 by lia. rewrite Nat.sub_diag. reflexivity.
Qed.

Lemma deref_alloc_old (h : Heap) (c c0 : Client) (q : nat) :
  deref h q = Some c0 -> deref (fst (alloc h c)) q = Some c0.
Proof.
  unfold deref, alloc; cbn [fst]. intros H.
  rewrite nth_error_app1; [exact H|]. apply nth_error_Some. congruence.
Qed.

Lemma deref_fresh (h : Heap) (c : Client) : deref h (snd (alloc h c)) = None.
Proof. unfold deref, alloc; cbn [snd]. apply nth_error_None. lia. Qed.

(** C6 (amended): [WithOrgID] returns the address of a new client, one no
    client was stored at before; the new client's Config has the given
    OrgID and otherwise the fields of the original's, its transport and base
    URL are the original's; every client that was in the heap, the original
    included, is as it was.  The Config is copied field by field: the header
    map of the new Config is the very map of the original (the same
    address), not a copy of it. *)
Theorem C6_WithOrgID (c : Client) (orgID : Z) (h : Heap) :
  let h' := fst (WithOrgID c orgID h) in
  let p := snd (WithOrgID c orgID h) in
  deref h p = None
  /\ (exists c', deref h' p = Some c'
        /\ OrgID (config c') = orgID
        /\ client c' = client c
        /\ baseURL c' = baseURL c
        /\ APIKey (config c') = APIKey (config c)
        /\ BasicAuth (config c') = BasicAuth (config c)
        /\ Config_Client (config c') = Config_Client (config c)
        /\ NumRetries (config c') = NumRetries (config c)
        /\ HTTPHeaders (config c') = HTTPHeaders (config c))
  /\ (forall q c0, deref h q = Some c0 -> deref h' q = Some c0).
Proof.
  unfold WithOrgID. cbv zeta. split; [apply deref_fresh|]. split.
  - eexists. split; [apply deref_alloc_new|]. cbn. repeat split; reflexivity.
  - intros q c0. apply deref_alloc_old.
Qed.

Lemma C6_WithOrgID_witness :
  deref [keyed_client] (snd (WithOrgID keyed_client 5 [keyed_client])) = None
  /\ deref (fst (WithOrgID keyed_client 5 [keyed_client]))
           (snd (WithOrgID keyed_client 5 [keyed_client]))
     = Some {| config := set_OrgID (config keyed_client) 5;
               baseURL := baseURL keyed_client; client := client keyed_client |}
  /\ deref (fst (WithOrgID keyed_client 5 [keyed_client])) 0 = Some keyed_client.
Proof.
  destruct (C6_WithOrgID keyed_client 5 [keyed_client]) as (Hfresh & _ & Hframe).
  split; [exact Hfresh|]. split; [reflexivity|].
  apply Hframe. reflexivity.
Defined.

(** C6, as stated, fails on the header map: the derived client's Config
    refers to the map the original's refers to, and an entry written through
    the derived client is an entry of the original's headers. *)
Lemma C6_counterexample :
  let w := world "" [] (fun _ => refused) in
  let h' := fst (WithOrgID keyed_client 5 [keyed_client]) in
  let p := snd (WithOrgID keyed_client 5 [keyed_client]) in
  exists derived a,
    deref h' p = Some derived
    /\ deref h' 0 = Some keyed_client
    /\ HTTPHeaders (config derived) = Some a
    /\ custom_headers w keyed_client = []
    /\ custom_headers (header_map_set w a "X-Injected" "1") keyed_client
       = [("X-Injected", "1")].
Proof. eexists; eexists. repeat split; reflexivity. Qed.

(** ** The retry loops *)

Lemma log_request_quiet (w : World) (method : string) (u : URL) (body : option Reader)
    (log : trace) :
  log_request w method u body = (log, None) -> filter is_Do log = [].
Proof.
  unfold log_request. destruct (logging w); [destruct body as [[]|]|];
    intros H; inversion H; reflexivity.
Qed.

Lemma attempts_app (tr1 tr2 : trace) :
  attempts (tr1 ++ tr2)%list = attempts tr1 + attempts tr2.
Proof. unfold attempts. rewrite filter_app, length_app. reflexivity. Qed.

Lemma sent_requests_app (tr1 tr2 : trace) :
  sent_requests (tr1 ++ tr2)%list = (sent_requests tr1 ++ sent_requests tr2)%list.
Proof. unfold sent_requests. apply flat_map_app. Qed.

Lemma sleeps_app (tr1 tr2 : trace) :
  sleeps (tr1 ++ tr2)%list = (sleeps tr1 ++ sleeps tr2)%list.
Proof. unfold sleeps. apply flat_map_app. Qed.

Lemma attempts_sleep_before (n : Z) : attempts (sleep_before n) = 0.
Proof. unfold sleep_before. destruct (n =? 0)%Z; reflexivity. Qed.

Lemma attempts_attempt_events (log : trace) (req : http_Request) (n : Z) (k : nat) :
  filter is_Do log = [] -> attempts (attempt_events log req n k) = k.
Proof.
  intros Hlog. revert n; induction k as [|k IH]; intros n; cbn [attempt_events].
  - reflexivity.
  - rewrite !attempts_app, IH, attempts_sleep_before.
    unfold attempts at 1. rewrite Hlog. reflexivity.
Qed.

Lemma sleeps_attempt_events (log : trace) (req : http_Request) (k : nat) :
  sleeps log = [] -> sleeps (attempt_events log req 0 (S k)) = repeat 5%Z k.
Proof.
  intros Hlog.
  assert (H : forall k n, (0 < n)%Z -> sleeps (attempt_events log req n k) = repeat 5%Z k).
  { clear k. induction k as [|k IH]; intros n Hn; cbn [attempt_events repeat].
    - reflexivity.
    - rewrite !sleeps_app, Hlog, IH by lia. unfold sleep_before.
      destruct (n =? 0)%Z eqn:E; [lia|]. reflexivity. }
  cbn [attempt_events]. rewrite !sleeps_app, Hlog, H by lia. reflexivity.
Qed.

Section Loops.

Variable w : World.
Variable c : Client.
Variables method requestPath : string.
Variable query : Values.

(** *** The loop of [Request] *)

Section RequestLoop.

Variable requestBytes : string.
Variable log : trace.
Variable req : http_Request.

Hypothesis built :
  newRequest w c method requestPath query (Some (BytesReader requestBytes)) = (log, Ok req).

Local Abbreviation loop := (Request_loop w c method requestPath query requestBytes).

Lemma Request_loop_retried (k : nat) (n : Z) (v : Request_vars) :
  retried (Do w (client c) n req) = true ->
  loop (S k) n v
  = after (log ++ sleep_before n ++ [EvDo n req])%list
          (loop k (n + 1) (Request_vars_after (Do w (client c) n req) v)).
Proof.
  intros Hr. cbn [Request_loop]. rewrite built.
  unfold retried in Hr. unfold Request_vars_after.
  destruct (err_of (Do w (client c) n req)); [reflexivity|].
  destruct (resp_of (Do w (client c) n req)) as [r|]; [|discriminate].
  destruct (snd (ReadAll r)); [reflexivity|].
  apply negb_true_iff in Hr. rewrite Hr. reflexivity.
Qed.

Lemma Request_loop_final (k : nat) (n : Z) (v : Request_vars) (r : http_Response) :
  err_of (Do w (client c) n req) = None ->
  resp_of (Do w (client c) n req) = Some r ->
  snd (ReadAll r) = None ->
  final (StatusCode r) = true ->
  loop (S k) n v
  = ((log ++ sleep_before n ++ [EvDo n req])%list,
     LoopEnd {| resp := Some r; responseBytes := fst (ReadAll r) |}).
Proof.
  intros He Hr Hread Hfinal. cbn [Request_loop].
  rewrite built, He, Hr, Hread, Hfinal. reflexivity.
Qed.

Local Abbreviation Request_vars_after_all := (Request_vars_after_all w c req).

Lemma Request_loop_all_retried (k : nat) (n : Z) (v : Request_vars) :
  (forall i, (n <= i < n + Z.of_nat k)%Z -> retried (Do w (client c) i req) = true) ->
  loop k n v = (attempt_events log req n k, LoopEnd (Request_vars_after_all n k v)).
Proof.
  revert n v; induction k as [|k IH]; intros n v Hall.
  - reflexivity.
  - rewrite Request_loop_retried by (apply Hall; lia).
    rewrite IH by (intros i Hi; apply Hall; lia).
    reflexivity.
Qed.

Lemma Request_vars_after_all_last (k : nat) (n : Z) (v : Request_vars) :
  Request_vars_after_all n (S k) v
  = Request_vars_after (Do w (client c) (n + Z.of_nat k) req)
                       (Request_vars_after_all n k v).
Proof.
  revert n v; induction k as [|k IH]; intros n v.
  - cbn [Request_vars_after_all Z.of_nat]. rewrite Z.add_0_r. reflexivity.
  - change (Request_vars_after_all n (S (S k)) v)
      with (Request_vars_after_all (n + 1) (S k)
              (Request_vars_after (Do w (client c) n req) v)).
    rewrite IH. cbn [Request_vars_after_all].
    replace (n + 1 + Z.of_nat k)%Z with (n + Z.of_nat (S k))%Z by lia. reflexivity.
Qed.

Lemma built_quiet : filter is_Do log = [].
Proof.
  destruct (newRequest_Ok _ _ _ _ _ _ _ _ built) as [_ Hlog].
  exact (log_request_quiet _ _ _ _ _ Hlog).
Qed.

End RequestLoop.

End Loops.

Lemma iterations_succ (c : Client) :
  (0 <= NumRetries (config c))%Z -> iterations c = S (Z.to_nat (NumRetries (config c))).
Proof. intros H. unfold iterations. rewrite <- Z2Nat.inj_succ by lia. f_equal. Qed.

Lemma answers_response (rt : RoundTrip) (status : Z) (body : string) :
  answers rt status body ->
  err_of rt = None
  /\ resp_of rt = Some {| StatusCode := status; ReadAll := (body, None) |}.
Proof.
  intros [He [[s ra] (Hr & Hs & Hra)]]. cbn in Hs, Hra. subst. auto.
Qed.

Lemma final_spec (status : Z) :
  final status = true <-> (status < 500)%Z /\ status <> 429%Z.
Proof.
  unfold final. rewrite andb_true_iff, negb_true_iff, Z.ltb_lt, Z.eqb_neq. tauto.
Qed.



(** ** The legacy loop *)

Lemma newRequest_quiet (w : World) (c : Client) (method requestPath : string)
    (query : Values) (body : option Reader) :
  logging w = false ->
  buildable w c method requestPath query = true ->
  newRequest w c method requestPath query body
  = ([], Ok (built_request w c method requestPath query body)).
Proof.
  unfold buildable, newRequest, http_NewRequest, log_request. intros Hq Hb.
  apply andb_true_iff in Hb. destruct Hb as [Hm Hu]. rewrite Hm, Hq.
  destruct (url_Parse_error w _); [discriminate|]. reflexivity.
Qed.

Lemma failed_retried (rt : RoundTrip) : failed rt = true -> retried rt = true.
Proof.
  unfold failed, retried. destruct (err_of rt); [reflexivity|].
  destruct (resp_of rt) as [r|]; [|discriminate].
  destruct (snd (ReadAll r)); [reflexivity | discriminate].
Qed.

Lemma failed_failure (rt : RoundTrip) :
  failed rt = true ->
  exists e, failure rt = Some e
            /\ match e with TransportError _ | ReadError _ => True | _ => False end.
Proof.
  unfold failed, failure. destruct (err_of rt) as [e|]; [intros _; exists (TransportError e); auto|].
  destruct (resp_of rt) as [r|]; [|discriminate].
  destruct (snd (ReadAll r)) as [e|]; [|discriminate].
  intros _. exists (ReadError e). auto.
Qed.

Section LegacyLoop.

Variable w : World.
Variable c : Client.
Variables method requestPath : string.
Variable query : Values.

Hypothesis quiet : logging w = false.
Hypothesis can_build : buildable w c method requestPath query = true.

Local Abbreviation loop := (request_loop w c method requestPath query).
Local Abbreviation send := (send_at w c method requestPath query).
Local Abbreviation answered := (answer_at w c method requestPath query).
Local Abbreviation vars_after := (request_vars_after w c method requestPath query).
Local Abbreviation vars_after_all := (request_vars_after_all w c method requestPath query).

Lemma request_loop_retried (k : nat) (n : Z) (v : request_vars) :
  retried (answered n v) = true ->
  loop (S k) n v
  = after (sleep_before n ++ [EvDo n (send n v)])%list (loop k (n + 1) (vars_after n v)).
Proof.
  intros Hr. cbn [request_loop].
  change (if (n >? 0)%Z then Some (BytesReader (bodyBuffer v)) else body v)
    with (body_at n v).
  rewrite (newRequest_quiet _ _ _ _ _ _ quiet can_build).
  change (built_request w c method requestPath query (body_at n v)) with (send n v).
  change (Do w (client c) n (send n v)) with (answered n v).
  unfold retried in Hr. unfold request_vars_after, failure.
  change (answer_at w c method requestPath query n v) with (answered n v).
  destruct (err_of (answered n v)) as [e|]; [reflexivity|].
  destruct (resp_of (answered n v)) as [r|]; [|discriminate].
  destruct (snd (ReadAll r)) as [e|] eqn:Hread; [reflexivity|].
  apply negb_true_iff in Hr. rewrite Hr. reflexivity.
Qed.

Lemma request_vars_after_all_last (k : nat) :
  forall (n : Z) (v : request_vars),
    vars_after_all n (S k) v = vars_after (n + Z.of_nat k) (vars_after_all n k v).
Proof.
  induction k as [|k IH]; intros n v.
  - cbn [request_vars_after_all Z.of_nat]. rewrite Z.add_0_r. reflexivity.
  - change (vars_after_all n (S (S k)) v)
      with (vars_after_all (n + 1) (S k) (vars_after n v)).
    rewrite IH. cbn [request_vars_after_all].
    replace (n + 1 + Z.of_nat k)%Z with (n + Z.of_nat (S k))%Z by lia. reflexivity.
Qed.

End LegacyLoop.

(** ** Attempts that all fail *)

Lemma newRequest_Err (w : World) (c : Client) (method requestPath : string)
    (query : Values) (body : option Reader) (log : trace) (e : error) :
  newRequest w c method requestPath query body = (log, Err e) ->
  exists msg, e = NewRequestError msg.
Proof.
  unfold newRequest. destruct (http_NewRequest _ _ _ _) as [msg|req].
  - intros H; inversion H. eauto.
  - destruct (log_request _ _ _ _) as [l [p|]]; discriminate.
Qed.

Lemma after_inv {A : Type} (evs : trace) (r : trace * A) (tr : trace) (x : A) :
  after evs r = (tr, x) -> exists tr', r = (tr', x) /\ tr = (evs ++ tr')%list.
Proof. destruct r as [tr' y]. unfold after; cbn. intros H; inversion H. eauto. Qed.

Lemma Request_loop_return (w : World) (c : Client) (method requestPath : string)
    (query : Values) (requestBytes : string) (k : nat) :
  forall (n : Z) (v : Request_vars) (tr : trace) (e : error),
    Request_loop w c method requestPath query requestBytes k n v = (tr, LoopReturn e) ->
    exists msg, e = NewRequestError msg.
Proof.
  induction k as [|k IH]; intros n v tr e; cbn [Request_loop].
  - discriminate.
  - destruct (newRequest _ _ _ _ _ _) as [log [req|e'|p]] eqn:Hnew.
    + destruct (err_of _).
      { intros H. apply after_inv in H. destruct H as (tr' & H & _). eauto. }
      destruct (resp_of _) as [r|]; [|discriminate].
      destruct (snd (ReadAll r)).
      { intros H. apply after_inv in H. destruct H as (tr' & H & _). eauto. }
      destruct (final _); [discriminate|].
      intros H. apply after_inv in H. destruct H as (tr' & H & _). eauto.
    + intros H; inversion H; subst. eapply newRequest_Err; eauto.
    + discriminate.
Qed.

(** [Request] never returns the error of a send or of a body read, whatever
    the transport does. *)
Theorem Request_never_returns_the_failure {ReqT ResT : Type}
    {M : Marshaler ReqT} {T : JSON.Target ResT} {Z0 : Zero ResT}
    (w : World) (c : Client) (method requestPath : string) (query : Values)
    (requestBody : option ReqT) :
  match snd (Request (ResT := ResT) w c method requestPath query requestBody) with
  | Err (TransportError _) | Err (ReadError _) => False
  | _ => True
  end.
Proof.
  unfold Request. destruct (marshal_body requestBody) as [requestBytes|e]; [|exact I].
  destruct (Request_loop _ _ _ _ _ _ _ _ _) as [tr [e|p|v]] eqn:Hloop; cbn [snd].
  - apply Request_loop_return in Hloop. destruct Hloop as [msg ->]. exact I.
  - exact I.
  - unfold Request_finish. destruct (resp v) as [r|]; [|exact I].
    destruct (StatusCode r >=? 400)%Z.
    + destruct (JSON.Unmarshal _ _); exact I.
    + destruct (JSON.Unmarshal _ _); exact I.
Qed.

(** When every send of [Request] is refused (an error and no response),
    [Request] makes its N+1 attempts, sleeping 5 seconds before each but
    the first, and then panics on the nil response. *)
Theorem Request_all_refused_panics {ReqT ResT : Type}
    {M : Marshaler ReqT} {T : JSON.Target ResT} {Z0 : Zero ResT}
    (w : World) (c : Client) (method requestPath : string) (query : Values)
    (requestBody : option ReqT) (requestBytes : string) (log : trace)
    (req : http_Request) :
  (0 <= NumRetries (config c))%Z ->
  marshal_body requestBody = inl requestBytes ->
  newRequest w c method requestPath query (Some (BytesReader requestBytes)) = (log, Ok req) ->
  (forall n, (0 <= n <= NumRetries (config c))%Z ->
             err_of (Do w (client c) n req) <> None
             /\ resp_of (Do w (client c) n req) = None) ->
  Request (ResT := ResT) w c method requestPath query requestBody
  = (attempt_events log req 0 (Z.to_nat (NumRetries (config c) + 1)),
     Panic NilPointerDereference).
Proof.
  intros HN Hm Hb Hall. unfold Request. rewrite Hm.
  assert (Hretried : forall i, (0 <= i < 0 + Z.of_nat (iterations c))%Z ->
                               retried (Do w (client c) i req) = true).
  { intros i Hi. rewrite (iterations_succ _ HN) in Hi.
    destruct (Hall i) as [He _]; [lia|].
    unfold retried. destruct (err_of (Do w (client c) i req)); congruence. }
  rewrite (Request_loop_all_retried _ _ _ _ _ _ _ _ Hb _ _ _ Hretried).
  rewrite (iterations_succ _ HN), Request_vars_after_all_last.
  rewrite Z2Nat.id, Z.add_0_l by lia.
  destruct (Hall (NumRetries (config c))) as [He Hr]; [lia|].
  unfold Request_vars_after.
  destruct (err_of (Do w (client c) (NumRetries (config c)) req)); [|congruence].
  rewrite Hr. unfold Request_finish. cbn [resp].
  rewrite <- (iterations_succ _ HN). reflexivity.
Qed.

Lemma Request_all_refused_panics_witness :
  Request (ReqT := Z) (ResT := JSON.object) (world "" [] (fun _ => refused))
          (plain_client "/api" 2) "GET" "/dashboards/db/x" [] None
  = (attempt_events []
       {| Method := "GET"; ReqURL := grafana "/api/dashboards/db/x";
          ReqHeader := [("Content-Type", "application/json")];
          ReqBody := Some (BytesReader "") |} 0 3,
     Panic NilPointerDereference).
Proof.
  assert (HN : (0 <= NumRetries (config (plain_client "/api" 2)))%Z) by (cbn; lia).
  apply (Request_all_refused_panics (ReqT := Z) (ResT := JSON.object)
           (world "" [] (fun _ => refused))
           (plain_client "/api" 2) "GET" "/dashboards/db/x" [] None "" _ _
           HN eq_refl eq_refl).
  intros n _. split; [discriminate | reflexivity].
Defined.

(** C1, at the failing input: NumRetries 2 and a transport that refuses
    every connection.  The legacy [request] returns the last failure; the
    generic [Request] makes its three attempts and then panics instead of
    returning it.  A failed body read fares no better: with the body [{}]
    read before the read error, [Request] returns a decoded value and no
    error at all. *)
Theorem C1_Request_loses_the_failure :
  snd (request (T := JSON.object) (world "" [] (fun _ => refused))
         (plain_client "/api" 2) "GET" "/dashboards/db/x" [] None None)
  = Err (TransportError "connection refused")
  /\ attempts (fst (Request (ReqT := Z) (ResT := JSON.object)
                      (world "" [] (fun _ => refused))
                      (plain_client "/api" 2) "GET" "/dashboards/db/x" [] None)) = 3
  /\ snd (Request (ReqT := Z) (ResT := JSON.object)
            (world "" [] (fun _ => refused))
            (plain_client "/api" 2) "GET" "/dashboards/db/x" [] None)
     = Panic NilPointerDereference
  /\ snd (Request (ReqT := Z) (ResT := JSON.object)
            (world "" []
               (fun _ => {| consumed := 0;
                            resp_of := Some {| StatusCode := 200;
                                               ReadAll := ("{}", Some "unexpected EOF") |};
                            err_of := None |}))
            (plain_client "/api" 2) "GET" "/dashboards/db/x" [] None)
     = Ok (Some [])
  /\ snd (request (T := JSON.object)
            (world "" []
               (fun _ => {| consumed := 0;
                            resp_of := Some {| StatusCode := 200;
                                               ReadAll := ("{}", Some "unexpected EOF") |};
                            err_of := None |}))
            (plain_client "/api" 2) "GET" "/dashboards/db/x" [] None None)
     = Err (ReadError "unexpected EOF").
Proof. repeat split; reflexivity. Qed.

(** ** A first answer that is final *)

Lemma Request_first_answer {ReqT ResT : Type}
    {M : Marshaler ReqT} {T : JSON.Target ResT} {Z0 : Zero ResT}
    (w : World) (c : Client) (method requestPath : string) (query : Values)
    (requestBody : option ReqT) (requestBytes : string) (log : trace)
    (req : http_Request) (status : Z) (body : string) :
  (0 <= NumRetries (config c))%Z ->
  marshal_body requestBody = inl requestBytes ->
  newRequest w c method requestPath query (Some (BytesReader requestBytes)) = (log, Ok req) ->
  answers (Do w (client c) 0 req) status body ->
  final status = true ->
  Request (ResT := ResT) w c method requestPath query requestBody
  = ((log ++ [EvDo 0 req])%list,
     Request_finish None
       {| resp := Some {| StatusCode := status; ReadAll := (body, None) |};
          responseBytes := body |}).
Proof.
  intros HN Hm Hb Ha Hf. apply answers_response in Ha. destruct Ha as [He Hr].
  unfold Request. rewrite Hm, (iterations_succ _ HN).
  rewrite (Request_loop_final _ _ _ _ _ _ _ _ Hb _ _ _ _ He Hr eq_refl Hf).
  reflexivity.
Qed.

Lemma request_first_answer {T : Type} {TT : JSON.Target T}
    (w : World) (c : Client) (method requestPath : string) (query : Values)
    (body0 : option Reader) (responseStruct : option T) (status : Z) (body : string) :
  (0 <= NumRetries (config c))%Z ->
  logging w = false ->
  buildable w c method requestPath query = true ->
  answers (answer_at w c method requestPath query 0 (request_start c body0)) status body ->
  final status = true ->
  request w c method requestPath query body0 responseStruct
  = ([EvDo 0 (send_at w c method requestPath query 0 (request_start c body0))],
     if (status >=? 400)%Z then Err (StatusError status body)
     else match responseStruct with
          | None => Ok None
          | Some target =>
              match JSON.Unmarshal body target with
              | JSON.Failed e => Err (UnmarshalError e)
              | JSON.Decoded target' => Ok (Some target')
              end
          end).
Proof.
  intros HN Hq Hb Ha Hf. apply answers_response in Ha. destruct Ha as [He Hr].
  unfold answer_at, send_at in He, Hr. change (body_at 0 (request_start c body0))
    with (Gapi.body (request_start c body0)) in He, Hr.
  unfold request. rewrite (iterations_succ _ HN). cbn [request_loop].
  change (0 >? 0)%Z with false. cbv iota.
  rewrite (newRequest_quiet _ _ _ _ _ _ Hq Hb).
  unfold send_at. change (body_at 0 (request_start c body0))
    with (Gapi.body (request_start c body0)).
  rewrite He, Hr. cbn [ReadAll snd fst StatusCode]. rewrite Hf.
  unfold after, request_finish. cbn [fst snd l_err l_resp option_map StatusCode bodyContents].
  rewrite Hq.
  destruct (status >=? 400)%Z; [reflexivity|].
  destruct responseStruct as [target|]; [|reflexivity].
  destruct (JSON.Unmarshal body target); reflexivity.
Qed.

(** ** What is made of the last response *)

(** C3 (amended): for a response with status >= 400 that the retry loop
    hands over, the generic [Request] returns an [APIError] with that status
    and the body parsed as a JSON object, or, if the body does not parse, an
    error that wraps the parse error with the raw body and the status; the
    legacy [request] parses nothing and returns a plain error made of the
    status and the raw body text, whether or not the body is JSON.  The
    first two parts say so for whatever the loop hands over, the last two for
    a first answer whose status is final (N = NumRetries >= 0, the request
    builds; for the legacy path logging is off). *)
Theorem C3_error_responses {ReqT ResT T : Type}
    {M : Marshaler ReqT} {TR : JSON.Target ResT} {Z0 : Zero ResT} {TT : JSON.Target T}
    (w : World) (c : Client) (method requestPath : string) (query : Values) :
  (forall (requestBody : option ReqT) (requestBytes : string) (tr : trace)
          (v : Request_vars) (r : http_Response),
      marshal_body requestBody = inl requestBytes ->
      Request_loop w c method requestPath query requestBytes (iterations c) 0 Request_start
      = (tr, LoopEnd v) ->
      resp v = Some r ->
      (400 <= StatusCode r)%Z ->
      Request (ResT := ResT) w c method requestPath query requestBody
      = (tr, match JSON.Unmarshal (responseBytes v) (None : JSON.object) with
             | JSON.Decoded parsed => Err (APIError (StatusCode r) parsed)
             | JSON.Failed e =>
                 Err (ErrorResponseUnmarshalError (responseBytes v) (StatusCode r) e)
             end))
  /\ (forall (body0 : option Reader) (responseStruct : option T) (tr : trace)
             (v : request_vars) (r : http_Response),
      request_loop w c method requestPath query (iterations c) 0 (request_start c body0)
      = (tr, LoopEnd v) ->
      l_err v = None ->
      l_resp v = Some r ->
      (400 <= StatusCode r)%Z ->
      snd (request w c method requestPath query body0 responseStruct)
      = Err (StatusError (StatusCode r) (bodyContents v)))
  /\ (forall (requestBody : option ReqT) (requestBytes : string) (log : trace)
             (req : http_Request) (status : Z) (body : string),
      (0 <= NumRetries (config c))%Z ->
      marshal_body requestBody = inl requestBytes ->
      newRequest w c method requestPath query (Some (BytesReader requestBytes))
      = (log, Ok req) ->
      answers (Do w (client c) 0 req) status body ->
      (400 <= status < 500)%Z -> status <> 429%Z ->
      Request (ResT := ResT) w c method requestPath query requestBody
      = ((log ++ [EvDo 0 req])%list,
         match JSON.Unmarshal body (None : JSON.object) with
         | JSON.Decoded parsed => Err (APIError status parsed)
         | JSON.Failed e => Err (ErrorResponseUnmarshalError body status e)
         end))
  /\ (forall (body0 : option Reader) (responseStruct : option T) (status : Z)
             (body : string),
      (0 <= NumRetries (config c))%Z ->
      logging w = false ->
      buildable w c method requestPath query = true ->
      answers (answer_at w c method requestPath query 0 (request_start c body0))
              status body ->
      (400 <= status < 500)%Z -> status <> 429%Z ->
      request w c method requestPath query body0 responseStruct
      = ([EvDo 0 (send_at w c method requestPath query 0 (request_start c body0))],
         Err (StatusError status body))).
Proof.
  split; [|split; [|split]].
  - intros requestBody requestBytes tr v r Hm Hloop Hr Hs.
    unfold Request. rewrite Hm, Hloop. unfold Request_finish. rewrite Hr.
    destruct (StatusCode r >=? 400)%Z eqn:E; [|lia].
    destruct (JSON.Unmarshal _ _); reflexivity.
  - intros body0 responseStruct tr v r Hloop He Hr Hs.
    unfold request. rewrite Hloop. unfold request_finish. rewrite He, Hr.
    destruct (StatusCode r >=? 400)%Z eqn:E; [|lia]. reflexivity.
  - intros requestBody requestBytes log req status body HN Hm Hb Ha Hs Hne.
    rewrite (Request_first_answer w c method requestPath query requestBody requestBytes
               log req status body HN Hm Hb Ha)
      by (apply final_spec; split; [lia | exact Hne]).
    unfold Request_finish. cbn [resp responseBytes StatusCode].
    destruct (status >=? 400)%Z eqn:E; [|lia].
    destruct (JSON.Unmarshal _ _); reflexivity.
  - intros body0 responseStruct status body HN Hq Hb Ha Hs Hne.
    rewrite (request_first_answer w c method requestPath query body0 responseStruct
               status body HN Hq Hb Ha)
      by (apply final_spec; split; [lia | exact Hne]).
    destruct (status >=? 400)%Z eqn:E; [reflexivity | lia].
Qed.

Lemma C3_error_responses_witness :
  Request (ReqT := Z) (ResT := JSON.object)
          (world "" [] (fun _ => answer 404 not_found_body))
          (plain_client "/api" 2) "GET" "/dashboards/db/x" [] None
  = ([EvDo 0 (built_request (world "" [] (fun _ => answer 404 not_found_body))
                (plain_client "/api" 2) "GET" "/dashboards/db/x" []
                (Some (BytesReader "")))],
     Err (APIError 404 (Some [("message", JSON.JString "not found")])))
  /\ request (T := JSON.object)
             (world "" [] (fun _ => answer 404 not_found_body))
             (plain_client "/api" 2) "GET" "/dashboards/db/x" [] None (Some None)
     = ([EvDo 0 (built_request (world "" [] (fun _ => answer 404 not_found_body))
                   (plain_client "/api" 2) "GET" "/dashboards/db/x" [] None)],
        Err (StatusError 404 not_found_body)).
Proof.
  assert (HN : (0 <= NumRetries (config (plain_client "/api" 2)))%Z) by (cbn; lia).
  assert (Ha : forall req,
             answers (Do (world "" [] (fun _ => answer 404 not_found_body))
                         (client (plain_client "/api" 2)) 0 req) 404 not_found_body).
  { intros req. split; [reflexivity|]. eexists. repeat split; reflexivity. }
  destruct (C3_error_responses (ReqT := Z) (ResT := JSON.object) (T := JSON.object)
              (world "" [] (fun _ => answer 404 not_found_body))
              (plain_client "/api" 2) "GET" "/dashboards/db/x" [])
    as (_ & _ & Hgeneric & Hlegacy).
  split.
  - apply (Hgeneric None "" [] _ 404%Z not_found_body HN eq_refl eq_refl (Ha _)); lia.
  - apply (Hlegacy None (Some None) 404%Z not_found_body HN eq_refl eq_refl (Ha _)); lia.
Defined.

(** C3, as stated, fails on the legacy path: for status 404 and the body
    [{"message":"not found"}], which parses as a JSON object, [request]
    returns the plain status error, where [Request] returns the
    [APIError]. *)
Lemma C3_counterexample :
  snd (request (T := JSON.object) (world "" [] (fun _ => answer 404 not_found_body))
         (plain_client "/api" 2) "GET" "/dashboards/db/x" [] None (Some None))
  = Err (StatusError 404 not_found_body)
  /\ JSON.Unmarshal not_found_body (None : JSON.object)
     = JSON.Decoded (Some [("message", JSON.JString "not found")])
  /\ snd (Request (ReqT := Z) (ResT := JSON.object)
            (world "" [] (fun _ => answer 404 not_found_body))
            (plain_client "/api" 2) "GET" "/dashboards/db/x" [] None)
     = Err (APIError 404 (Some [("message", JSON.JString "not found")]))
  /\ snd (request (T := JSON.object) (world "" [] (fun _ => answer 404 "<html>"))
            (plain_client "/api" 2) "GET" "/dashboards/db/x" [] None (Some None))
     = Err (StatusError 404 "<html>")
  /\ snd (Request (ReqT := Z) (ResT := JSON.object)
            (world "" [] (fun _ => answer 404 "<html>"))
            (plain_client "/api" 2) "GET" "/dashboards/db/x" [] None)
     = Err (ErrorResponseUnmarshalError "<html>" 404 JSON.SyntaxError).
Proof. repeat split; reflexivity. Qed.

(** C9: on the generic path every response with status < 400 that the
    loop hands over is unmarshaled into the result type, there being no way
    to ask for no result, so that an empty body makes [Request] return the
    unmarshal error (a syntax error, for every result type); the legacy
    [request] given a nil output struct returns nil for such a response and
    decodes nothing.  The first two parts say so for whatever the loop hands
    over, the last two for a first answer with a status below 400
    (N = NumRetries >= 0, the request builds; for the legacy path logging is
    off). *)
Theorem C9_success_responses {ReqT ResT T : Type}
    {M : Marshaler ReqT} {TR : JSON.Target ResT} {Z0 : Zero ResT} {TT : JSON.Target T}
    (w : World) (c : Client) (method requestPath : string) (query : Values) :
  (forall (requestBody : option ReqT) (requestBytes : string) (tr : trace)
          (v : Request_vars) (r : http_Response),
      marshal_body requestBody = inl requestBytes ->
      Request_loop w c method requestPath query requestBytes (iterations c) 0 Request_start
      = (tr, LoopEnd v) ->
      resp v = Some r ->
      (StatusCode r < 400)%Z ->
      Request (ResT := ResT) w c method requestPath query requestBody
      = (tr, match JSON.Unmarshal (responseBytes v) (zero : ResT) with
             | JSON.Decoded responseStruct => Ok responseStruct
             | JSON.Failed e => Err (UnmarshalError e)
             end)
      /\ (responseBytes v = "" ->
          Request (ResT := ResT) w c method requestPath query requestBody
          = (tr, Err (UnmarshalError JSON.SyntaxError))))
  /\ (forall (body0 : option Reader) (tr : trace) (v : request_vars) (r : http_Response),
      request_loop w c method requestPath query (iterations c) 0 (request_start c body0)
      = (tr, LoopEnd v) ->
      l_err v = None ->
      l_resp v = Some r ->
      (StatusCode r < 400)%Z ->
      snd (request (T := T) w c method requestPath query body0 None) = Ok None)
  /\ (forall (requestBody : option ReqT) (requestBytes : string) (log : trace)
             (req : http_Request) (status : Z),
      (0 <= NumRetries (config c))%Z ->
      marshal_body requestBody = inl requestBytes ->
      newRequest w c method requestPath query (Some (BytesReader requestBytes))
      = (log, Ok req) ->
      answers (Do w (client c) 0 req) status "" ->
      (status < 400)%Z ->
      Request (ResT := ResT) w c method requestPath query requestBody
      = ((log ++ [EvDo 0 req])%list, Err (UnmarshalError JSON.SyntaxError)))
  /\ (forall (body0 : option Reader) (status : Z) (body : string),
      (0 <= NumRetries (config c))%Z ->
      logging w = false ->
      buildable w c method requestPath query = true ->
      answers (answer_at w c method requestPath query 0 (request_start c body0))
              status body ->
      (status < 400)%Z ->
      request (T := T) w c method requestPath query body0 None
      = ([EvDo 0 (send_at w c method requestPath query 0 (request_start c body0))],
         Ok None)).
Proof.
  split; [|split; [|split]].
  - intros requestBody requestBytes tr v r Hm Hloop Hr Hs.
    assert (Hrun : Request (ResT := ResT) w c method requestPath query requestBody
                   = (tr, match JSON.Unmarshal (responseBytes v) (zero : ResT) with
                          | JSON.Decoded responseStruct => Ok responseStruct
                          | JSON.Failed e => Err (UnmarshalError e)
                          end)).
    { unfold Request. rewrite Hm, Hloop. unfold Request_finish. rewrite Hr.
      destruct (StatusCode r >=? 400)%Z eqn:E; [lia|].
      destruct (JSON.Unmarshal _ _); reflexivity. }
    split; [exact Hrun|]. intros Hempty. rewrite Hrun, Hempty. reflexivity.
  - intros body0 tr v r Hloop He Hr Hs.
    unfold request. rewrite Hloop. unfold request_finish. rewrite He, Hr.
    destruct (StatusCode r >=? 400)%Z eqn:E; [lia|]. reflexivity.
  - intros requestBody requestBytes log req status HN Hm Hb Ha Hs.
    rewrite (Request_first_answer w c method requestPath query requestBody requestBytes
               log req status "" HN Hm Hb Ha)
      by (apply final_spec; split; lia).
    unfold Request_finish. cbn [resp responseBytes StatusCode].
    destruct (status >=? 400)%Z eqn:E; [lia|]. reflexivity.
  - intros body0 status body HN Hq Hb Ha Hs.
    rewrite (request_first_answer w c method requestPath query body0 None
               status body HN Hq Hb Ha)
      by (apply final_spec; split; lia).
    destruct (status >=? 400)%Z eqn:E; [lia | reflexivity].
Qed.

Lemma C9_success_responses_witness :
  Request (ReqT := Z) (ResT := Dashboard_) (world "" [] (fun _ => answer 200 ""))
          (plain_client "" 0) "GET" "/api/dashboards/uid/u" [] None
  = ([EvDo 0 (built_request (world "" [] (fun _ => answer 200 ""))
                (plain_client "" 0) "GET" "/api/dashboards/uid/u" []
                (Some (BytesReader "")))],
     Err (UnmarshalError JSON.SyntaxError))
  /\ request (T := JSON.object) (world "" [] (fun _ => answer 200 ""))
             (plain_client "" 0) "DELETE" "/api/dashboards/uid/u" [] None None
     = ([EvDo 0 (built_request (world "" [] (fun _ => answer 200 ""))
                   (plain_client "" 0) "DELETE" "/api/dashboards/uid/u" [] None)],
        Ok None).
Proof.
  assert (HN : (0 <= NumRetries (config (plain_client "" 0)))%Z) by (cbn; lia).
  assert (Ha : forall req,
             answers (Do (world "" [] (fun _ => answer 200 ""))
                         (client (plain_client "" 0)) 0 req) 200 "").
  { intros req. split; [reflexivity|]. eexists. repeat split; reflexivity. }
  split.
  - destruct (C9_success_responses (ReqT := Z) (ResT := Dashboard_) (T := JSON.object)
                (world "" [] (fun _ => answer 200 ""))
                (plain_client "" 0) "GET" "/api/dashboards/uid/u" [])
      as (_ & _ & Hgeneric & _).
    apply (Hgeneric None "" [] _ 200%Z HN eq_refl eq_refl (Ha _)). lia.
  - destruct (C9_success_responses (ReqT := Z) (ResT := Dashboard_) (T := JSON.object)
                (world "" [] (fun _ => answer 200 ""))
                (plain_client "" 0) "DELETE" "/api/dashboards/uid/u" [])
      as (_ & _ & _ & Hlegacy).
    apply (Hlegacy None 200%Z "" HN eq_refl eq_refl (Ha _)). lia.
Defined.

(** The two halves of C9 on a 200 response with an empty body. *)
Example empty_success_body :
  snd (Request (ReqT := Z) (ResT := JSON.object) (world "" [] (fun _ => answer 200 ""))
         (plain_client "" 0) "DELETE" "/api/dashboards/uid/u" [] None)
  = Err (UnmarshalError JSON.SyntaxError)
  /\ snd (request (T := JSON.object) (world "" [] (fun _ => answer 200 ""))
            (plain_client "" 0) "DELETE" "/api/dashboards/uid/u" [] None None)
     = Ok None
  /\ snd (request (T := JSON.object) (world "" [] (fun _ => answer 200 ""))
            (plain_client "" 0) "DELETE" "/api/dashboards/uid/u" [] None (Some None))
     = Err (UnmarshalError JSON.SyntaxError).
Proof. repeat split; reflexivity. Qed.

Lemma request_fills_the_target {T : Type} {TT : JSON.Target T}
    (w : World) (c : Client) (method requestPath : string) (query : Values)
    (body0 : option Reader) (target : T) (tr : trace) (r : option T) :
  request w c method requestPath query body0 (Some target) = (tr, Ok r) ->
  exists target', r = Some target'.
Proof.
  unfold request.
  destruct (request_loop _ _ _ _ _ _ _ _) as [tr' [e|p|v]]; try discriminate.
  unfold request_finish, after.
  destruct (l_err v); [discriminate|].
  destruct (l_resp v) as [r'|]; [|discriminate].
  destruct (StatusCode r' >=? 400)%Z; [discriminate|].
  destruct (JSON.Unmarshal _ _); cbn; intros H; inversion H. eauto.
Qed.

(** C10: a dashboard returned by [dashboard], and so by [Dashboard] and
    [DashboardByUID], is the decoded one with its FolderID replaced by the
    decoded Meta.Folder, whatever folderId the body had at its top level. *)
Theorem C10_FolderID_from_meta (w : World) (c : Client) (path : string)
    (tr : trace) (d : Dashboard_) :
  dashboard w c path = (tr, Ok d) ->
  FolderID d = Folder (Meta d)
  /\ (exists decoded,
         request w c "GET" path [] None (Some (addr (zero : Dashboard_)))
         = (tr, Ok (Some (addr decoded)))
         /\ d = set_FolderID decoded (Folder (Meta decoded)))
  /\ (forall id, Dashboard w c id = dashboard w c ("/api/dashboards/db/" ++ id)
                 /\ DashboardByUID w c id = dashboard w c ("/api/dashboards/uid/" ++ id)).
Proof.
  unfold dashboard.
  destruct (request w c "GET" path [] None (Some (addr zero))) as [tr' [r|e|p]] eqn:Hreq;
    try discriminate.
  destruct (request_fills_the_target _ _ _ _ _ _ _ _ _ Hreq) as [[|d0] ->];
    intros H; inversion H; subst.
  split; [reflexivity|]. split; [|intros; split; reflexivity].
  exists d0. split; reflexivity.
Qed.

Lemma C10_FolderID_from_meta_witness :
  exists tr d,
    dashboard (world "" [] (fun _ => answer 200 dashboard_body)) (plain_client "" 0)
              "/api/dashboards/uid/u" = (tr, Ok d)
    /\ FolderID d = 7%Z
    /\ Folder (Meta d) = 7%Z.
Proof.
  eexists; eexists. split; [reflexivity|].
  destruct (C10_FolderID_from_meta
              (world "" [] (fun _ => answer 200 dashboard_body)) (plain_client "" 0)
              "/api/dashboards/uid/u" _ _ eq_refl) as [H _].
  split; [rewrite H|]; reflexivity.
Defined.

(** A [null] body is no successful fetch: the decoded pointer is nil and
    the assignment of FolderID panics. *)
Example dashboard_null_body :
  snd (dashboard (world "" [] (fun _ => answer 200 "null")) (plain_client "" 0)
                 "/api/dashboards/uid/u")
  = Panic NilPointerDereference.
Proof. reflexivity. Qed.

(** ** Request bodies on retries *)

(** C5, at the failing input: NumRetries 2, the body [abc] in a
    [*bytes.Buffer], the first two sends refused before anything of the body
    was read, the third answered.  The legacy [request] sends [abc] once and
    then an empty body twice; when the first send breaks after one byte was
    read it resends that one byte.  The generic [Request] sends the
    marshaled body on every attempt. *)
Theorem C5_request_resends_what_was_read :
  sent_bodies (fst (request (T := JSON.object) (world "" [] third_time_lucky)
                      (plain_client "" 2) "POST" "/api/dashboards/db" []
                      (Some (BytesBuffer "abc")) None))
  = [Some "abc"; Some ""; Some ""]
  /\ sent_bodies (fst (request (T := JSON.object) (world "" [] broken_after_one_byte)
                         (plain_client "" 2) "POST" "/api/dashboards/db" []
                         (Some (BytesBuffer "abc")) None))
     = [Some "abc"; Some "a"]
  /\ sent_bodies (fst (Request (ReqT := Z) (ResT := JSON.object)
                         (world "" [] third_time_lucky)
                         (plain_client "" 2) "POST" "/api/dashboards/import" []
                         (Some 1234%Z)))
     = [Some "1234"; Some "1234"; Some "1234"].
Proof. repeat split; reflexivity. Qed.

(** ** Verbose logging *)

(** C2, at the failing inputs.  With [GF_LOG] set, [newRequest] asserts
    that the body is a [*bytes.Buffer]: the generic [Request], whose body is
    a [*bytes.Reader], panics before it sends anything, where without
    logging it succeeds; the legacy [request] with retries configured and a
    body panics on the [TeeReader], and without a body it panics on its
    first retry, where without logging both succeed. *)
Theorem C2_logging_changes_the_outcome :
  Request (ReqT := Z) (ResT := JSON.object) (world "" [] (fun _ => answer 200 "{}"))
          (plain_client "" 0) "GET" "/api/search" [] None
  = ([EvDo 0 {| Method := "GET"; ReqURL := grafana "/api/search";
                ReqHeader := [("Content-Type", "application/json")];
                ReqBody := Some (BytesReader "") |}],
     Ok (Some []))
  /\ Request (ReqT := Z) (ResT := JSON.object) (world "1" [] (fun _ => answer 200 "{}"))
             (plain_client "" 0) "GET" "/api/search" [] None
     = ([], Panic (InterfaceConversion "*bytes.Reader"))
  /\ snd (request (T := JSON.object) (world "" [] (fun _ => answer 200 "{}"))
            (plain_client "" 1) "POST" "/api/dashboards/db" []
            (Some (BytesBuffer "abc")) None)
     = Ok None
  /\ request (T := JSON.object) (world "1" [] (fun _ => answer 200 "{}"))
             (plain_client "" 1) "POST" "/api/dashboards/db" []
             (Some (BytesBuffer "abc")) None
     = ([], Panic (InterfaceConversion "*io.teeReader"))
  /\ snd (request (T := JSON.object) (world "" [] second_time_lucky)
            (plain_client "" 1) "DELETE" "/api/dashboards/uid/u" [] None None)
     = Ok None
  /\ snd (request (T := JSON.object) (world "1" [] second_time_lucky)
            (plain_client "" 1) "DELETE" "/api/dashboards/uid/u" [] None None)
     = Panic (InterfaceConversion "*bytes.Reader").
Proof. repeat split; reflexivity. Qed.

(** ** The bodies that are sent *)

Lemma sent_bodies_app (tr1 tr2 : trace) :
  sent_bodies (tr1 ++ tr2)%list = (sent_bodies tr1 ++ sent_bodies tr2)%list.
Proof. unfold sent_bodies. rewrite sent_requests_app, map_app. reflexivity. Qed.

Lemma log_request_sends_nothing (w : World) (method : string) (u : URL)
    (body : option Reader) (log : trace) (p : option panic) :
  log_request w method u body = (log, p) -> sent_requests log = [].
Proof.
  unfold log_request. destruct (logging w); [destruct body as [[]|]|];
    intros H; inversion H; reflexivity.
Qed.

Lemma newRequest_sends_nothing (w : World) (c : Client) (method requestPath : string)
    (query : Values) (body : option Reader) (log : trace) (r : result http_Request) :
  newRequest w c method requestPath query body = (log, r) -> sent_requests log = [].
Proof.
  unfold newRequest. destruct (http_NewRequest _ _ _ _).
  - intros H; inversion H; reflexivity.
  - destruct (log_request _ _ _ _) as [l [p|]] eqn:Hlog; intros H; inversion H; subst.
    + reflexivity.
    + eapply log_request_sends_nothing; eauto.
Qed.

Lemma sent_requests_sleep_before (n : Z) : sent_requests (sleep_before n) = [].
Proof. unfold sleep_before. destruct (n =? 0)%Z; reflexivity. Qed.

Lemma sent_requests_attempt (log : trace) (n : Z) (req : http_Request) (rest : trace) :
  sent_requests log = [] ->
  sent_requests ((log ++ sleep_before n ++ [EvDo n req]) ++ rest)%list
  = req :: sent_requests rest.
Proof.
  intros Hlog. rewrite !sent_requests_app, Hlog, sent_requests_sleep_before. reflexivity.
Qed.

Lemma Request_loop_bodies (w : World) (c : Client) (method requestPath : string)
    (query : Values) (requestBytes : string) (k : nat) :
  forall (n : Z) (v : Request_vars) (tr : trace) (exit : loop_exit Request_vars),
    Request_loop w c method requestPath query requestBytes k n v = (tr, exit) ->
    Forall (fun r => body_bytes r = Some requestBytes) (sent_requests tr).
Proof.
  induction k as [|k IH]; intros n v tr exit; cbn [Request_loop].
  - intros H; inversion H. constructor.
  - destruct (newRequest _ _ _ _ _ _) as [log [req|e|p]] eqn:Hnew;
      try (intros H; inversion H; subst;
           rewrite (newRequest_sends_nothing _ _ _ _ _ _ _ _ Hnew); constructor).
    pose proof (newRequest_sends_nothing _ _ _ _ _ _ _ _ Hnew) as Hlog.
    apply newRequest_Ok in Hnew. destruct Hnew as [Hreq _].
    assert (Hbody : body_bytes req = Some requestBytes) by (rewrite Hreq; reflexivity).
    clear Hreq.
    assert (Hone : forall rest, Forall (fun r => body_bytes r = Some requestBytes)
                                       (sent_requests rest) ->
                                Forall (fun r => body_bytes r = Some requestBytes)
                                       (sent_requests
                                          ((log ++ sleep_before n ++ [EvDo n req]) ++ rest)%list)).
    { intros rest Hrest. rewrite sent_requests_attempt by exact Hlog.
      constructor; assumption. }
    assert (Hgo : forall v' tr' exit',
               after (log ++ sleep_before n ++ [EvDo n req])%list
                     (Request_loop w c method requestPath query requestBytes k (n + 1) v')
               = (tr', exit') ->
               Forall (fun r => body_bytes r = Some requestBytes) (sent_requests tr')).
    { intros v' tr' exit' H. apply after_inv in H. destruct H as (tr0 & Hl & ->).
      apply Hone. eapply IH. exact Hl. }
    assert (Hstop : forall exit' tr',
               ((log ++ sleep_before n ++ [EvDo n req])%list, exit') = (tr', exit) ->
               Forall (fun r => body_bytes r = Some requestBytes) (sent_requests tr')).
    { intros exit' tr' H. inversion H; subst.
      rewrite <- (app_nil_r (log ++ sleep_before n ++ [EvDo n req])).
      apply Hone. constructor. }
    destruct (err_of _); [apply Hgo|].
    destruct (resp_of _) as [r|]; [|apply Hstop].
    destruct (snd (ReadAll r)); [apply Hgo|].
    destruct (final _); [apply Hstop | apply Hgo].
Qed.

(** The generic [Request] sends the marshaled body, the same bytes, on
    every attempt it makes, whatever the transport answers. *)
Theorem Request_sends_the_marshaled_body {ReqT ResT : Type}
    {M : Marshaler ReqT} {T : JSON.Target ResT} {Z0 : Zero ResT}
    (w : World) (c : Client) (method requestPath : string) (query : Values)
    (requestBody : option ReqT) :
  match marshal_body requestBody with
  | inl requestBytes =>
      Forall (fun sent => sent = Some requestBytes)
             (sent_bodies (fst (Request (ResT := ResT) w c method requestPath query
                                        requestBody)))
  | inr _ =>
      sent_bodies (fst (Request (ResT := ResT) w c method requestPath query requestBody))
      = []
  end.
Proof.
  unfold Request. destruct (marshal_body requestBody) as [requestBytes|e]; [|reflexivity].
  destruct (Request_loop _ _ _ _ _ _ _ _ _) as [tr exit] eqn:Hloop.
  apply Request_loop_bodies in Hloop.
  assert (Hfst : fst (let err := None in
                      match exit with
                      | LoopReturn e => (tr, Err e)
                      | LoopPanic p => (tr, Panic p)
                      | LoopEnd v => (tr, Request_finish (ResT := ResT) err v)
                      end) = tr) by (destruct exit; reflexivity).
  cbv zeta in Hfst |- *. rewrite Hfst. unfold sent_bodies.
  apply Forall_map. exact Hloop.
Qed.

Lemma request_loop_resends (w : World) (c : Client) (method requestPath : string)
    (query : Values) (k : nat) :
  forall (n : Z) (v : request_vars) (tr : trace) (exit : loop_exit request_vars),
    (0 < n)%Z ->
    request_loop w c method requestPath query k n v = (tr, exit) ->
    Forall (fun r => body_bytes r = Some (bodyBuffer v)) (sent_requests tr).
Proof.
  induction k as [|k IH]; intros n v tr exit Hn; cbn [request_loop].
  - intros H; inversion H. constructor.
  - destruct (n >? 0)%Z eqn:Hpos; [|lia].
    destruct (newRequest _ _ _ _ _ _) as [log [req|e|p]] eqn:Hnew;
      try (intros H; inversion H; subst;
           rewrite (newRequest_sends_nothing _ _ _ _ _ _ _ _ Hnew); constructor).
    pose proof (newRequest_sends_nothing _ _ _ _ _ _ _ _ Hnew) as Hlog.
    apply newRequest_Ok in Hnew. destruct Hnew as [Hreq _].
    assert (Hbody : body_bytes req = Some (bodyBuffer v)) by (rewrite Hreq; reflexivity).
    clear Hreq.
    assert (Hone : forall rest, Forall (fun r => body_bytes r = Some (bodyBuffer v))
                                       (sent_requests rest) ->
                                Forall (fun r => body_bytes r = Some (bodyBuffer v))
                                       (sent_requests
                                          ((log ++ sleep_before n ++ [EvDo n req]) ++ rest)%list)).
    { intros rest Hrest. rewrite sent_requests_attempt by exact Hlog.
      constructor; assumption. }
    assert (Hgo : forall v' tr' exit',
               bodyBuffer v' = bodyBuffer v ->
               after (log ++ sleep_before n ++ [EvDo n req])%list
                     (request_loop w c method requestPath query k (n + 1) v')
               = (tr', exit') ->
               Forall (fun r => body_bytes r = Some (bodyBuffer v)) (sent_requests tr')).
    { intros v' tr' exit' Hbuf H. apply after_inv in H. destruct H as (tr0 & Hl & ->).
      apply Hone. rewrite <- Hbuf. eapply IH; [|exact Hl]. lia. }
    assert (Hstop : forall exit' tr',
               ((log ++ sleep_before n ++ [EvDo n req])%list, exit') = (tr', exit) ->
               Forall (fun r => body_bytes r = Some (bodyBuffer v)) (sent_requests tr')).
    { intros exit' tr' H. inversion H; subst.
      rewrite <- (app_nil_r (log ++ sleep_before n ++ [EvDo n req])).
      apply Hone. constructor. }
    destruct (err_of _); [apply Hgo; reflexivity|].
    destruct (resp_of _) as [r|]; [|apply Hstop].
    destruct (snd (ReadAll r)); [apply Hgo; reflexivity|].
    destruct (final _); [apply Hstop | apply Hgo; reflexivity].
Qed.

Lemma request_finish_sends_nothing {T : Type} {TT : JSON.Target T} (w : World)
    (responseStruct : option T) (v : request_vars) :
  sent_requests (fst (request_finish w responseStruct v)) = [].
Proof.
  unfold request_finish. destruct (l_err v); [reflexivity|].
  destruct (l_resp v) as [r|]; [|reflexivity].
  destruct (logging w), (StatusCode r >=? 400)%Z; try reflexivity;
    destruct responseStruct; try reflexivity; destruct (JSON.Unmarshal _ _); reflexivity.
Qed.

Lemma request_sends_what_its_loop_sends {T : Type} {TT : JSON.Target T}
    (w : World) (c : Client) (method requestPath : string) (query : Values)
    (body0 : option Reader) (responseStruct : option T) :
  sent_requests (fst (request w c method requestPath query body0 responseStruct))
  = sent_requests (fst (request_loop w c method requestPath query (iterations c) 0
                          (request_start c body0))).
Proof.
  unfold request.
  destruct (request_loop _ _ _ _ _ _ _ _) as [tr [e|p|v]]; try reflexivity.
  unfold after; cbn [fst]. rewrite sent_requests_app, request_finish_sends_nothing.
  apply app_nil_r.
Qed.

Lemma request_loop_first_and_retries (w : World) (c : Client)
    (method requestPath : string) (query : Values) (k : nat) (v : request_vars) :
  match sent_requests (fst (request_loop w c method requestPath query k 0 v)) with
  | [] => True
  | first :: retries =>
      body_bytes first = option_map Reader_bytes (body v)
      /\ Forall (fun r => body_bytes r
                          = Some (tee (body v) (consumed (Do w (client c) 0 first))
                                      (bodyBuffer v)))
                retries
  end.
Proof.
  destruct k as [|k]; cbn [request_loop]; [exact I|].
  change (0 >? 0)%Z with false. cbv iota.
  destruct (newRequest _ _ _ _ _ _) as [log [req|e|p]] eqn:Hnew;
    try (cbn [fst]; rewrite (newRequest_sends_nothing _ _ _ _ _ _ _ _ Hnew); exact I).
  pose proof (newRequest_sends_nothing _ _ _ _ _ _ _ _ Hnew) as Hlog.
  apply newRequest_Ok in Hnew. destruct Hnew as [Hreq _].
  assert (Hbody : body_bytes req = option_map Reader_bytes (body v))
    by (rewrite Hreq; reflexivity).
  clear Hreq.
  assert (Hgo : forall v',
             bodyBuffer v' = tee (body v) (consumed (Do w (client c) 0 req)) (bodyBuffer v) ->
             match sent_requests
                     (fst (after (log ++ sleep_before 0 ++ [EvDo 0 req])%list
                                 (request_loop w c method requestPath query k (0 + 1) v')))
             with
             | [] => True
             | first :: retries =>
                 body_bytes first = option_map Reader_bytes (body v)
                 /\ Forall (fun r => body_bytes r
                                     = Some (tee (body v)
                                                 (consumed (Do w (client c) 0 first))
                                                 (bodyBuffer v)))
                           retries
             end).
  { intros v' Hbuf.
    destruct (request_loop w c method requestPath query k (0 + 1) v') as [tr exit] eqn:Hl.
    unfold after; cbn [fst snd].
    rewrite sent_requests_attempt by exact Hlog.
    split; [exact Hbody|]. rewrite <- Hbuf.
    eapply request_loop_resends; [|exact Hl]. lia. }
  assert (Hstop : forall exit : loop_exit request_vars,
             match sent_requests
                     (fst ((log ++ sleep_before 0 ++ [EvDo 0 req])%list, exit))
             with
             | [] => True
             | first :: retries =>
                 body_bytes first = option_map Reader_bytes (body v)
                 /\ Forall (fun r => body_bytes r
                                     = Some (tee (body v)
                                                 (consumed (Do w (client c) 0 first))
                                                 (bodyBuffer v)))
                           retries
             end).
  { intros exit. cbn [fst].
    rewrite <- (app_nil_r (log ++ sleep_before 0 ++ [EvDo 0 req])).
    rewrite sent_requests_attempt by exact Hlog. cbn [sent_requests flat_map].
    split; [exact Hbody | constructor]. }
  destruct (err_of _); [apply Hgo; reflexivity|].
  destruct (resp_of _) as [r|]; [|apply Hstop].
  destruct (snd (ReadAll r)); [apply Hgo; reflexivity|].
  destruct (final _); [apply Hstop | apply Hgo; reflexivity].
Qed.

(** On the legacy path the first attempt sends the caller's body, and every
    retry sends what the transport read of it during the first attempt (and
    an empty body when no body was given): the original bytes when the first
    attempt read them all, a prefix of them otherwise. *)
Theorem request_resends_the_stash {T : Type} {TT : JSON.Target T}
    (w : World) (c : Client) (method requestPath : string) (query : Values)
    (body0 : option Reader) (responseStruct : option T) :
  match sent_requests (fst (request w c method requestPath query body0 responseStruct)) with
  | [] => True
  | first :: retries =>
      body_bytes first = option_map Reader_bytes body0
      /\ Forall (fun r => body_bytes r
                          = Some match body0 with
                                 | Some b => Str.take (consumed (Do w (client c) 0 first))
                                                      (Reader_bytes b)
                                 | None => ""
                                 end)
                retries
      /\ (forall b, body0 = Some b ->
                    String.length (Reader_bytes b) <= consumed (Do w (client c) 0 first) ->
                    Forall (fun r => body_bytes r = Some (Reader_bytes b)) (first :: retries))
  end.
Proof.
  rewrite request_sends_what_its_loop_sends.
  pose proof (request_loop_first_and_retries w c method requestPath query (iterations c)
                (request_start c body0)) as H.
  destruct (sent_requests _) as [|first retries] eqn:Hsent; [exact I|].
  destruct H as [Hfirst Hretries].
  assert (Hfirst' : body_bytes first = option_map Reader_bytes body0).
  { rewrite Hfirst. unfold request_start; cbn [body].
    destruct body0 as [b|]; [|reflexivity].
    destruct (NumRetries (config c) >? 0)%Z; reflexivity. }
  assert (Hretries' :
            Forall (fun r => body_bytes r
                             = Some match body0 with
                                    | Some b => Str.take (consumed (Do w (client c) 0 first))
                                                         (Reader_bytes b)
                                    | None => ""
                                    end) retries).
  { destruct (NumRetries (config c) >? 0)%Z eqn:HN.
    - revert Hretries. apply Forall_impl. intros r ->. f_equal.
      unfold request_start; cbn [body bodyBuffer]. rewrite HN.
      destruct body0; reflexivity.
    - assert (Hk : iterations c <= 1) by (unfold iterations; lia).
      assert (retries = []) as ->; [|constructor].
      clear - Hsent Hk.
      destruct (iterations c) as [|[|k]]; [discriminate| |lia].
      revert Hsent. cbn [request_loop].
      destruct (newRequest _ _ _ _ _ _) as [log [req|e|p]] eqn:Hnew;
        try (cbn [fst]; rewrite (newRequest_sends_nothing _ _ _ _ _ _ _ _ Hnew);
             discriminate).
      pose proof (newRequest_sends_nothing _ _ _ _ _ _ _ _ Hnew) as Hlog.
      assert (Hone : sent_requests (log ++ sleep_before 0 ++ [EvDo 0 req])%list = [req]).
      { rewrite <- (app_nil_r (log ++ _)). rewrite sent_requests_attempt by exact Hlog.
        reflexivity. }
      destruct (err_of _); [|destruct (resp_of _) as [r|];
                              [destruct (snd (ReadAll r)); [|destruct (final _)]|]];
        unfold after; cbn [fst request_loop]; rewrite ?app_nil_r, Hone;
        intros H; inversion H; reflexivity. }
  split; [exact Hfirst'|]. split; [exact Hretries'|].
  intros b -> Hlen. constructor; [exact Hfirst'|].
  revert Hretries'. apply Forall_impl. intros r ->.
  rewrite take_ge by exact Hlen. reflexivity.
Qed.

(** ** Logging, in general *)

Lemma newRequest_logging_Reader (w : World) (c : Client) (method requestPath : string)
    (query : Values) (bytes : string) :
  logging w = true ->
  (exists msg, newRequest w c method requestPath query (Some (BytesReader bytes))
               = ([], Err (NewRequestError msg)))
  \/ newRequest w c method requestPath query (Some (BytesReader bytes))
     = ([], Panic (InterfaceConversion "*bytes.Reader")).
Proof.
  intros Hlog. unfold newRequest, log_request. rewrite Hlog.
  destruct (http_NewRequest _ _ _ _) as [msg|req]; [left; eauto | right; reflexivity].
Qed.

(** With [GF_LOG] set the generic [Request] sends nothing and never
    succeeds: it ends with the error of marshaling or of building the
    request, or it panics. *)
Theorem Request_with_logging_sends_nothing {ReqT ResT : Type}
    {M : Marshaler ReqT} {T : JSON.Target ResT} {Z0 : Zero ResT}
    (w : World) (c : Client) (method requestPath : string) (query : Values)
    (requestBody : option ReqT) :
  logging w = true ->
  fst (Request (ResT := ResT) w c method requestPath query requestBody) = []
  /\ match snd (Request (ResT := ResT) w c method requestPath query requestBody) with
     | Ok _ => False
     | Err (MarshalError _) | Err (NewRequestError _) => True
     | Err _ => False
     | Panic _ => True
     end.
Proof.
  intros Hlog. unfold Request.
  destruct (marshal_body requestBody) as [requestBytes|e]; [|split; [reflexivity|exact I]].
  destruct (iterations c) as [|k]; cbn [Request_loop].
  - split; [reflexivity | exact I].
  - destruct (newRequest_logging_Reader w c method requestPath query requestBytes Hlog)
      as [[msg ->] | ->]; split; try reflexivity; exact I.
Qed.

Lemma Request_with_logging_sends_nothing_witness :
  logging (world "debug" [] (fun _ => answer 200 "{}")) = true
  /\ fst (Request (ReqT := Z) (ResT := JSON.object)
            (world "debug" [] (fun _ => answer 200 "{}"))
            (plain_client "" 3) "GET" "/api/search" [("type", ["dash-db"])] None) = []
  /\ match snd (Request (ReqT := Z) (ResT := JSON.object)
                  (world "debug" [] (fun _ => answer 200 "{}"))
                  (plain_client "" 3) "GET" "/api/search" [("type", ["dash-db"])] None)
     with
     | Ok _ => False
     | Err (MarshalError _) | Err (NewRequestError _) => True
     | Err _ => False
     | Panic _ => True
     end.
Proof.
  split; [reflexivity|].
  exact (Request_with_logging_sends_nothing (ReqT := Z) (ResT := JSON.object)
           (world "debug" [] (fun _ => answer 200 "{}"))
           (plain_client "" 3) "GET" "/api/search" [("type", ["dash-db"])] None eq_refl).
Defined.

(** On the legacy path logging does not change what is sent or what is
    returned as long as there is no retry and the body is nil or a
    [*bytes.Buffer]. *)
Theorem request_logging_without_retries {T : Type} {TT : JSON.Target T}
    (w : World) (gf_log : string) (c : Client) (method requestPath : string)
    (query : Values) (body0 : option Reader) (responseStruct : option T) :
  (NumRetries (config c) <= 0)%Z ->
  (body0 = None \/ exists b, body0 = Some (BytesBuffer b)) ->
  snd (request (with_GF_LOG w gf_log) c method requestPath query body0 responseStruct)
  = snd (request (with_GF_LOG w "") c method requestPath query body0 responseStruct)
  /\ sent_requests
       (fst (request (with_GF_LOG w gf_log) c method requestPath query body0 responseStruct))
     = sent_requests
         (fst (request (with_GF_LOG w "") c method requestPath query body0 responseStruct)).
Proof.
  intros HN Hbody.
  assert (Hk : iterations c = 0 \/ iterations c = 1) by (unfold iterations; lia).
  assert (Hstart : body (request_start c body0) = body0).
  { unfold request_start; cbn [body]. destruct body0; [|reflexivity].
    destruct (NumRetries (config c) >? 0)%Z eqn:E; [lia | reflexivity]. }
  unfold request. destruct Hk as [-> | ->]; cbn [request_loop].
  - split; reflexivity.
  - change (0 >? 0)%Z with false. cbv iota. rewrite Hstart.
    unfold newRequest, http_NewRequest, log_request, request_finish, logging.
    cbn [GF_LOG url_Parse_error with_GF_LOG Do header_map].
    change (configured_headers (with_GF_LOG w gf_log) c)
      with (configured_headers (with_GF_LOG w "") c).
    destruct (validMethod _); [|split; reflexivity].
    destruct (url_Parse_error w _); [split; reflexivity|].
    assert (Hcases : body0 = None \/ exists b, body0 = Some (BytesBuffer b)) by exact Hbody.
    destruct Hcases as [-> | [b ->]];
      destruct (Str.is_empty gf_log); cbn [negb Str.is_empty];
      match goal with
      | |- context [Do w (client c) 0 ?r] => destruct (Do w (client c) 0 r) as [k [r'|] [e|]]
      end; cbn [err_of resp_of consumed after fst snd request_loop];
      try (split; reflexivity);
      try (destruct (snd (ReadAll r')); cbn [option_map l_err l_resp];
           try (split; reflexivity);
           destruct (final (StatusCode r')); cbn [after fst snd request_loop l_err l_resp];
           destruct (StatusCode r' >=? 400)%Z; try (split; reflexivity);
           destruct responseStruct; try (split; reflexivity);
           destruct (JSON.Unmarshal _ _); split; reflexivity).
Qed.

Lemma request_logging_without_retries_witness :
  snd (request (T := JSON.object)
         (with_GF_LOG (world "" [] (fun _ => answer 200 "{}")) "debug")
         (plain_client "" 0) "POST" "/api/dashboards/db" []
         (Some (BytesBuffer "abc")) (Some None))
  = snd (request (T := JSON.object)
           (with_GF_LOG (world "" [] (fun _ => answer 200 "{}")) "")
           (plain_client "" 0) "POST" "/api/dashboards/db" []
           (Some (BytesBuffer "abc")) (Some None))
  /\ sent_requests
       (fst (request (T := JSON.object)
               (with_GF_LOG (world "" [] (fun _ => answer 200 "{}")) "debug")
               (plain_client "" 0) "POST" "/api/dashboards/db" []
               (Some (BytesBuffer "abc")) (Some None)))
     = sent_requests
         (fst (request (T := JSON.object)
                 (with_GF_LOG (world "" [] (fun _ => answer 200 "{}")) "")
                 (plain_client "" 0) "POST" "/api/dashboards/db" []
                 (Some (BytesBuffer "abc")) (Some None))).
Proof.
  apply (request_logging_without_retries (T := JSON.object)
           (world "" [] (fun _ => answer 200 "{}")) "debug"
           (plain_client "" 0) "POST" "/api/dashboards/db" []
           (Some (BytesBuffer "abc")) (Some None)).
  - cbn. lia.
  - right. eexists. reflexivity.
Defined.

(** ** Joining paths, in general *)

Lemma append_nil_r (s : string) : s ++ "" = s.
Proof. induction s; cbn; congruence. Qed.

Lemma append_assoc (a b c : string) : (a ++ b) ++ c = a ++ (b ++ c).
Proof. induction a; cbn; congruence. Qed.

Lemma split_cons (s : string) : exists h t, Str.split GoPath.slash s = h :: t.
Proof.
  induction s as [|c r IH]; cbn [Str.split]; [eauto|].
  destruct (Ascii.eqb c GoPath.slash); [eauto|].
  destruct IH as (h & t & ->). eauto.
Qed.

Lemma split_no_slash (s : string) :
  has_slash s = false -> Str.split GoPath.slash s = [s].
Proof.
  induction s as [|c r IH]; cbn [has_slash Str.split]; [reflexivity|].
  intros H. apply orb_false_iff in H. destruct H as [Hc Hr].
  rewrite Hc, (IH Hr). reflexivity.
Qed.

Lemma split_append (x y : string) :
  Str.split GoPath.slash (x ++ String GoPath.slash y)
  = (Str.split GoPath.slash x ++ Str.split GoPath.slash y)%list.
Proof.
  induction x as [|c r IH]; cbn [append Str.split].
  - rewrite Ascii.eqb_refl. reflexivity.
  - destruct (Ascii.eqb c GoPath.slash).
    + rewrite IH. reflexivity.
    + rewrite IH. destruct (split_cons r) as (h & t & ->). reflexivity.
Qed.

Lemma split_join (segs : list string) :
  segs <> [] -> forallb (fun s => negb (has_slash s)) segs = true ->
  Str.split GoPath.slash (Str.join "/" segs) = segs.
Proof.
  induction segs as [|x [|y r] IH]; intros Hne Hall; [congruence| |].
  - cbn in *. rewrite andb_true_r in Hall. apply negb_true_iff in Hall.
    apply split_no_slash; assumption.
  - cbn [forallb] in Hall. apply andb_true_iff in Hall. destruct Hall as [Hx Hr].
    apply negb_true_iff in Hx.
    change (Str.join "/" (x :: y :: r)) with (x ++ String GoPath.slash (Str.join "/" (y :: r))).
    rewrite split_append, (split_no_slash _ Hx), IH; [reflexivity|congruence|exact Hr].
Qed.

Lemma split_slashes (l t : bool) (core : string) :
  Str.split GoPath.slash (slashes l core t)
  = ((if l then [""] else []) ++ Str.split GoPath.slash core ++ (if t then [""] else []))%list.
Proof.
  assert (Htail : Str.split GoPath.slash (core ++ (if t then "/" else ""))
                  = (Str.split GoPath.slash core ++ (if t then [""] else []))%list).
  { destruct t.
    - change "/" with (String GoPath.slash ""). rewrite split_append. reflexivity.
    - rewrite append_nil_r, app_nil_r. reflexivity. }
  unfold slashes. destruct l; cbn [append app]; [|exact Htail].
  cbn [Str.split]. change (Ascii.eqb "/" GoPath.slash) with true. cbv iota.
  rewrite Htail. reflexivity.
Qed.

Lemma plain_step (root : bool) (kept : list string) (seg : string) :
  plain seg = true -> GoPath.clean_step root kept seg = seg :: kept.
Proof.
  unfold plain, GoPath.clean_step. intros H.
  apply andb_true_iff in H. destruct H as [H Hdd].
  apply andb_true_iff in H. destruct H as [H Hd].
  apply andb_true_iff in H. destruct H as [He _].
  apply negb_true_iff in Hdd, Hd, He.
  rewrite Hd, Hdd. destruct seg; [discriminate | reflexivity].
Qed.

Lemma clean_plain_or_empty (root : bool) (segs : list string) :
  forallb (fun s => Str.is_empty s || plain s) segs = true ->
  forall kept,
    fold_left (GoPath.clean_step root) segs kept
    = (rev (filter (fun s => negb (Str.is_empty s)) segs) ++ kept)%list.
Proof.
  induction segs as [|s segs IH]; intros Hall kept; [reflexivity|].
  cbn [forallb] in Hall. apply andb_true_iff in Hall. destruct Hall as [Hs Hall].
  cbn [fold_left filter]. rewrite (IH Hall).
  destruct (Str.is_empty s) eqn:He; cbn [negb].
  - destruct s; [reflexivity | discriminate].
  - cbn [orb] in Hs. rewrite (plain_step _ _ _ Hs). cbn [rev].
    rewrite <- app_assoc. reflexivity.
Qed.

Lemma plain_facts (segs : list string) :
  forallb plain segs = true ->
  forallb (fun s => negb (has_slash s)) segs = true
  /\ forallb (fun s => Str.is_empty s || plain s) segs = true
  /\ filter (fun s => negb (Str.is_empty s)) segs = segs.
Proof.
  induction segs as [|s segs IH]; intros H; [repeat split|].
  cbn [forallb] in H. apply andb_true_iff in H. destruct H as [Hs H].
  destruct (IH H) as (H1 & H2 & H3). cbn [forallb filter].
  rewrite H1, H2, H3, Hs, orb_true_r.
  unfold plain in Hs.
  apply andb_true_iff in Hs. destruct Hs as [Hs _].
  apply andb_true_iff in Hs. destruct Hs as [Hs _].
  apply andb_true_iff in Hs. destruct Hs as [He Hn].
  rewrite He, Hn. repeat split.
Qed.

Lemma join_plain_nonempty (segs : list string) :
  segs <> [] -> forallb plain segs = true ->
  exists c r, Str.join "/" segs = String c r /\ Ascii.eqb c GoPath.slash = false.
Proof.
  destruct segs as [|s segs]; [congruence|]. intros _ H.
  cbn [forallb] in H. apply andb_true_iff in H. destruct H as [Hs _].
  unfold plain in Hs.
  apply andb_true_iff in Hs. destruct Hs as [Hs _].
  apply andb_true_iff in Hs. destruct Hs as [Hs _].
  apply andb_true_iff in Hs. destruct Hs as [He Hn].
  apply negb_true_iff in Hn.
  destruct s as [|c r]; [discriminate|].
  cbn [has_slash] in Hn. apply orb_false_iff in Hn. destruct Hn as [Hc _].
  destruct segs; cbn [Str.join append]; eauto.
Qed.

(** [path.Join] of a base path and a call path made of plain elements
    keeps every element, in order, with one separator between two of them,
    whatever separators the two paths start or end with; the result starts
    with a separator exactly when the base path does. *)
Theorem Join_keeps_every_segment (bs cs : list string) (lb tb lc tc : bool) :
  bs <> [] -> cs <> [] ->
  forallb plain bs = true -> forallb plain cs = true ->
  GoPath.Join [slashes lb (Str.join "/" bs) tb; slashes lc (Str.join "/" cs) tc]
  = (if lb then "/" else "") ++ Str.join "/" (bs ++ cs).
Proof.
  intros Hbs Hcs Pbs Pcs.
  destruct (plain_facts _ Pbs) as (Sb & Eb & Fb).
  destruct (plain_facts _ Pcs) as (Sc & Ec & Fc).
  destruct (join_plain_nonempty _ Hbs Pbs) as (c0 & r0 & Hjoin & Hc0).
  set (a := slashes lb (Str.join "/" bs) tb).
  set (b := slashes lc (Str.join "/" cs) tc).
  assert (Ha : exists c r, a = String c r /\ Ascii.eqb c GoPath.slash = lb).
  { unfold a, slashes. rewrite Hjoin. destruct lb; cbn [append]; eauto. }
  destruct Ha as (ca & ra & Ha & Hroot).
  assert (Hbuf : GoPath.Join [a; b] = GoPath.Clean (a ++ String GoPath.slash b)).
  { unfold GoPath.Join. cbn [forallb GoPath.join_buf]. rewrite Ha.
    cbn [Str.is_empty andb negb orb append]. rewrite append_assoc. reflexivity. }
  rewrite Hbuf. unfold GoPath.Clean.
  assert (Hne : Str.is_empty (a ++ String GoPath.slash b) = false)
    by (rewrite Ha; reflexivity).
  assert (Hrooted : GoPath.rooted (a ++ String GoPath.slash b) = lb)
    by (rewrite Ha; exact Hroot).
  rewrite Hne, Hrooted. cbv zeta.
  assert (Hsegs : GoPath.clean_segments lb (Str.split GoPath.slash (a ++ String GoPath.slash b))
                  = (bs ++ cs)%list).
  { unfold GoPath.clean_segments. rewrite split_append. unfold a, b.
    rewrite !split_slashes, !split_join by assumption.
    rewrite clean_plain_or_empty.
    - rewrite app_nil_r, rev_involutive.
      rewrite !filter_app, Fb, Fc.
      destruct lb, tb, lc, tc; cbn [filter Str.is_empty negb app];
        rewrite ?app_nil_r; reflexivity.
    - rewrite !forallb_app, Eb, Ec. destruct lb, tb, lc, tc; reflexivity. }
  rewrite Hsegs.
  destruct lb; [reflexivity|].
  destruct (join_plain_nonempty (bs ++ cs)) as (c1 & r1 & -> & _).
  - destruct bs; [congruence | discriminate].
  - rewrite forallb_app, Pbs, Pcs. reflexivity.
  - reflexivity.
Qed.

Lemma Join_keeps_every_segment_witness :
  GoPath.Join [slashes true (Str.join "/" ["grafana"; "api"]) true;
               slashes true (Str.join "/" ["dashboards"; "uid"; "abc"]) false]
  = "/grafana/api/dashboards/uid/abc".
Proof.
  apply (Join_keeps_every_segment ["grafana"; "api"] ["dashboards"; "uid"; "abc"]
           true true true false); [discriminate | discriminate | reflexivity | reflexivity].
Defined.

(* ================================================================== *)
(** * More of the package *)
(* ================================================================== *)

(** ** [newRequest], in full *)


Lemma filter_permutation {A : Type} (f : A -> bool) (l l' : list A) :
  Permutation l l' -> Permutation (filter f l) (filter f l').
Proof.
  induction 1; cbn.
  - constructor.
  - destruct (f x); [constructor|]; assumption.
  - destruct (f x), (f y);
      first [apply perm_swap | apply Permutation_refl].
  - eapply Permutation_trans; eassumption.
Qed.

Lemma filter_unique {A : Type} (g : A -> string) (k : string) (l : list A) :
  NoDup (map g l) ->
  length (filter (fun x => (g x =? k)%string) l) <= 1.
Proof.
  induction l as [|x l IH]; cbn; intros H; [lia|].
  inversion H as [|? ? Hnotin Hnd]; subst.
  destruct (g x =? k)%string eqn:E; [|auto].
  cbn. apply String.eqb_eq in E.
  assert (Hnil : filter (fun y => (g y =? k)%string) l = []).
  { destruct (filter (fun y => (g y =? k)%string) l) as [|y rest] eqn:F; [reflexivity|].
    exfalso. apply Hnotin.
    assert (Hy : In y (filter (fun y => (g y =? k)%string) l)) by (rewrite F; left; reflexivity).
    apply filter_In in Hy. destruct Hy as [Hin Hk]. apply String.eqb_eq in Hk.
    rewrite E, <- Hk. apply in_map. exact Hin. }
  rewrite Hnil. cbn. lia.
Qed.

Lemma permutation_short {A : Type} (l l' : list A) :
  Permutation l l' -> length l <= 1 -> l = l'.
Proof.
  intros HP Hlen. destruct l as [|x [|y l]]; cbn in Hlen; try lia.
  - apply Permutation_nil in HP. congruence.
  - apply Permutation_length_1_inv in HP. congruence.
Qed.

(** The order in which [range] walks the header map does not show in the
    request: for two walks of the same entries, one a permutation of the
    other, whose keys are distinct in canonical form, the requests that
    [newRequest] builds have the same method, URL and body and, under
    every key, the same header values in the same order. *)
Theorem newRequest_header_map_order (w1 w2 : World) (c : Client)
    (method requestPath : string) (query : Values) (body : option Reader)
    (log1 log2 : trace) (req1 req2 : http_Request) :
  Permutation (custom_headers w1 c) (custom_headers w2 c) ->
  NoDup (map (fun kv => CanonicalMIMEHeaderKey (fst kv)) (custom_headers w1 c)) ->
  newRequest w1 c method requestPath query body = (log1, Ok req1) ->
  newRequest w2 c method requestPath query body = (log2, Ok req2) ->
  Method req1 = Method req2
  /\ ReqURL req1 = ReqURL req2
  /\ ReqBody req1 = ReqBody req2
  /\ forall key, Header_Values (ReqHeader req1) key = Header_Values (ReqHeader req2) key.
Proof.
  intros HP Hnd H1 H2.
  apply newRequest_Ok in H1. destruct H1 as [-> _].
  apply newRequest_Ok in H2. destruct H2 as [-> _].
  cbn [Method ReqURL ReqBody ReqHeader]. repeat split.
  intros key. rewrite !Header_Values_Add, !configured_headers_values.
  do 3 f_equal.
  f_equal.
  apply permutation_short.
  - apply filter_permutation. exact HP.
  - apply (filter_unique (fun kv => CanonicalMIMEHeaderKey (fst kv))). exact Hnd.
Qed.

Lemma newRequest_header_map_order_witness :
  exists log1 req1 log2 req2,
    newRequest (world "" [("x-team", "a"); ("x-trace", "on")] (fun _ => refused))
               keyed_client "GET" "/search" [] None = (log1, Ok req1)
    /\ newRequest (world "" [("x-trace", "on"); ("x-team", "a")] (fun _ => refused))
                  keyed_client "GET" "/search" [] None = (log2, Ok req2)
    /\ Method req1 = Method req2
    /\ ReqURL req1 = ReqURL req2
    /\ ReqBody req1 = ReqBody req2
    /\ forall key, Header_Values (ReqHeader req1) key = Header_Values (ReqHeader req2) key.
Proof.
  do 4 eexists. split; [reflexivity|]. split; [reflexivity|].
  eapply (newRequest_header_map_order
           (world "" [("x-team", "a"); ("x-trace", "on")] (fun _ => refused))
           (world "" [("x-trace", "on"); ("x-team", "a")] (fun _ => refused))
           keyed_client "GET" "/search" [] None _ _ _ _).
  - apply perm_swap.
  - cbn. repeat constructor; cbn; intuition discriminate.
  - reflexivity.
  - reflexivity.
Defined.

(** ** [WithOrgID] and [New], seen from the requests *)

(** Requests of the client that [WithOrgID] returns.  [newRequest] ends
    for it as for the original client: the same log, the same error or
    panic, a request where the original gives one.  The request has the
    same method, URL and body, and the same values under every header key
    other than [X-Grafana-Org-Id]; under that key, when no entry of the
    header map is filed there, it has the one value [orgID] in decimal,
    and no value when [orgID] is 0. *)
Theorem WithOrgID_changes_only_the_org_header (w : World) (c c' : Client) (orgID : Z)
    (h : Heap) (method requestPath : string) (query : Values) (body : option Reader) :
  deref (fst (WithOrgID c orgID h)) (snd (WithOrgID c orgID h)) = Some c' ->
  fst (newRequest w c' method requestPath query body)
  = fst (newRequest w c method requestPath query body)
  /\ snd (newRequest w c' method requestPath query body)
     = match snd (newRequest w c method requestPath query body) with
       | Ok _ => Ok (built_request w c' method requestPath query body)
       | Err e => Err e
       | Panic p => Panic p
       end
  /\ Method (built_request w c' method requestPath query body)
     = Method (built_request w c method requestPath query body)
  /\ ReqURL (built_request w c' method requestPath query body)
     = ReqURL (built_request w c method requestPath query body)
  /\ ReqBody (built_request w c' method requestPath query body)
     = ReqBody (built_request w c method requestPath query body)
  /\ (forall key,
         CanonicalMIMEHeaderKey key <> "X-Grafana-Org-Id" ->
         Header_Values (ReqHeader (built_request w c' method requestPath query body)) key
         = Header_Values (ReqHeader (built_request w c method requestPath query body)) key)
  /\ (collides (custom_headers w c) "X-Grafana-Org-Id" = false ->
      Header_Values (ReqHeader (built_request w c' method requestPath query body))
                    "X-Grafana-Org-Id"
      = if (orgID =? 0)%Z then [] else [FormatInt10 orgID]).
Proof.
  intros Hderef. unfold WithOrgID in Hderef. rewrite deref_alloc_new in Hderef.
  inversion Hderef; subst c'; clear Hderef.
  set (c' := {| config := set_OrgID (config c) orgID; baseURL := baseURL c;
                client := client c |}).
  assert (Hurl : request_url c' requestPath query = request_url c requestPath query)
    by reflexivity.
  assert (Hcustom : custom_headers w c' = custom_headers w c) by reflexivity.
  split; [|split; [|split; [|split; [|split; [|split]]]]]; try reflexivity.
  - unfold newRequest, http_NewRequest. rewrite Hurl.
    destruct (validMethod _); [|reflexivity].
    destruct (url_Parse_error w _); [reflexivity|].
    destruct (log_request w method _ body) as [l [p|]]; reflexivity.
  - unfold newRequest, http_NewRequest, built_request. rewrite Hurl.
    destruct (validMethod _); [|reflexivity].
    destruct (url_Parse_error w _); [reflexivity|].
    destruct (log_request w method _ body) as [l [p|]]; reflexivity.
  - intros key Hkey. unfold built_request; cbn [ReqHeader].
    rewrite !Header_Values_Add, !configured_headers_values, Hcustom.
    change (CanonicalMIMEHeaderKey "X-Grafana-Org-Id") with "X-Grafana-Org-Id".
    assert (Hne : ("X-Grafana-Org-Id" =? CanonicalMIMEHeaderKey key)%string = false).
    { apply String.eqb_neq. congruence. }
    rewrite Hne, !andb_false_r. reflexivity.
  - intros Hno. unfold built_request; cbn [ReqHeader].
    rewrite Header_Values_Add, configured_headers_values, Hcustom.
    rewrite (no_collision_filter _ _ Hno).
    change (CanonicalMIMEHeaderKey "X-Grafana-Org-Id") with "X-Grafana-Org-Id".
    change (CanonicalMIMEHeaderKey "Authorization") with "Authorization".
    change (CanonicalMIMEHeaderKey "Content-Type") with "Content-Type".
    cbn [String.eqb Ascii.eqb Bool.eqb andb]. rewrite andb_false_r.
    cbn [config OrgID set_OrgID c'].
    destruct (orgID =? 0)%Z; reflexivity.
Qed.

Lemma WithOrgID_changes_only_the_org_header_witness :
  let w := world "" [("x-team", "a")] (fun _ => refused) in
  let c' := {| config := set_OrgID (config keyed_client) 7; baseURL := baseURL keyed_client;
               client := client keyed_client |} in
  snd (newRequest w c' "GET" "/search" [] None)
  = Ok (built_request w c' "GET" "/search" [] None)
  /\ Header_Values (ReqHeader (built_request w c' "GET" "/search" [] None)) "X-Grafana-Org-Id"
     = ["7"]
  /\ Header_Values (ReqHeader (built_request w c' "GET" "/search" [] None)) "Authorization"
     = Header_Values (ReqHeader (built_request w keyed_client "GET" "/search" [] None))
                     "Authorization".
Proof.
  destruct (WithOrgID_changes_only_the_org_header
              (world "" [("x-team", "a")] (fun _ => refused)) keyed_client
              {| config := set_OrgID (config keyed_client) 7; baseURL := baseURL keyed_client;
                 client := client keyed_client |}
              7 [] "GET" "/search" [] None eq_refl)
    as (_ & Hsnd & _ & _ & _ & Hother & Horg).
  split; [exact Hsnd|]. split.
  - apply Horg. reflexivity.
  - apply Hother. discriminate.
Defined.

(** Every request the loop of [Request] sends goes to the URL of the
    call. *)
Lemma Request_loop_urls (w : World) (c : Client) (method requestPath : string)
    (query : Values) (requestBytes : string) (k : nat) :
  forall (n : Z) (v : Request_vars) (tr : trace) (exit : loop_exit Request_vars),
    Request_loop w c method requestPath query requestBytes k n v = (tr, exit) ->
    Forall (fun r => ReqURL r = reparsed (request_url c requestPath query))
           (sent_requests tr).
Proof.
  induction k as [|k IH]; intros n v tr exit; cbn [Request_loop].
  - intros H; inversion H. constructor.
  - destruct (newRequest _ _ _ _ _ _) as [log [req|e|p]] eqn:Hnew;
      try (intros H; inversion H; subst;
           rewrite (newRequest_sends_nothing _ _ _ _ _ _ _ _ Hnew); constructor).
    pose proof (newRequest_sends_nothing _ _ _ _ _ _ _ _ Hnew) as Hlog.
    apply newRequest_Ok in Hnew. destruct Hnew as [Hreq _].
    assert (Hurl : ReqURL req = reparsed (request_url c requestPath query))
      by (rewrite Hreq; reflexivity).
    clear Hreq.
    assert (Hgo : forall v' tr' exit',
               after (log ++ sleep_before n ++ [EvDo n req])%list
                     (Request_loop w c method requestPath query requestBytes k (n + 1) v')
               = (tr', exit') ->
               Forall (fun r => ReqURL r = reparsed (request_url c requestPath query))
                      (sent_requests tr')).
    { intros v' tr' exit' H. apply after_inv in H. destruct H as (tr0 & Hl & ->).
      rewrite sent_requests_attempt by exact Hlog.
      constructor; [exact Hurl | eapply IH; exact Hl]. }
    assert (Hstop : forall exit' tr',
               ((log ++ sleep_before n ++ [EvDo n req])%list, exit') = (tr', exit) ->
               Forall (fun r => ReqURL r = reparsed (request_url c requestPath query))
                      (sent_requests tr')).
    { intros exit' tr' H. inversion H; subst.
      rewrite <- (app_nil_r (log ++ sleep_before n ++ [EvDo n req])).
      rewrite sent_requests_attempt by exact Hlog.
      constructor; [exact Hurl | constructor]. }
    destruct (err_of _); [apply Hgo|].
    destruct (resp_of _) as [r|]; [|apply Hstop].
    destruct (snd (ReadAll r)); [apply Hgo|].
    destruct (final _); [apply Hstop | apply Hgo].
Qed.

(** Every request the legacy loop sends goes to the URL of the call. *)
Lemma request_loop_urls (w : World) (c : Client) (method requestPath : string)
    (query : Values) (k : nat) :
  forall (n : Z) (v : request_vars) (tr : trace) (exit : loop_exit request_vars),
    request_loop w c method requestPath query k n v = (tr, exit) ->
    Forall (fun r => ReqURL r = reparsed (request_url c requestPath query))
           (sent_requests tr).
Proof.
  induction k as [|k IH]; intros n v tr exit; cbn [request_loop].
  - intros H; inversion H. constructor.
  - destruct (newRequest _ _ _ _ _ _) as [log [req|e|p]] eqn:Hnew;
      try (intros H; inversion H; subst;
           rewrite (newRequest_sends_nothing _ _ _ _ _ _ _ _ Hnew); constructor).
    pose proof (newRequest_sends_nothing _ _ _ _ _ _ _ _ Hnew) as Hlog.
    apply newRequest_Ok in Hnew. destruct Hnew as [Hreq _].
    assert (Hurl : ReqURL req = reparsed (request_url c requestPath query))
      by (rewrite Hreq; reflexivity).
    clear Hreq.
    assert (Hgo : forall v' tr' exit',
               after (log ++ sleep_before n ++ [EvDo n req])%list
                     (request_loop w c method requestPath query k (n + 1) v')
               = (tr', exit') ->
               Forall (fun r => ReqURL r = reparsed (request_url c requestPath query))
                      (sent_requests tr')).
    { intros v' tr' exit' H. apply after_inv in H. destruct H as (tr0 & Hl & ->).
      rewrite sent_requests_attempt by exact Hlog.
      constructor; [exact Hurl | eapply IH; exact Hl]. }
    assert (Hstop : forall exit' tr',
               ((log ++ sleep_before n ++ [EvDo n req])%list, exit') = (tr', exit) ->
               Forall (fun r => ReqURL r = reparsed (request_url c requestPath query))
                      (sent_requests tr')).
    { intros exit' tr' H. inversion H; subst.
      rewrite <- (app_nil_r (log ++ sleep_before n ++ [EvDo n req])).
      rewrite sent_requests_attempt by exact Hlog.
      constructor; [exact Hurl | constructor]. }
    cbv zeta.
    destruct (err_of _); [apply Hgo|].
    destruct (resp_of _) as [r|]; [|apply Hstop].
    destruct (snd (ReadAll r)); [apply Hgo|].
    destruct (final _); [apply Hstop | apply Hgo].
Qed.

(** Where a client made by [New] sends.  For a base URL that parses and
    has a host, the client keeps the configuration and sends through the
    configured HTTP client or else the default one, and every request that
    [Request] and the legacy [request] send on it goes to the scheme (in
    lower case) and the host of the base URL, with the credentials of
    [BasicAuth] when the configuration has some and those of the URL
    otherwise, the base path joined with the path of the call behind a
    leading separator, and the query of the call alone: the query of the
    base URL is not sent. *)
Theorem New_client_requests {ReqT ResT T : Type}
    {M : Marshaler ReqT} {TR : JSON.Target ResT} {Z0 : Zero ResT} {TT : JSON.Target T}
    (url_Parse : string -> string + URL) (DefaultClient : nat)
    (base : string) (cfg : Config) (u : URL) (c : Client)
    (w : World) (method requestPath : string) (query : Values)
    (requestBody : option ReqT) (body0 : option Reader) (responseStruct : option T) :
  url_Parse base = inr u ->
  Host u <> "" ->
  New url_Parse DefaultClient base cfg = inr c ->
  let target :=
    {| Scheme := ToLower (Scheme u);
       User := match BasicAuth cfg with Some auth => Some auth | None => User u end;
       Host := removeEmptyPort (Host u);
       Path := let joined := GoPath.Join [Path u; requestPath] in
               if Str.is_empty joined || GoPath.rooted joined then joined
               else "/" ++ joined;
       RawQuery := Values_Encode query |} in
  config c = cfg
  /\ client c = match Config_Client cfg with Some cli => cli | None => DefaultClient end
  /\ Forall (fun r => ReqURL r = target)
            (sent_requests
               (fst (Request (ResT := ResT) w c method requestPath query requestBody)))
  /\ Forall (fun r => ReqURL r = target)
            (sent_requests (fst (request w c method requestPath query body0 responseStruct))).
Proof.
  intros Hu Hhost H target. unfold New in H. rewrite Hu in H.
  inversion H; subst c; clear H.
  set (c := {| config := cfg;
               baseURL := match BasicAuth cfg with
                          | Some auth => {| Scheme := Scheme u; User := Some auth;
                                            Host := Host u; Path := Path u;
                                            RawQuery := RawQuery u |}
                          | None => u
                          end;
               client := match Config_Client cfg with
                         | Some cli => cli
                         | None => DefaultClient
                         end |}).
  assert (Htarget : reparsed (request_url c requestPath query) = target).
  { subst target c. unfold reparsed, request_url. cbn [baseURL].
    apply is_empty_false in Hhost.
    destruct (BasicAuth cfg); cbn [Scheme User Host Path RawQuery]; rewrite Hhost;
      cbn [negb orb fst snd];
      destruct (Str.is_empty (GoPath.Join [Path u; requestPath]));
      destruct (GoPath.rooted (GoPath.Join [Path u; requestPath])); reflexivity. }
  split; [reflexivity|]. split; [reflexivity|]. rewrite <- Htarget. split.
  - unfold Request. destruct (marshal_body requestBody) as [requestBytes|e]; [|constructor].
    destruct (Request_loop w c method requestPath query requestBytes (iterations c) 0
                Request_start) as [tr exit] eqn:Hloop.
    pose proof (Request_loop_urls _ _ _ _ _ _ _ _ _ _ _ Hloop) as Hall.
    destruct exit; exact Hall.
  - rewrite request_sends_what_its_loop_sends.
    destruct (request_loop w c method requestPath query (iterations c) 0
                (request_start c body0)) as [tr exit] eqn:Hloop.
    exact (request_loop_urls _ _ _ _ _ _ _ _ _ _ Hloop).
Qed.

Lemma New_client_requests_witness :
  let cfg := {| APIKey := ""; BasicAuth := Some {| username := "admin"; password := Some "pw" |};
                HTTPHeaders := None; Config_Client := None; OrgID := 0; NumRetries := 1 |} in
  let u := {| Scheme := "https"; User := Some {| username := "old"; password := None |};
              Host := "grafana.example"; Path := ""; RawQuery := "x=1" |} in
  exists c,
    New (fun _ => inr u) 5 "https://old@grafana.example?x=1" cfg = inr c
    /\ client c = 5
    /\ map ReqURL
         (sent_requests
            (fst (request (T := JSON.object) (world "" [] second_time_lucky) c
                    "GET" "api/search" [] None None)))
       = repeat {| Scheme := "https";
                   User := Some {| username := "admin"; password := Some "pw" |};
                   Host := "grafana.example"; Path := "/api/search"; RawQuery := "" |} 2.
Proof.
  cbv zeta.
  exists {| config := {| APIKey := "";
                         BasicAuth := Some {| username := "admin"; password := Some "pw" |};
                         HTTPHeaders := None; Config_Client := None; OrgID := 0;
                         NumRetries := 1 |};
            baseURL := {| Scheme := "https";
                          User := Some {| username := "admin"; password := Some "pw" |};
                          Host := "grafana.example"; Path := ""; RawQuery := "x=1" |};
            client := 5 |}.
  split; [reflexivity|].
  destruct (New_client_requests (ReqT := Z) (ResT := JSON.object) (T := JSON.object)
              (fun _ => inr {| Scheme := "https";
                               User := Some {| username := "old"; password := None |};
                               Host := "grafana.example"; Path := ""; RawQuery := "x=1" |})
              5 "https://old@grafana.example?x=1"
              {| APIKey := ""; BasicAuth := Some {| username := "admin"; password := Some "pw" |};
                 HTTPHeaders := None; Config_Client := None; OrgID := 0; NumRetries := 1 |}
              {| Scheme := "https";
                 User := Some {| username := "old"; password := None |};
                 Host := "grafana.example"; Path := ""; RawQuery := "x=1" |}
              {| config := {| APIKey := "";
                              BasicAuth := Some {| username := "admin"; password := Some "pw" |};
                              HTTPHeaders := None; Config_Client := None; OrgID := 0;
                              NumRetries := 1 |};
                 baseURL := {| Scheme := "https";
                               User := Some {| username := "admin"; password := Some "pw" |};
                               Host := "grafana.example"; Path := ""; RawQuery := "x=1" |};
                 client := 5 |}
              (world "" [] second_time_lucky) "GET" "api/search" [] None None None
              eq_refl) as (_ & Hcli & _ & Hsent).
  - discriminate.
  - reflexivity.
  - split; [exact Hcli|]. reflexivity.
Defined.

(** ** Counting sends and sleeps *)

Lemma attempts_sent_requests (tr : trace) : attempts tr = length (sent_requests tr).
Proof.
  unfold attempts, sent_requests. induction tr as [|e tr IH]; [reflexivity|].
  destruct e; cbn; rewrite ?IH; reflexivity.
Qed.

Lemma newRequest_log_silent (w : World) (c : Client) (method requestPath : string)
    (query : Values) (body : option Reader) (log : trace) (r : result http_Request) :
  newRequest w c method requestPath query body = (log, r) ->
  attempts log = 0 /\ sleeps log = [].
Proof.
  unfold newRequest.
  destruct (http_NewRequest w method _ body) as [e|req].
  - intros H; inversion H; split; reflexivity.
  - unfold log_request. destruct (logging w).
    + destruct body as [[s|s|rd|s]|]; intros H; inversion H; split; reflexivity.
    + intros H; inversion H; split; reflexivity.
Qed.

Lemma counts_attempt (log : trace) (n : Z) (req : http_Request) (rest : trace) :
  attempts log = 0 -> sleeps log = [] ->
  sleeps rest = repeat 5%Z (attempts rest) ->
  attempts ((log ++ sleep_before n ++ [EvDo n req]) ++ rest)%list = S (attempts rest)
  /\ sleeps ((log ++ sleep_before n ++ [EvDo n req]) ++ rest)%list
     = repeat 5%Z (if (n =? 0)%Z then attempts rest else S (attempts rest)).
Proof.
  intros Ha Hs Hrest.
  rewrite !attempts_app, !sleeps_app, Ha, Hs, Hrest, attempts_sleep_before.
  split; [reflexivity|].
  unfold sleep_before. destruct (n =? 0)%Z; reflexivity.
Qed.

(** One more round in front of a run of the loop that started at a later
    send. *)
Lemma counts_round (log : trace) (n : Z) (req : http_Request) (rest : trace) (k : nat) :
  (0 <= n)%Z ->
  attempts log = 0 -> sleeps log = [] ->
  attempts rest <= k ->
  sleeps rest = repeat 5%Z (if (n + 1 =? 0)%Z then attempts rest - 1 else attempts rest) ->
  let tr := ((log ++ sleep_before n ++ [EvDo n req]) ++ rest)%list in
  attempts tr = S (attempts rest)
  /\ attempts tr <= S k
  /\ sleeps tr = repeat 5%Z (if (n =? 0)%Z then attempts tr - 1 else attempts tr).
Proof.
  intros Hn Ha Hs Hle Hrest tr.
  replace (n + 1 =? 0)%Z with false in Hrest by (symmetry; apply Z.eqb_neq; lia).
  destruct (counts_attempt log n req rest Ha Hs Hrest) as [Hat Hsl].
  subst tr. rewrite Hat, Hsl. split; [reflexivity|]. split; [lia|].
  destruct (n =? 0)%Z; [|reflexivity]. f_equal. lia.
Qed.

Lemma counts_single (log : trace) (n : Z) (req : http_Request) (k : nat) :
  attempts log = 0 -> sleeps log = [] ->
  let tr := (log ++ sleep_before n ++ [EvDo n req])%list in
  attempts tr <= S k
  /\ sleeps tr = repeat 5%Z (if (n =? 0)%Z then attempts tr - 1 else attempts tr).
Proof.
  intros Ha Hs tr. subst tr.
  rewrite !attempts_app, !sleeps_app, Ha, Hs, attempts_sleep_before.
  split; [cbn; lia|].
  unfold sleep_before. destruct (n =? 0)%Z; reflexivity.
Qed.

Lemma exit_ok_round {S : Type} (held : S -> option http_Response) (k : nat)
    (evs rest : trace) (exit : loop_exit S) :
  attempts (evs ++ rest)%list = Datatypes.S (attempts rest) ->
  exit_ok held k rest exit -> exit_ok held (Datatypes.S k) (evs ++ rest)%list exit.
Proof.
  intros Hat. destruct exit; cbn; auto.
  intros [Hk|Hr]; [left; lia | right; exact Hr].
Qed.

(** The trace and the exit of the loop of [Request]. *)
Lemma Request_loop_counts (w : World) (c : Client) (method requestPath : string)
    (query : Values) (requestBytes : string) (k : nat) :
  forall (n : Z) (v : Request_vars) (tr : trace) (exit : loop_exit Request_vars),
    (0 <= n)%Z ->
    Request_loop w c method requestPath query requestBytes k n v = (tr, exit) ->
    attempts tr <= k
    /\ sleeps tr = repeat 5%Z (if (n =? 0)%Z then attempts tr - 1 else attempts tr)
    /\ exit_ok resp k tr exit.
Proof.
  induction k as [|k IH]; intros n v tr exit Hn H.
  - cbn in H. inversion H; subst. cbn. destruct (n =? 0)%Z; auto.
  - cbn [Request_loop] in H.
    destruct (newRequest w c method requestPath query (Some (BytesReader requestBytes)))
      as [log [req|e|p]] eqn:Hnew;
      destruct (newRequest_log_silent _ _ _ _ _ _ _ _ Hnew) as [Ha Hs].
    + assert (Hgo : forall v1,
                 after (log ++ sleep_before n ++ [EvDo n req])%list
                       (Request_loop w c method requestPath query requestBytes k (n + 1) v1)
                 = (tr, exit) ->
                 attempts tr <= S k
                 /\ sleeps tr
                    = repeat 5%Z (if (n =? 0)%Z then attempts tr - 1 else attempts tr)
                 /\ exit_ok resp (S k) tr exit).
      { intros v1 Hafter.
        apply after_inv in Hafter. destruct Hafter as (tr' & Hloop & ->).
        destruct (IH _ _ _ _ (ltac:(lia) : (0 <= n + 1)%Z) Hloop) as (Hle & Hsl & Hexit).
        destruct (counts_round log n req tr' k Hn Ha Hs Hle Hsl) as (Hat & Hle' & Hsl').
        split; [exact Hle'|]. split; [exact Hsl'|].
        apply exit_ok_round; assumption. }
      pose proof (counts_single log n req k Ha Hs) as [Hle1 Hsl1].
      cbv zeta in H.
      destruct (err_of (Do w (client c) n req)); [exact (Hgo _ H)|].
      destruct (resp_of (Do w (client c) n req)) as [r|].
      * destruct (snd (ReadAll r)); [exact (Hgo _ H)|].
        destruct (final (StatusCode r)) eqn:Hf; [|exact (Hgo _ H)].
        inversion H; subst. split; [exact Hle1|]. split; [exact Hsl1|].
        right. exists r. split; [reflexivity | exact Hf].
      * inversion H; subst. split; [exact Hle1|]. split; [exact Hsl1|]. exact I.
    + inversion H; subst. cbn [exit_ok].
      rewrite Ha, Hs. split; [lia|]. split; [destruct (n =? 0)%Z; reflexivity|].
      apply (newRequest_Err _ _ _ _ _ _ _ _ Hnew).
    + inversion H; subst. cbn [exit_ok].
      rewrite Ha, Hs. split; [lia|]. split; [destruct (n =? 0)%Z; reflexivity|exact I].
Qed.

(** The trace and the exit of the loop of the legacy [request]. *)
Lemma request_loop_counts (w : World) (c : Client) (method requestPath : string)
    (query : Values) (k : nat) :
  forall (n : Z) (v : request_vars) (tr : trace) (exit : loop_exit request_vars),
    (0 <= n)%Z ->
    request_loop w c method requestPath query k n v = (tr, exit) ->
    attempts tr <= k
    /\ sleeps tr = repeat 5%Z (if (n =? 0)%Z then attempts tr - 1 else attempts tr)
    /\ exit_ok (fun v' => match l_err v' with None => l_resp v' | Some _ => None end)
               k tr exit.
Proof.
  induction k as [|k IH]; intros n v tr exit Hn H.
  - cbn in H. inversion H; subst. cbn. destruct (n =? 0)%Z; auto.
  - cbn [request_loop] in H. cbv zeta in H.
    destruct (newRequest w c method requestPath query
                (if (n >? 0)%Z then Some (BytesReader (bodyBuffer v)) else body v))
      as [log [req|e|p]] eqn:Hnew;
      destruct (newRequest_log_silent _ _ _ _ _ _ _ _ Hnew) as [Ha Hs].
    + assert (Hgo : forall v1,
                 after (log ++ sleep_before n ++ [EvDo n req])%list
                       (request_loop w c method requestPath query k (n + 1) v1)
                 = (tr, exit) ->
                 attempts tr <= S k
                 /\ sleeps tr
                    = repeat 5%Z (if (n =? 0)%Z then attempts tr - 1 else attempts tr)
                 /\ exit_ok (fun v' => match l_err v' with
                                       | None => l_resp v' | Some _ => None end)
                            (S k) tr exit).
      { intros v1 Hafter.
        apply after_inv in Hafter. destruct Hafter as (tr' & Hloop & ->).
        destruct (IH _ _ _ _ (ltac:(lia) : (0 <= n + 1)%Z) Hloop) as (Hle & Hsl & Hexit).
        destruct (counts_round log n req tr' k Hn Ha Hs Hle Hsl) as (Hat & Hle' & Hsl').
        split; [exact Hle'|]. split; [exact Hsl'|].
        apply exit_ok_round; assumption. }
      pose proof (counts_single log n req k Ha Hs) as [Hle1 Hsl1].
      destruct (err_of (Do w (client c) n req)); [exact (Hgo _ H)|].
      destruct (resp_of (Do w (client c) n req)) as [r|].
      * destruct (snd (ReadAll r)) eqn:Hread; [exact (Hgo _ H)|].
        destruct (final (StatusCode r)) eqn:Hf; [|exact (Hgo _ H)].
        inversion H; subst. split; [exact Hle1|]. split; [exact Hsl1|].
        right. exists r. cbn. split; [reflexivity | exact Hf].
      * inversion H; subst. split; [exact Hle1|]. split; [exact Hsl1|]. exact I.
    + inversion H; subst. cbn [exit_ok].
      rewrite Ha, Hs. split; [lia|]. split; [destruct (n =? 0)%Z; reflexivity|].
      apply (newRequest_Err _ _ _ _ _ _ _ _ Hnew).
    + inversion H; subst. cbn [exit_ok].
      rewrite Ha, Hs. split; [lia|]. split; [destruct (n =? 0)%Z; reflexivity|exact I].
Qed.

Lemma request_finish_silent {T : Type} {TT : JSON.Target T} (w : World)
    (responseStruct : option T) (v : request_vars) :
  attempts (fst (request_finish w responseStruct v)) = 0
  /\ sleeps (fst (request_finish w responseStruct v)) = [].
Proof.
  unfold request_finish.
  destruct (l_err v); [split; reflexivity|].
  destruct (l_resp v) as [r|]; [|split; reflexivity].
  destruct (logging w), (StatusCode r >=? 400)%Z, responseStruct as [t|];
    try destruct (JSON.Unmarshal (bodyContents v) t); split; reflexivity.
Qed.

(** Whatever the transport does, [Request] sends at most NumRetries+1
    requests and sleeps 5 seconds before each send but the first. *)
Theorem Request_attempts_and_sleeps {ReqT ResT : Type}
    {M : Marshaler ReqT} {T : JSON.Target ResT} {Z0 : Zero ResT}
    (w : World) (c : Client) (method requestPath : string) (query : Values)
    (requestBody : option ReqT) :
  let run := Request (ResT := ResT) w c method requestPath query requestBody in
  attempts (fst run) <= Z.to_nat (NumRetries (config c) + 1)
  /\ sleeps (fst run) = repeat 5%Z (attempts (fst run) - 1).
Proof.
  intros run. subst run. unfold Request.
  destruct (marshal_body requestBody) as [requestBytes|e].
  - destruct (Request_loop w c method requestPath query requestBytes (iterations c) 0
                Request_start) as [tr exit] eqn:Hloop.
    destruct (Request_loop_counts _ _ _ _ _ _ _ _ _ _ _ (Z.le_refl 0) Hloop)
      as (Hle & Hsl & _).
    destruct exit; cbn [fst]; split; assumption.
  - cbn. split; [lia | reflexivity].
Qed.

(** Whatever the transport does, the legacy [request] sends at most
    NumRetries+1 requests and sleeps 5 seconds before each send but the
    first. *)
Theorem request_attempts_and_sleeps {T : Type} {TT : JSON.Target T}
    (w : World) (c : Client) (method requestPath : string) (query : Values)
    (body0 : option Reader) (responseStruct : option T) :
  let run := request w c method requestPath query body0 responseStruct in
  attempts (fst run) <= Z.to_nat (NumRetries (config c) + 1)
  /\ sleeps (fst run) = repeat 5%Z (attempts (fst run) - 1).
Proof.
  intros run. subst run. unfold request.
  destruct (request_loop w c method requestPath query (iterations c) 0
              (request_start c body0)) as [tr exit] eqn:Hloop.
  destruct (request_loop_counts _ _ _ _ _ _ _ _ _ _ (Z.le_refl 0) Hloop)
    as (Hle & Hsl & _).
  destruct exit; cbn [fst]; try (split; assumption).
  destruct (request_finish_silent w responseStruct s) as [Ha Hs].
  unfold after; cbn [fst]. rewrite attempts_app, sleeps_app, Ha, Hs, Nat.add_0_r, app_nil_r.
  split; assumption.
Qed.

(** [Request] gives up on a retried status only after the last attempt:
    when the error it returns carries a status of 500 or more, or 429 (an
    [APIError], or the error of an error body that does not parse), all
    NumRetries+1 sends were made. *)
Theorem Request_retried_status_after_all_attempts {ReqT ResT : Type}
    {M : Marshaler ReqT} {T : JSON.Target ResT} {Z0 : Zero ResT}
    (w : World) (c : Client) (method requestPath : string) (query : Values)
    (requestBody : option ReqT) (status : Z) :
  let run := Request (ResT := ResT) w c method requestPath query requestBody in
  reported_status (snd run) = Some status ->
  (500 <= status)%Z \/ status = 429%Z ->
  attempts (fst run) = Z.to_nat (NumRetries (config c) + 1).
Proof.
  intros run. subst run. unfold Request.
  destruct (marshal_body requestBody) as [requestBytes|e]; [|discriminate].
  destruct (Request_loop w c method requestPath query requestBytes (iterations c) 0
              Request_start) as [tr exit] eqn:Hloop.
  destruct (Request_loop_counts _ _ _ _ _ _ _ _ _ _ _ (Z.le_refl 0) Hloop)
    as (_ & _ & Hexit).
  destruct exit as [e|p|v]; cbn [fst snd].
  - destruct Hexit as [msg ->]. discriminate.
  - discriminate.
  - cbn [exit_ok] in Hexit. destruct Hexit as [Hk|(r & Hr & Hf)]; [intros _ _; exact Hk|].
    unfold Request_finish. rewrite Hr.
    intros Hstatus Hretry.
    assert (StatusCode r = status) as Hs.
    { destruct (StatusCode r >=? 400)%Z.
      - destruct (JSON.Unmarshal (responseBytes v) (None : JSON.object));
          cbn in Hstatus; congruence.
      - destruct (JSON.Unmarshal (responseBytes v) (zero : ResT)); discriminate. }
    apply final_spec in Hf. lia.
Qed.

Lemma Request_retried_status_after_all_attempts_witness :
  let run := Request (ReqT := Z) (ResT := JSON.object)
               (world "" [] (fun _ => answer 503 not_found_body)) (plain_client "/api" 2)
               "GET" "/dashboards/db/x" [] None in
  reported_status (snd run) = Some 503%Z
  /\ attempts (fst run) = 3.
Proof.
  split; [reflexivity|].
  apply (Request_retried_status_after_all_attempts (ReqT := Z) (ResT := JSON.object)
           (world "" [] (fun _ => answer 503 not_found_body)) (plain_client "/api" 2)
           "GET" "/dashboards/db/x" [] None 503%Z).
  - reflexivity.
  - left. lia.
Defined.

(** The legacy [request] gives up on a retried status only after the last
    attempt: when it returns its status error with a status of 500 or
    more, or 429, all NumRetries+1 sends were made. *)
Theorem request_retried_status_after_all_attempts {T : Type} {TT : JSON.Target T}
    (w : World) (c : Client) (method requestPath : string) (query : Values)
    (body0 : option Reader) (responseStruct : option T) (status : Z) :
  let run := request w c method requestPath query body0 responseStruct in
  reported_status (snd run) = Some status ->
  (500 <= status)%Z \/ status = 429%Z ->
  attempts (fst run) = Z.to_nat (NumRetries (config c) + 1).
Proof.
  intros run. subst run. unfold request.
  destruct (request_loop w c method requestPath query (iterations c) 0
              (request_start c body0)) as [tr exit] eqn:Hloop.
  destruct (request_loop_counts _ _ _ _ _ _ _ _ _ _ (Z.le_refl 0) Hloop)
    as (_ & _ & Hexit).
  destruct exit as [e|p|v]; cbn [fst snd].
  - destruct Hexit as [msg ->]. discriminate.
  - discriminate.
  - destruct (request_finish_silent w responseStruct v) as [Ha _].
    unfold after; cbn [fst snd]. rewrite attempts_app, Ha, Nat.add_0_r.
    cbn [exit_ok] in Hexit. destruct Hexit as [Hk|(r & Hr & Hf)]; [intros _ _; exact Hk|].
    unfold request_finish.
    destruct (l_err v); [discriminate|]. rewrite Hr.
    intros Hstatus Hretry.
    assert (StatusCode r = status) as Hs.
    { destruct (StatusCode r >=? 400)%Z.
      - cbn in Hstatus; congruence.
      - destruct responseStruct as [t|]; [|discriminate].
        destruct (JSON.Unmarshal (bodyContents v) t); discriminate. }
    apply final_spec in Hf. lia.
Qed.

Lemma request_retried_status_after_all_attempts_witness :
  let run := request (T := JSON.object)
               (world "" [] (fun _ => answer 429 "slow down")) (plain_client "/api" 2)
               "GET" "/dashboards/db/x" [] None None in
  reported_status (snd run) = Some 429%Z
  /\ attempts (fst run) = 3.
Proof.
  split; [reflexivity|].
  apply (request_retried_status_after_all_attempts (T := JSON.object)
           (world "" [] (fun _ => answer 429 "slow down")) (plain_client "/api" 2)
           "GET" "/dashboards/db/x" [] None None 429%Z).
  - reflexivity.
  - right. reflexivity.
Defined.

(** With a negative NumRetries the body of the retry loop never runs:
    nothing is sent, and both executors go on to read the status of the
    nil response and panic; [Request] does so after marshaling the
    request body, whose error it returns first. *)
Theorem negative_NumRetries {ReqT ResT T : Type}
    {M : Marshaler ReqT} {TR : JSON.Target ResT} {Z0 : Zero ResT} {TT : JSON.Target T}
    (w : World) (c : Client) (method requestPath : string) (query : Values)
    (requestBody : option ReqT) (body0 : option Reader) (responseStruct : option T) :
  (NumRetries (config c) < 0)%Z ->
  Request (ResT := ResT) w c method requestPath query requestBody
  = ([], match marshal_body requestBody with
         | inl _ => Panic NilPointerDereference
         | inr e => Err (MarshalError e)
         end)
  /\ request w c method requestPath query body0 responseStruct
     = ([], Panic NilPointerDereference).
Proof.
  intros HN.
  assert (Hk : iterations c = 0) by (unfold iterations; lia).
  unfold Request, request. rewrite Hk.
  split.
  - destruct (marshal_body requestBody); reflexivity.
  - reflexivity.
Qed.

Lemma negative_NumRetries_witness :
  (NumRetries (config (plain_client "/api" (-1))) < 0)%Z
  /\ Request (ReqT := Z) (ResT := JSON.object)
       (world "" [] (fun _ => answer 200 "{}")) (plain_client "/api" (-1))
       "GET" "/dashboards/db/x" [] None
     = ([], Panic NilPointerDereference)
  /\ request (T := JSON.object)
       (world "" [] (fun _ => answer 200 "{}")) (plain_client "/api" (-1))
       "GET" "/dashboards/db/x" [] None None
     = ([], Panic NilPointerDereference).
Proof.
  assert (H : (NumRetries (config (plain_client "/api" (-1))) < 0)%Z) by (cbn; lia).
  split; [exact H|].
  exact (negative_NumRetries (ReqT := Z) (ResT := JSON.object) (T := JSON.object)
           (world "" [] (fun _ => answer 200 "{}")) (plain_client "/api" (-1))
           "GET" "/dashboards/db/x" [] None None None H).
Defined.

(** ** Retries, then a final answer *)

Lemma after_nil {A : Type} (r : trace * A) : after [] r = r.
Proof. destruct r; reflexivity. Qed.

Lemma after_after {A : Type} (evs1 evs2 : trace) (r : trace * A) :
  after evs1 (after evs2 r) = after (evs1 ++ evs2)%list r.
Proof. unfold after; cbn [fst snd]. rewrite app_assoc. reflexivity. Qed.

Lemma attempt_events_app (log : trace) (req : http_Request) (j k : nat) :
  forall n,
    attempt_events log req n (j + k)
    = (attempt_events log req n j ++ attempt_events log req (n + Z.of_nat j) k)%list.
Proof.
  induction j as [|j IH]; intros n.
  - cbn [Nat.add attempt_events Z.of_nat app]. rewrite Z.add_0_r. reflexivity.
  - cbn [Nat.add attempt_events]. rewrite IH.
    replace (n + 1 + Z.of_nat j)%Z with (n + Z.of_nat (S j))%Z by lia.
    rewrite <- (app_assoc (log ++ sleep_before n ++ [EvDo n req])%list). reflexivity.
Qed.

(** [j] retried sends in front of what the loop does from send [n + j]
    on. *)
Lemma Request_loop_prefix (w : World) (c : Client) (method requestPath : string)
    (query : Values) (requestBytes : string) (log : trace) (req : http_Request) :
  newRequest w c method requestPath query (Some (BytesReader requestBytes)) = (log, Ok req) ->
  forall (j k : nat) (n : Z) (v : Request_vars),
    (forall i, (n <= i < n + Z.of_nat j)%Z -> retried (Do w (client c) i req) = true) ->
    Request_loop w c method requestPath query requestBytes (j + k) n v
    = after (attempt_events log req n j)
            (Request_loop w c method requestPath query requestBytes k (n + Z.of_nat j)
               (Request_vars_after_all w c req n j v)).
Proof.
  intros Hb. induction j as [|j IH]; intros k n v Hall.
  - cbn [Nat.add attempt_events Request_vars_after_all Z.of_nat].
    rewrite Z.add_0_r, after_nil. reflexivity.
  - cbn [Nat.add].
    rewrite (Request_loop_retried _ _ _ _ _ _ _ _ Hb) by (apply Hall; lia).
    rewrite IH by (intros i Hi; apply Hall; lia).
    rewrite after_after. cbn [attempt_events Request_vars_after_all].
    replace (n + 1 + Z.of_nat j)%Z with (n + Z.of_nat (S j))%Z by lia. reflexivity.
Qed.

(** [Request] stops at the first final answer.  When the first [j] sends
    (j <= NumRetries) are retried, for a send error, a read error or a
    status of 500 or more or 429, and send [j] is answered with another
    status, [Request] makes exactly j+1 sends of the same request, with
    [j] sleeps, and its result is made of that answer alone: for a status
    of 400 or more the [APIError] with the parsed body (or the error of
    parsing it), else the decoded body (or the error of decoding it).
    What the retried sends left behind does not show. *)
Theorem Request_stops_at_the_first_final_answer {ReqT ResT : Type}
    {M : Marshaler ReqT} {T : JSON.Target ResT} {Z0 : Zero ResT}
    (w : World) (c : Client) (method requestPath : string) (query : Values)
    (requestBody : option ReqT) (requestBytes : string) (log : trace)
    (req : http_Request) (j : nat) (status : Z) (body : string) :
  (Z.of_nat j <= NumRetries (config c))%Z ->
  marshal_body requestBody = inl requestBytes ->
  newRequest w c method requestPath query (Some (BytesReader requestBytes)) = (log, Ok req) ->
  (forall i, (0 <= i < Z.of_nat j)%Z -> retried (Do w (client c) i req) = true) ->
  answers (Do w (client c) (Z.of_nat j) req) status body ->
  (status < 500)%Z -> status <> 429%Z ->
  let run := Request (ResT := ResT) w c method requestPath query requestBody in
  fst run = attempt_events log req 0 (S j)
  /\ attempts (fst run) = S j
  /\ sleeps (fst run) = repeat 5%Z j
  /\ snd run
     = if (status >=? 400)%Z
       then match JSON.Unmarshal body (None : JSON.object) with
            | JSON.Decoded parsed => Err (APIError status parsed)
            | JSON.Failed e => Err (ErrorResponseUnmarshalError body status e)
            end
       else match JSON.Unmarshal body (zero : ResT) with
            | JSON.Decoded responseStruct => Ok responseStruct
            | JSON.Failed e => Err (UnmarshalError e)
            end.
Proof.
  intros Hj Hm Hb Hretried Ha Hlt Hne run.
  pose proof (built_quiet _ _ _ _ _ _ _ _ Hb) as Hquiet.
  apply answers_response in Ha. destruct Ha as [He Hr].
  assert (Hrun : run = (attempt_events log req 0 (S j),
                        Request_finish None
                          {| resp := Some {| StatusCode := status; ReadAll := (body, None) |};
                             responseBytes := body |})).
  { subst run. unfold Request. rewrite Hm.
    replace (iterations c) with (j + S (Z.to_nat (NumRetries (config c)) - j))
      by (unfold iterations; lia).
    rewrite (Request_loop_prefix _ _ _ _ _ _ _ _ Hb)
      by (intros i Hi; apply Hretried; lia).
    rewrite Z.add_0_l.
    rewrite (Request_loop_final _ _ _ _ _ _ _ _ Hb _ _ _ _ He Hr eq_refl)
      by (apply final_spec; cbn; auto).
    unfold after; cbn [fst snd ReadAll].
    replace (S j) with (j + 1) by lia.
    rewrite attempt_events_app. cbn [attempt_events].
    rewrite Z.add_0_l, app_nil_r. reflexivity. }
  rewrite Hrun. cbn [fst snd].
  split; [reflexivity|]. split; [|split].
  - apply attempts_attempt_events. exact Hquiet.
  - apply sleeps_attempt_events.
    destruct (newRequest_log_silent _ _ _ _ _ _ _ _ Hb) as [_ Hs]. exact Hs.
  - unfold Request_finish. cbn [resp responseBytes StatusCode].
    destruct (status >=? 400)%Z.
    + destruct (JSON.Unmarshal body (None : JSON.object)); reflexivity.
    + destruct (JSON.Unmarshal body (zero : ResT)); reflexivity.
Qed.

Lemma Request_stops_at_the_first_final_answer_witness :
  let run := Request (ReqT := Z) (ResT := JSON.object)
               (world "" [] third_time_lucky) (plain_client "/api" 5)
               "GET" "/dashboards/db/x" [] None in
  attempts (fst run) = 3
  /\ sleeps (fst run) = [5; 5]%Z
  /\ snd run = Ok (Some []).
Proof.
  destruct (Request_stops_at_the_first_final_answer (ReqT := Z) (ResT := JSON.object)
              (world "" [] third_time_lucky) (plain_client "/api" 5)
              "GET" "/dashboards/db/x" [] None "" []
              (built_request (world "" [] third_time_lucky) (plain_client "/api" 5)
                 "GET" "/dashboards/db/x" [] (Some (BytesReader "")))
              2 200%Z "{}")
    as (_ & Ha & Hs & Hr).
  - cbn; lia.
  - reflexivity.
  - reflexivity.
  - intros i Hi. assert (i = 0 \/ i = 1)%Z as [-> | ->] by lia; reflexivity.
  - split; [reflexivity|]. eexists. repeat split; reflexivity.
  - lia.
  - lia.
  - split; [exact Ha|]. split; [exact Hs | exact Hr].
Defined.

Section LegacyPrefix.

Variable w : World.
Variable c : Client.
Variables method requestPath : string.
Variable query : Values.

Hypothesis quiet : logging w = false.
Hypothesis can_build : buildable w c method requestPath query = true.

(** [j] retried rounds in front of what the legacy loop does from round
    [n + j] on: one send each, of the request the round builds. *)
Lemma request_loop_rounds (j : nat) :
  forall (k : nat) (n : Z) (v : request_vars),
    (forall i, i < j ->
               retried (answer_at w c method requestPath query (n + Z.of_nat i)
                         (request_vars_after_all w c method requestPath query n i v)) = true) ->
    exists tr,
      request_loop w c method requestPath query (j + k) n v
      = after tr (request_loop w c method requestPath query k (n + Z.of_nat j)
                    (request_vars_after_all w c method requestPath query n j v))
      /\ attempts tr = j
      /\ sent_requests tr
         = map (fun i => send_at w c method requestPath query (n + Z.of_nat i)
                         (request_vars_after_all w c method requestPath query n i v))
               (seq 0 j).
Proof.
  induction j as [|j IH]; intros k n v Hall.
  - exists []. cbn [Nat.add request_vars_after_all Z.of_nat seq map].
    rewrite Z.add_0_r, after_nil. repeat split.
  - cbn [Nat.add].
    pose proof (Hall 0 ltac:(lia)) as H0.
    cbn [Z.of_nat request_vars_after_all] in H0. rewrite Z.add_0_r in H0.
    rewrite (request_loop_retried _ _ _ _ _ quiet can_build) by exact H0.
    destruct (IH k (n + 1)%Z (request_vars_after w c method requestPath query n v))
      as (tr & Hloop & Hatt & Hsent).
    { intros i Hi. pose proof (Hall (S i) ltac:(lia)) as Hi'.
      cbn [request_vars_after_all] in Hi'.
      replace (n + 1 + Z.of_nat i)%Z with (n + Z.of_nat (S i))%Z by lia. exact Hi'. }
    rewrite Hloop, after_after. cbn [request_vars_after_all].
    replace (n + 1 + Z.of_nat j)%Z with (n + Z.of_nat (S j))%Z by lia.
    eexists. split; [reflexivity|]. split.
    + rewrite !attempts_app, Hatt, attempts_sleep_before. reflexivity.
    + rewrite !sent_requests_app, sent_requests_sleep_before, Hsent.
      cbn [sent_requests flat_map app seq map Z.of_nat request_vars_after_all].
      rewrite Z.add_0_r. f_equal.
      rewrite <- seq_shift, map_map. apply map_ext. intros i.
      cbn [request_vars_after_all].
      replace (n + 1 + Z.of_nat i)%Z with (n + Z.of_nat (S i))%Z by lia. reflexivity.
Qed.

(** A send answered with a final status ends the legacy loop. *)
Lemma request_loop_final (k : nat) (n : Z) (v : request_vars) (status : Z) (body : string) :
  answers (answer_at w c method requestPath query n v) status body ->
  final status = true ->
  exists v',
    request_loop w c method requestPath query (S k) n v
    = ((sleep_before n ++ [EvDo n (send_at w c method requestPath query n v)])%list,
       LoopEnd v')
    /\ l_err v' = None
    /\ l_resp v' = Some {| StatusCode := status; ReadAll := (body, None) |}
    /\ bodyContents v' = body.
Proof.
  intros Ha Hf. apply answers_response in Ha. destruct Ha as [He Hr].
  unfold answer_at, send_at, body_at in He, Hr.
  cbn [request_loop]. cbv zeta.
  rewrite (newRequest_quiet _ _ _ _ _ _ quiet can_build).
  unfold send_at, body_at.
  rewrite He, Hr. cbn [ReadAll snd fst StatusCode]. rewrite Hf.
  eexists. split; [reflexivity|]. cbn. auto.
Qed.

End LegacyPrefix.

(** The legacy [request] when its first [j] rounds are retried and round [j]
    is answered with a final status: the sends are those of rounds 0 to
    [j]. *)
Lemma request_after_retries {T : Type} {TT : JSON.Target T}
    (w : World) (c : Client) (method requestPath : string) (query : Values)
    (body0 : option Reader) (responseStruct : option T)
    (j : nat) (status : Z) (body : string) :
  (Z.of_nat j <= NumRetries (config c))%Z ->
  logging w = false ->
  buildable w c method requestPath query = true ->
  (forall i, i < j ->
             retried (round_answer w c method requestPath query body0 i) = true) ->
  answers (round_answer w c method requestPath query body0 j) status body ->
  (status < 500)%Z -> status <> 429%Z ->
  exists tr,
    request w c method requestPath query body0 responseStruct
    = (tr, if (status >=? 400)%Z then Err (StatusError status body)
           else match responseStruct with
                | None => Ok None
                | Some target =>
                    match JSON.Unmarshal body target with
                    | JSON.Decoded target' => Ok (Some target')
                    | JSON.Failed e => Err (UnmarshalError e)
                    end
                end)
    /\ attempts tr = S j
    /\ sleeps tr = repeat 5%Z j
    /\ sent_requests tr
       = map (round_request w c method requestPath query body0) (seq 0 (S j)).
Proof.
  intros Hj Hq Hb Hretried Ha Hlt Hne.
  assert (Hf : final status = true) by (apply final_spec; auto).
  unfold request.
  replace (iterations c) with (j + S (Z.to_nat (NumRetries (config c)) - j))
    by (unfold iterations; lia).
  destruct (request_loop_rounds w c method requestPath query Hq Hb j
              (S (Z.to_nat (NumRetries (config c)) - j)) 0 (request_start c body0))
    as (tr & Hloop & Hatt & Hsent).
  { intros i Hi. rewrite Z.add_0_l. apply Hretried. exact Hi. }
  destruct (request_loop_final w c method requestPath query Hq Hb
              (Z.to_nat (NumRetries (config c)) - j) (Z.of_nat j)
              (request_vars_after_all w c method requestPath query 0 j
                 (request_start c body0)) status body Ha Hf)
    as (v' & Hlast & Herr & Hresp & Hbody).
  rewrite Z.add_0_l in Hloop. rewrite Hlast in Hloop. unfold after in Hloop.
  cbn [fst snd] in Hloop.
  destruct (request_loop_counts _ _ _ _ _ _ _ _ _ _ (Z.le_refl 0) Hloop) as (_ & Hsl & _).
  rewrite Hloop.
  set (last := send_at w c method requestPath query (Z.of_nat j)
                 (request_vars_after_all w c method requestPath query 0 j
                    (request_start c body0))) in *.
  assert (Hat : attempts (tr ++ sleep_before (Z.of_nat j) ++ [EvDo (Z.of_nat j) last])%list
                = S j).
  { rewrite !attempts_app, Hatt, attempts_sleep_before. cbn; lia. }
  assert (Hsent' : sent_requests (tr ++ sleep_before (Z.of_nat j)
                                     ++ [EvDo (Z.of_nat j) last])%list
                   = map (round_request w c method requestPath query body0) (seq 0 (S j))).
  { rewrite !sent_requests_app, sent_requests_sleep_before, Hsent.
    rewrite seq_S, map_app. cbn [sent_requests flat_map app map Nat.add].
    reflexivity. }
  rewrite Hat in Hsl. cbn [Z.eqb Nat.sub] in Hsl. rewrite Nat.sub_0_r in Hsl.
  unfold after, request_finish. rewrite Herr, Hresp, Hbody, Hq. cbn [StatusCode fst snd].
  eexists. split; [|split; [exact Hat | split; [exact Hsl | exact Hsent']]].
  destruct (status >=? 400)%Z; [rewrite app_nil_r; reflexivity|].
  destruct responseStruct as [t|]; [|rewrite app_nil_r; reflexivity].
  destruct (JSON.Unmarshal body t); rewrite app_nil_r; reflexivity.
Qed.

(** The legacy [request] returns the failure of its last send when every
    send fails.  With N = NumRetries, logging off and a request that
    builds, when each of the requests it sends in rounds 0 to N ends in a
    send error or a body-read error, [request] makes exactly these N+1
    sends and returns the error of the last of them. *)
Theorem request_returns_the_last_failure {T : Type} {TT : JSON.Target T}
    (w : World) (c : Client) (method requestPath : string) (query : Values)
    (body0 : option Reader) (responseStruct : option T) (N : nat) :
  NumRetries (config c) = Z.of_nat N ->
  logging w = false ->
  buildable w c method requestPath query = true ->
  (forall i, i <= N -> failed (round_answer w c method requestPath query body0 i) = true) ->
  let run := request w c method requestPath query body0 responseStruct in
  attempts (fst run) = S N
  /\ sent_requests (fst run)
     = map (round_request w c method requestPath query body0) (seq 0 (S N))
  /\ exists e,
       failure (round_answer w c method requestPath query body0 N) = Some e
       /\ snd run = Err e
       /\ match e with TransportError _ | ReadError _ => True | _ => False end.
Proof.
  intros HN Hq Hb Hall run.
  destruct (request_loop_rounds w c method requestPath query Hq Hb (S N) 0 0
              (request_start c body0)) as (tr & Hloop & Hatt & Hsent).
  { intros i Hi. rewrite Z.add_0_l. apply failed_retried. apply Hall. lia. }
  replace (S N + 0) with (iterations c) in Hloop by (unfold iterations; lia).
  cbn [request_loop] in Hloop. unfold after in Hloop. cbn [fst snd] in Hloop.
  rewrite app_nil_r in Hloop.
  destruct (failed_failure (round_answer w c method requestPath query body0 N))
    as (e & He & Hkind).
  { apply Hall. lia. }
  assert (Hrun : run = (tr, Err e)).
  { subst run. unfold request. rewrite Hloop.
    rewrite request_vars_after_all_last, Z.add_0_l.
    unfold after, request_finish, request_vars_after. cbn [l_err fst snd].
    unfold round_answer, round_request, round_vars in He.
    unfold answer_at. rewrite He. cbn [fst snd]. rewrite app_nil_r. reflexivity. }
  rewrite Hrun. cbn [fst snd]. split; [exact Hatt|]. split.
  - rewrite Hsent. reflexivity.
  - exists e. auto.
Qed.

Lemma request_returns_the_last_failure_witness :
  let run := request (T := JSON.object) (world "" [] (fun _ => refused)) (plain_client "" 2)
               "DELETE" "/api/dashboards/uid/u" [] None None in
  attempts (fst run) = 3
  /\ snd run = Err (TransportError "connection refused").
Proof.
  destruct (request_returns_the_last_failure (T := JSON.object)
              (world "" [] (fun _ => refused)) (plain_client "" 2)
              "DELETE" "/api/dashboards/uid/u" [] None None 2 eq_refl eq_refl eq_refl)
    as (Hatt & _ & e & He & Hrun & _).
  - intros i _. reflexivity.
  - split; [exact Hatt|]. cbn in He. inversion He; subst e. exact Hrun.
Defined.

(** The legacy [request] stops at the first final answer.  With logging
    off and a request that builds, when the answers to the requests it
    sends in rounds 0 to j-1 (j <= NumRetries) are retried and the request
    of round [j] is answered with a status below 500 other than 429,
    [request] sends exactly the requests of rounds 0 to [j], with [j]
    sleeps, and its result is made of that answer alone: the status error
    for a status of 400 or more, else nil without a response struct, else
    the body decoded into the struct (or the error of decoding it).  The
    failures of the retried sends do not show. *)
Theorem request_stops_at_the_first_final_answer {T : Type} {TT : JSON.Target T}
    (w : World) (c : Client) (method requestPath : string) (query : Values)
    (body0 : option Reader) (responseStruct : option T)
    (j : nat) (status : Z) (body : string) :
  (Z.of_nat j <= NumRetries (config c))%Z ->
  logging w = false ->
  buildable w c method requestPath query = true ->
  (forall i, i < j -> retried (round_answer w c method requestPath query body0 i) = true) ->
  answers (round_answer w c method requestPath query body0 j) status body ->
  (status < 500)%Z -> status <> 429%Z ->
  let run := request w c method requestPath query body0 responseStruct in
  attempts (fst run) = S j
  /\ sent_requests (fst run)
     = map (round_request w c method requestPath query body0) (seq 0 (S j))
  /\ sleeps (fst run) = repeat 5%Z j
  /\ snd run
     = if (status >=? 400)%Z then Err (StatusError status body)
       else match responseStruct with
            | None => Ok None
            | Some target =>
                match JSON.Unmarshal body target with
                | JSON.Decoded target' => Ok (Some target')
                | JSON.Failed e => Err (UnmarshalError e)
                end
            end.
Proof.
  intros Hj Hq Hb Hretried Ha Hlt Hne run.
  destruct (request_after_retries w c method requestPath query body0 responseStruct
              j status body Hj Hq Hb Hretried Ha Hlt Hne)
    as (tr & Hrun & Hat & Hsl & Hsent).
  subst run. rewrite Hrun. cbn [fst snd]. auto.
Qed.

Lemma request_stops_at_the_first_final_answer_witness :
  let run := request (T := JSON.object) (world "" [] third_time_lucky)
               (plain_client "/api" 5) "DELETE" "/dashboards/uid/x" [] None None in
  attempts (fst run) = 3
  /\ sleeps (fst run) = [5; 5]%Z
  /\ snd run = Ok None.
Proof.
  destruct (request_stops_at_the_first_final_answer (T := JSON.object)
              (world "" [] third_time_lucky) (plain_client "/api" 5)
              "DELETE" "/dashboards/uid/x" [] None None 2 200%Z "{}")
    as (Hat & _ & Hsl & Hres).
  - cbn; lia.
  - reflexivity.
  - reflexivity.
  - intros i Hi. assert (i = 0 \/ i = 1) as [-> | ->] by lia; reflexivity.
  - split; [reflexivity|]. eexists. repeat split; reflexivity.
  - lia.
  - lia.
  - split; [exact Hat|]. split; [exact Hsl | exact Hres].
Defined.

(** ** Paths of the dashboard calls *)

Lemma newRequest_same_url (w : World) (c : Client) (method p1 p2 : string)
    (query : Values) (body : option Reader) :
  request_url c p1 query = request_url c p2 query ->
  newRequest w c method p1 query body = newRequest w c method p2 query body.
Proof. intros H. unfold newRequest. rewrite H. reflexivity. Qed.

Lemma request_loop_same_url (w : World) (c : Client) (method p1 p2 : string)
    (query : Values) :
  request_url c p1 query = request_url c p2 query ->
  forall (k : nat) (n : Z) (v : request_vars),
    request_loop w c method p1 query k n v = request_loop w c method p2 query k n v.
Proof.
  intros H. induction k as [|k IH]; intros n v; [reflexivity|].
  cbn [request_loop]. rewrite (newRequest_same_url w c method p1 p2 query _ H).
  destruct (newRequest w c method p2 query _) as [log [req|e|p]]; try reflexivity.
  cbv zeta.
  destruct (err_of (Do w (client c) n req)); [rewrite IH; reflexivity|].
  destruct (resp_of (Do w (client c) n req)) as [r|]; [|reflexivity].
  destruct (snd (ReadAll r)); [rewrite IH; reflexivity|].
  destruct (final (StatusCode r)); [reflexivity|rewrite IH; reflexivity].
Qed.

Lemma request_same_url {T : Type} {TT : JSON.Target T} (w : World) (c : Client)
    (method p1 p2 : string) (query : Values) (body0 : option Reader)
    (responseStruct : option T) :
  request_url c p1 query = request_url c p2 query ->
  request w c method p1 query body0 responseStruct
  = request w c method p2 query body0 responseStruct.
Proof.
  intros H. unfold request. rewrite (request_loop_same_url w c method p1 p2 query H).
  reflexivity.
Qed.

Lemma is_empty_append (x : string) (ch : ascii) (y : string) :
  Str.is_empty (x ++ String ch y) = false.
Proof. destruct x; reflexivity. Qed.

Lemma rooted_append (x : string) (y : string) :
  GoPath.rooted (x ++ String GoPath.slash y)
  = if Str.is_empty x then true else GoPath.rooted x.
Proof. destruct x; reflexivity. Qed.

Lemma plain_not_dotdot (s : string) : plain s = true -> (s =? "..")%string = false.
Proof.
  unfold plain. intros H.
  apply andb_true_iff in H. destruct H as [_ H].
  apply negb_true_iff in H. exact H.
Qed.

Lemma plain_no_slash (s : string) : plain s = true -> has_slash s = false.
Proof.
  unfold plain. intros H.
  apply andb_true_iff in H. destruct H as [H _].
  apply andb_true_iff in H. destruct H as [H _].
  apply andb_true_iff in H. destruct H as [_ H].
  apply negb_true_iff in H. exact H.
Qed.

(** [path.Clean] cancels a plain element against the [..] after it. *)
Lemma Clean_dotdot (x s t : string) :
  plain s = true ->
  GoPath.Clean (x ++ String GoPath.slash (s ++ String GoPath.slash (".." ++ String GoPath.slash t)))
  = GoPath.Clean (x ++ String GoPath.slash t).
Proof.
  intros Hs. unfold GoPath.Clean.
  rewrite !is_empty_append, !rooted_append.
  assert (Hsegs : forall root,
             GoPath.clean_segments root
               (Str.split GoPath.slash
                  (x ++ String GoPath.slash
                          (s ++ String GoPath.slash (".." ++ String GoPath.slash t))))
             = GoPath.clean_segments root (Str.split GoPath.slash (x ++ String GoPath.slash t))).
  { intros root. unfold GoPath.clean_segments.
    rewrite !split_append.
    rewrite (split_no_slash s (plain_no_slash s Hs)).
    rewrite (split_no_slash ".." eq_refl).
    rewrite !fold_left_app. cbn [fold_left].
    rewrite (plain_step root _ s Hs).
    unfold GoPath.clean_step at 2.
    change (".." =? "")%string with false. change (".." =? ".")%string with false.
    change (".." =? "..")%string with true. cbv iota.
    rewrite (plain_not_dotdot s Hs). reflexivity. }
  rewrite !Hsegs. reflexivity.
Qed.

Lemma append_String (x : string) (ch : ascii) (y z : string) :
  x ++ String ch (y ++ z) = (x ++ String ch y) ++ z.
Proof. rewrite append_assoc. reflexivity. Qed.

Lemma Clean_climbs (x kind t : string) :
  plain kind = true ->
  GoPath.Clean (x ++ "/api/dashboards/" ++ kind ++ "/../../" ++ t)
  = GoPath.Clean (x ++ "/api/" ++ t).
Proof.
  intros Hk.
  change (x ++ "/api/dashboards/" ++ kind ++ "/../../" ++ t)
    with (x ++ String GoPath.slash
            ("api/dashboards" ++ String GoPath.slash
               (kind ++ String GoPath.slash
                  (".." ++ String GoPath.slash (".." ++ String GoPath.slash t))))).
  rewrite (append_String x GoPath.slash "api/dashboards").
  rewrite (Clean_dotdot _ kind _ Hk).
  rewrite <- (append_String x GoPath.slash "api/dashboards").
  change (x ++ String GoPath.slash
            ("api/dashboards" ++ String GoPath.slash (".." ++ String GoPath.slash t)))
    with (x ++ String GoPath.slash
            ("api" ++ String GoPath.slash
               ("dashboards" ++ String GoPath.slash (".." ++ String GoPath.slash t)))).
  rewrite (append_String x GoPath.slash "api").
  rewrite (Clean_dotdot _ "dashboards" t eq_refl).
  rewrite <- (append_String x GoPath.slash "api"). reflexivity.
Qed.

(** The path of a request for [/api/dashboards/uid/] or [/api/dashboards/db/]
    followed by [../../t] is the path of a request for [/api/t]. *)
Lemma request_url_climbs (c : Client) (kind t : string) (query : Values) :
  plain kind = true ->
  request_url c ("/api/dashboards/" ++ kind ++ "/" ++ "../../" ++ t) query
  = request_url c ("/api/" ++ t) query.
Proof.
  intros Hk. unfold request_url. f_equal.
  unfold GoPath.Join. cbn [forallb Str.is_empty append andb].
  destruct (Path (baseURL c)) as [|ch base]; cbn [Str.is_empty andb].
  - exact (Clean_climbs "" kind t Hk).
  - cbn [GoPath.join_buf negb orb Str.is_empty append].
    exact (Clean_climbs (String ch (base ++ "/")) kind t Hk).
Qed.

(** A uid or slug goes into the request path as it is, and [path.Join]
    cleans what comes out: for a uid or slug that starts with [../../],
    [DashboardByUID], [Dashboard], [DeleteDashboardByUID] and
    [DeleteDashboard] do exactly what [dashboard] and [deleteDashboard] do
    for the path [/api/] followed by the rest, whatever the base path, the
    configuration and the transport. *)
Theorem dashboard_paths_climb (w : World) (c : Client) (t : string) :
  DashboardByUID w c ("../../" ++ t) = dashboard w c ("/api/" ++ t)
  /\ Dashboard w c ("../../" ++ t) = dashboard w c ("/api/" ++ t)
  /\ DeleteDashboardByUID w c ("../../" ++ t) = deleteDashboard w c ("/api/" ++ t)
  /\ DeleteDashboard w c ("../../" ++ t) = deleteDashboard w c ("/api/" ++ t).
Proof.
  unfold DashboardByUID, Dashboard, DeleteDashboardByUID, DeleteDashboard,
    dashboard, deleteDashboard.
  rewrite (request_same_url (T := pointer Dashboard_) w c "GET"
             ("/api/dashboards/uid/" ++ "../../" ++ t) ("/api/" ++ t) [] None _
             (request_url_climbs c "uid" t [] eq_refl)).
  rewrite (request_same_url (T := pointer Dashboard_) w c "GET"
             ("/api/dashboards/db/" ++ "../../" ++ t) ("/api/" ++ t) [] None _
             (request_url_climbs c "db" t [] eq_refl)).
  rewrite (request_same_url (T := JSON.object) w c "DELETE"
             ("/api/dashboards/uid/" ++ "../../" ++ t) ("/api/" ++ t) [] None None
             (request_url_climbs c "uid" t [] eq_refl)).
  rewrite (request_same_url (T := JSON.object) w c "DELETE"
             ("/api/dashboards/db/" ++ "../../" ++ t) ("/api/" ++ t) [] None None
             (request_url_climbs c "db" t [] eq_refl)).
  repeat split.
Qed.

(** ** Outcomes of the dashboard calls *)

(** [deleteDashboard] does not look at the body.  With logging off and a
    request that builds, when the answers to the requests it sends in
    rounds 0 to j-1 (j <= NumRetries) are retried and the request of round
    [j] is answered with a status below 500 other than 429, it makes j+1
    sends and returns nil for every status below 400, whatever the body,
    and the status error otherwise. *)
Theorem deleteDashboard_outcome (w : World) (c : Client) (path : string)
    (j : nat) (status : Z) (body : string) :
  (Z.of_nat j <= NumRetries (config c))%Z ->
  logging w = false ->
  buildable w c "DELETE" path [] = true ->
  (forall i, i < j -> retried (round_answer w c "DELETE" path [] None i) = true) ->
  answers (round_answer w c "DELETE" path [] None j) status body ->
  (status < 500)%Z -> status <> 429%Z ->
  let run := deleteDashboard w c path in
  attempts (fst run) = S j
  /\ snd run = if (status >=? 400)%Z then Err (StatusError status body) else Ok tt.
Proof.
  intros Hj Hq Hb Hretried Ha Hlt Hne run.
  destruct (request_after_retries (T := JSON.object) w c "DELETE" path [] None None
              j status body Hj Hq Hb Hretried Ha Hlt Hne) as (tr & Hrun & Hat & _ & _).
  subst run. unfold deleteDashboard. rewrite Hrun.
  destruct (status >=? 400)%Z; cbn [fst snd]; auto.
Qed.

Lemma deleteDashboard_outcome_witness :
  let run := DeleteDashboardByUID (world "" [] second_time_lucky) (plain_client "" 1)
               "abc" in
  attempts (fst run) = 2 /\ snd run = Ok tt.
Proof.
  apply (deleteDashboard_outcome (world "" [] second_time_lucky) (plain_client "" 1)
           "/api/dashboards/uid/abc" 1 200%Z "{}").
  - cbn; lia.
  - reflexivity.
  - reflexivity.
  - intros i Hi. assert (i = 0) as -> by lia. reflexivity.
  - split; [reflexivity|]. eexists. repeat split; reflexivity.
  - lia.
  - lia.
Defined.

Lemma pointer_fromJSON {T : Type} {TT : JSON.Target T} {Z0 : Zero T}
    (j : JSON.value) (x : T) :
  JSON.fromJSON j (addr x)
  = match j with
    | JSON.JNull => JSON.Decoded nil
    | _ => bind (JSON.fromJSON j x) (fun v => JSON.Decoded (addr v))
    end.
Proof. reflexivity. Qed.

(** What [dashboard] makes of a final answer (logging off, a request that
    builds, the answers to the requests of rounds 0 to j-1 retried and the
    request of round [j] answered with a final status, j <= NumRetries):
    it makes j+1 sends.  A status of
    400 or more gives the status error.  Below 400, a body that is not
    JSON gives the syntax error; the body [null] sets the result pointer
    to nil, and the assignment to its [FolderID] panics; any other value
    is decoded into a zero [Dashboard], and the result is the decoding
    error or the dashboard with [FolderID] overwritten by the folder id of
    its meta data. *)
Theorem dashboard_outcomes (w : World) (c : Client) (path : string)
    (j : nat) (status : Z) (body : string) :
  (Z.of_nat j <= NumRetries (config c))%Z ->
  logging w = false ->
  buildable w c "GET" path [] = true ->
  (forall i, i < j -> retried (round_answer w c "GET" path [] None i) = true) ->
  answers (round_answer w c "GET" path [] None j) status body ->
  (status < 500)%Z -> status <> 429%Z ->
  let run := dashboard w c path in
  attempts (fst run) = S j
  /\ snd run
     = if (status >=? 400)%Z then Err (StatusError status body)
       else match JSON.parse body with
            | None => Err (UnmarshalError JSON.SyntaxError)
            | Some JSON.JNull => Panic NilPointerDereference
            | Some j =>
                match JSON.fromJSON j (zero : Dashboard_) with
                | JSON.Decoded d => Ok (set_FolderID d (Folder (Meta d)))
                | JSON.Failed e => Err (UnmarshalError e)
                end
            end.
Proof.
  intros Hj Hq Hb Hretried Ha Hlt Hne run.
  destruct (request_after_retries (T := pointer Dashboard_) w c "GET" path [] None
              (Some (addr zero)) j status body Hj Hq Hb Hretried Ha Hlt Hne)
    as (tr & Hrun & Hat & _ & _).
  subst run. unfold dashboard. rewrite Hrun.
  destruct (status >=? 400)%Z; [cbn [fst snd]; auto|].
  unfold JSON.Unmarshal.
  destruct (JSON.parse body) as [v|]; [|cbn [fst snd]; auto].
  rewrite pointer_fromJSON.
  destruct v; cbn [fst snd]; auto;
    match goal with
    | |- context [JSON.fromJSON ?v zero] =>
        destruct (JSON.fromJSON v (zero : Dashboard_)); cbn [bind fst snd]; auto
    end.
Qed.

Lemma dashboard_outcomes_witness :
  let run := DashboardByUID (world "" [] (fun _ => answer 200 "null")) (plain_client "" 0)
               "abc" in
  attempts (fst run) = 1 /\ snd run = Panic NilPointerDereference.
Proof.
  apply (dashboard_outcomes (world "" [] (fun _ => answer 200 "null")) (plain_client "" 0)
           "/api/dashboards/uid/abc" 0 200%Z "null").
  - cbn; lia.
  - reflexivity.
  - reflexivity.
  - intros i Hi. lia.
  - split; [reflexivity|]. eexists. repeat split; reflexivity.
  - lia.
  - lia.
Defined.

(** The first request of the legacy [request] carries the body it was
    given. *)
Lemma request_first_body {T : Type} {TT : JSON.Target T}
    (w : World) (c : Client) (method requestPath : string) (query : Values)
    (bytes : string) (responseStruct : option T) :
  match sent_bodies (fst (request w c method requestPath query
                            (Some (BytesBuffer bytes)) responseStruct)) with
  | [] => True
  | first :: _ => first = Some bytes
  end.
Proof.
  unfold sent_bodies. rewrite request_sends_what_its_loop_sends.
  pose proof (request_loop_first_and_retries w c method requestPath query (iterations c)
                (request_start c (Some (BytesBuffer bytes)))) as H.
  destruct (sent_requests _) as [|first rest]; [exact I|].
  destruct H as [H _]. cbn [map]. rewrite H.
  unfold request_start; cbn [Gapi.body].
  destruct (NumRetries (config c) >? 0)%Z; reflexivity.
Qed.

(** What [post_dashboard] makes of a final answer to the request of
    round [j], the answers of the rounds before being retried. *)
Lemma post_dashboard_outcomes (w : World) (c : Client) (data : string)
    (j : nat) (status : Z) (body : string) :
  (Z.of_nat j <= NumRetries (config c))%Z ->
  logging w = false ->
  buildable w c "POST" "/api/dashboards/db" [] = true ->
  (forall i, i < j -> retried (round_answer w c "POST" "/api/dashboards/db" []
                                       (Some (BytesBuffer data)) i) = true) ->
  answers (round_answer w c "POST" "/api/dashboards/db" []
                                       (Some (BytesBuffer data)) j) status body ->
  (status < 500)%Z -> status <> 429%Z ->
  let run := post_dashboard w c (inl data) in
  attempts (fst run) = S j
  /\ hd_error (sent_bodies (fst run)) = Some (Some data)
  /\ snd run
     = if (status >=? 400)%Z then Err (StatusError status body)
       else match JSON.parse body with
            | None => Err (UnmarshalError JSON.SyntaxError)
            | Some JSON.JNull => Ok nil
            | Some j =>
                match JSON.fromJSON j (zero : DashboardSaveResponse) with
                | JSON.Decoded saved => Ok (addr saved)
                | JSON.Failed e => Err (UnmarshalError e)
                end
            end.
Proof.
  intros Hj Hq Hb Hretried Ha Hlt Hne run.
  destruct (request_after_retries (T := pointer DashboardSaveResponse) w c "POST"
              "/api/dashboards/db" [] (Some (BytesBuffer data))
              (Some (addr zero)) j status body Hj Hq Hb Hretried Ha Hlt Hne)
    as (tr & Hrun & Hat & _ & _).
  pose proof (request_first_body (T := pointer DashboardSaveResponse) w c "POST"
                "/api/dashboards/db" [] data (Some (addr zero))) as Hfirst.
  subst run. unfold post_dashboard.
  rewrite Hrun in *. cbn [fst] in Hfirst.
  assert (Hhd : hd_error (sent_bodies tr) = Some (Some data)).
  { assert (Hlen : length (sent_bodies tr) = S j).
    { unfold sent_bodies. rewrite length_map, <- attempts_sent_requests. exact Hat. }
    destruct (sent_bodies tr) as [|first rest]; [discriminate|].
    cbn. rewrite Hfirst. reflexivity. }
  destruct (status >=? 400)%Z; [cbn [fst snd]; auto|].
  unfold JSON.Unmarshal.
  destruct (JSON.parse body) as [v|]; [|cbn [fst snd]; auto].
  rewrite pointer_fromJSON.
  destruct v; cbn [fst snd]; auto;
    match goal with
    | |- context [JSON.fromJSON ?v zero] =>
        destruct (JSON.fromJSON v (zero : DashboardSaveResponse)); cbn [bind fst snd]; auto
    end.
Qed.

(** What [NewDashboard] does once the dashboard is marshaled (logging off,
    a request that builds, the answers to the requests of rounds 0 to j-1
    retried and the request of round [j] answered with a final status,
    j <= NumRetries): it makes j+1 sends, the first of which carries the
    marshaled bytes.  A status of 400 or more gives the status error.
    Below 400, a body that is not JSON gives the syntax error; the body
    [null] gives a nil response and no error; any other value is decoded
    into a zero [DashboardSaveResponse], and the result is that response
    or the decoding error. *)
Theorem NewDashboard_outcomes {M : Marshaler Dashboard_} (w : World) (c : Client)
    (dashboard : Dashboard_) (data : string) (j : nat) (status : Z) (body : string) :
  Marshal dashboard = inl data ->
  (Z.of_nat j <= NumRetries (config c))%Z ->
  logging w = false ->
  buildable w c "POST" "/api/dashboards/db" [] = true ->
  (forall i, i < j -> retried (round_answer w c "POST" "/api/dashboards/db" []
                                       (Some (BytesBuffer data)) i) = true) ->
  answers (round_answer w c "POST" "/api/dashboards/db" []
                                       (Some (BytesBuffer data)) j) status body ->
  (status < 500)%Z -> status <> 429%Z ->
  let run := NewDashboard w c dashboard in
  attempts (fst run) = S j
  /\ hd_error (sent_bodies (fst run)) = Some (Some data)
  /\ snd run
     = if (status >=? 400)%Z then Err (StatusError status body)
       else match JSON.parse body with
            | None => Err (UnmarshalError JSON.SyntaxError)
            | Some JSON.JNull => Ok nil
            | Some j =>
                match JSON.fromJSON j (zero : DashboardSaveResponse) with
                | JSON.Decoded saved => Ok (addr saved)
                | JSON.Failed e => Err (UnmarshalError e)
                end
            end.
Proof.
  intros Hm. unfold NewDashboard. rewrite Hm. apply post_dashboard_outcomes.
Qed.

Lemma NewDashboard_outcomes_witness :
  let run := NewDashboard (M := {| Marshal := fun _ : Dashboard_ => inl "{}" |})
               (world "" [] (fun _ => answer 200 saved_body)) (plain_client "" 0) zero in
  attempts (fst run) = 1
  /\ hd_error (sent_bodies (fst run)) = Some (Some "{}")
  /\ snd run = Ok (addr {| SaveResponse.Slug := ""; SaveResponse.ID := 12;
                           SaveResponse.UID := "abc"; SaveResponse.Status := "success";
                           SaveResponse.Version := 3 |}).
Proof.
  apply (NewDashboard_outcomes (M := {| Marshal := fun _ : Dashboard_ => inl "{}" |})
           (world "" [] (fun _ => answer 200 saved_body)) (plain_client "" 0) zero
           "{}" 0 200%Z saved_body).
  - reflexivity.
  - cbn; lia.
  - reflexivity.
  - reflexivity.
  - intros i Hi. lia.
  - split; [reflexivity|]. eexists. repeat split; reflexivity.
  - lia.
  - lia.
Defined.

(** [SaveDashboard] marshals a map of the model under [dashboard] and the
    flag under [overwrite], and from there on does what [NewDashboard]
    does (logging off, a request that builds, the answers to the requests
    of rounds 0 to j-1 retried and the request of round [j] answered with
    a final status): j+1 sends, the first with the marshaled bytes; the
    status error
    for a status of 400 or more; below 400 the syntax error for a body
    that is not JSON, a nil response and no error for the body [null],
    else the decoded [DashboardSaveResponse] or the decoding error. *)
Theorem SaveDashboard_outcomes {M : Marshaler JSON.object} (w : World) (c : Client)
    (model : JSON.object) (overwrite : bool) (data : string)
    (j : nat) (status : Z) (body : string) :
  Marshal (Some [("dashboard", value_of_object model); ("overwrite", JSON.JBool overwrite)])
  = inl data ->
  (Z.of_nat j <= NumRetries (config c))%Z ->
  logging w = false ->
  buildable w c "POST" "/api/dashboards/db" [] = true ->
  (forall i, i < j -> retried (round_answer w c "POST" "/api/dashboards/db" []
                                       (Some (BytesBuffer data)) i) = true) ->
  answers (round_answer w c "POST" "/api/dashboards/db" []
                                       (Some (BytesBuffer data)) j) status body ->
  (status < 500)%Z -> status <> 429%Z ->
  let run := SaveDashboard w c model overwrite in
  attempts (fst run) = S j
  /\ hd_error (sent_bodies (fst run)) = Some (Some data)
  /\ snd run
     = if (status >=? 400)%Z then Err (StatusError status body)
       else match JSON.parse body with
            | None => Err (UnmarshalError JSON.SyntaxError)
            | Some JSON.JNull => Ok nil
            | Some j =>
                match JSON.fromJSON j (zero : DashboardSaveResponse) with
                | JSON.Decoded saved => Ok (addr saved)
                | JSON.Failed e => Err (UnmarshalError e)
                end
            end.
Proof.
  intros Hm.
  pose proof (post_dashboard_outcomes w c data j status body) as H.
  rewrite <- Hm in H. exact H.
Qed.

Lemma SaveDashboard_outcomes_witness :
  let run := SaveDashboard (M := {| Marshal := fun _ : JSON.object => inl nil_model_wrapper |})
               (world "" [] second_time_lucky) (plain_client "" 1) None false in
  attempts (fst run) = 2
  /\ hd_error (sent_bodies (fst run)) = Some (Some nil_model_wrapper)
  /\ snd run = Ok (addr {| SaveResponse.Slug := ""; SaveResponse.ID := 0;
                           SaveResponse.UID := ""; SaveResponse.Status := "";
                           SaveResponse.Version := 0 |}).
Proof.
  apply (SaveDashboard_outcomes (M := {| Marshal := fun _ : JSON.object => inl nil_model_wrapper |})
           (world "" [] second_time_lucky) (plain_client "" 1) None false
           nil_model_wrapper 1 200%Z "{}").
  - reflexivity.
  - cbn; lia.
  - reflexivity.
  - reflexivity.
  - intros i Hi. assert (i = 0) as -> by lia. reflexivity.
  - split; [reflexivity|]. eexists. repeat split; reflexivity.
  - lia.
  - lia.
Defined.

(** ** [Dashboards]: paging *)

Lemma Values_Set_again (v : Values) (key a b : string) :
  Values_Set (Values_Set v key a) key b = Values_Set v key b.
Proof.
  induction v as [|[k vs] rest IH].
  - cbn. rewrite String.eqb_refl. reflexivity.
  - cbn [Values_Set]. destruct (k =? key)%string eqn:E.
    + cbn [Values_Set]. rewrite String.eqb_refl. reflexivity.
    + cbn [Values_Set]. rewrite E, IH. reflexivity.
Qed.

Section Paging.

Variable E : Type.
Variable slices : JSON.Target (list E).
Variable w : World.
Variable c : Client.

(** The answer to the request for page [i], decoded into the slice that
    holds [previous]. *)
Local Abbreviation fetch i previous :=
  (request w c "GET" "/api/search" (page_query (Z.of_nat i)) None (Some previous)).

Variable pages : nat -> list E.
Variable traces : nat -> trace.

(** [m] full pages in a row, from page [a + 1] on: the loop appends each
    and goes on. *)
Lemma Dashboards_loop_full_pages (m : nat) :
  forall (a k : nat) (query : Values) (dashboards : list E),
    (forall x, Values_Set query "page" x
               = Values_Set (Values_Set (Values_Set [] "type" "dash-db")
                                        "limit" (FormatInt10 limit)) "page" x) ->
    (forall i, a < i <= a + m ->
               fetch i (pages (i - 1)) = (traces i, Ok (Some (pages i)))
               /\ (limit <= Z.of_nat (length (pages i)))%Z) ->
    exists query',
      (forall x, Values_Set query' "page" x
                 = Values_Set (Values_Set (Values_Set [] "type" "dash-db")
                                          "limit" (FormatInt10 limit)) "page" x)
      /\ Dashboards_loop slices w c (m + k) (Z.of_nat a) query (pages a) dashboards
         = after (concat (map traces (seq (S a) m)))
                 (Dashboards_loop slices w c k (Z.of_nat (a + m)) query' (pages (a + m))
                    (dashboards ++ concat (map pages (seq (S a) m)))%list).
Proof.
  induction m as [|m IH]; intros a k query dashboards Hq Hfull.
  - exists query. split; [exact Hq|].
    cbn [Nat.add seq map concat]. rewrite Nat.add_0_r, app_nil_r.
    destruct (Dashboards_loop slices w c k (Z.of_nat a) query (pages a) dashboards).
    reflexivity.
  - destruct (Hfull (S a)) as [Hfetch Hlen]; [lia|].
    cbn [Nat.add Dashboards_loop]. cbv zeta.
    rewrite Hq. fold (page_query (Z.of_nat a + 1)).
    replace (Z.of_nat a + 1)%Z with (Z.of_nat (S a)) by lia.
    replace (S a - 1) with a in Hfetch by lia.
    rewrite Hfetch.
    destruct (Z.of_nat (length (pages (S a))) <? limit)%Z eqn:Hshort;
      [apply Z.ltb_lt in Hshort; lia|].
    destruct (IH (S a) k (page_query (Z.of_nat (S a))) (dashboards ++ pages (S a))%list)
      as (query' & Hq' & Hloop).
    { intros x. unfold page_query. apply Values_Set_again. }
    { intros i Hi. apply Hfull. lia. }
    exists query'. split; [exact Hq'|].
    rewrite Hloop. unfold after; cbn [fst snd seq map concat].
    replace (S a + m) with (a + S m) by lia.
    rewrite <- !app_assoc. reflexivity.
Qed.

End Paging.

(** [Dashboards] returns once a page is short.  When the requests for
    pages 1 to p+1 succeed, each decoded into the slice that holds the page
    before it, pages 1 to p have at least 1000 elements and page p+1 has
    fewer, [Dashboards] returns after exactly these p+1 requests, without
    error, a slice that ends with the elements of page p+1 as they were
    decoded, behind as many elements as pages 1 to p had together.
    ([fuel] bounds the rounds of the loop; more than [p] are enough.) *)
Theorem Dashboards_returns_after_a_short_page {E : Type} (slices : JSON.Target (list E))
    (w : World) (c : Client) (pages : nat -> list E) (traces : nat -> trace) (p : nat) :
  pages 0 = [] ->
  (forall i, 1 <= i <= S p ->
             request w c "GET" "/api/search" (page_query (Z.of_nat i)) None
                     (Some (pages (i - 1)))
             = (traces i, Ok (Some (pages i)))) ->
  (forall i, 1 <= i <= p -> (limit <= Z.of_nat (length (pages i)))%Z) ->
  (Z.of_nat (length (pages (S p))) < limit)%Z ->
  forall fuel, p < fuel ->
    exists earlier,
      Dashboards slices w c fuel
      = (concat (map traces (seq 1 (S p))), Some (Ok (earlier ++ pages (S p))%list))
      /\ length earlier = list_sum (map (fun i => length (pages i)) (seq 1 p)).
Proof.
  intros H0 Hfetch Hfull Hshort fuel Hfuel.
  exists (concat (map pages (seq 1 p))). split.
  - unfold Dashboards. cbv zeta.
    replace fuel with (p + S (fuel - S p)) by lia.
    rewrite <- H0 at 1.
    destruct (Dashboards_loop_full_pages E slices w c pages traces p 0 (S (fuel - S p))
                (Values_Set (Values_Set [] "type" "dash-db") "limit" (FormatInt10 limit)) [])
      as (query' & Hq' & Hloop).
    { reflexivity. }
    { intros i Hi. split; [apply Hfetch | apply Hfull]; lia. }
    change (Z.of_nat 0) with 0%Z in Hloop. rewrite Hloop.
    cbn [Nat.add Dashboards_loop app]. cbv zeta.
    rewrite Hq'. fold (page_query (Z.of_nat p + 1)).
    replace (Z.of_nat p + 1)%Z with (Z.of_nat (S p)) by lia.
    pose proof (Hfetch (S p) ltac:(lia)) as Hlast.
    replace (S p - 1) with p in Hlast by lia.
    rewrite Hlast.
    apply Z.ltb_lt in Hshort. rewrite Hshort.
    unfold after; cbn [fst snd].
    rewrite !seq_S, !map_app, !concat_app. cbn [Nat.add map concat].
    rewrite !app_nil_r. reflexivity.
  - rewrite length_concat, map_map. reflexivity.
Qed.

Lemma Dashboards_returns_after_a_short_page_witness :
  exists earlier,
    snd (Dashboards values_target (search_server (answer 200 "[7]")) (plain_client "" 0) 2)
    = Some (Ok (earlier ++ [JSON.JNumber "7"])%list)
    /\ length earlier = 1000.
Proof.
  destruct (Dashboards_returns_after_a_short_page values_target
              (search_server (answer 200 "[7]")) (plain_client "" 0) two_pages
              (fun i => [EvDo 0 (built_request (search_server (answer 200 "[7]"))
                                   (plain_client "" 0) "GET" "/api/search"
                                   (page_query (Z.of_nat i)) None)]) 1)
    with (fuel := 2) as (earlier & Hrun & Hlen).
  - reflexivity.
  - intros i Hi. assert (i = 1 \/ i = 2) as [-> | ->] by lia; vm_compute; reflexivity.
  - intros i Hi. assert (i = 1) as -> by lia. vm_compute. discriminate.
  - vm_compute. reflexivity.
  - lia.
  - exists earlier. rewrite Hrun. split; [reflexivity|].
    rewrite Hlen. vm_compute. reflexivity.
Defined.

(** When the request for a page fails, after [p] full pages, [Dashboards]
    returns that error and nothing of the pages it has fetched. *)
Theorem Dashboards_fails_with_the_page {E : Type} (slices : JSON.Target (list E))
    (w : World) (c : Client) (pages : nat -> list E) (traces : nat -> trace) (p : nat)
    (tr : trace) (e : error) :
  pages 0 = [] ->
  (forall i, 1 <= i <= p ->
             request w c "GET" "/api/search" (page_query (Z.of_nat i)) None
                     (Some (pages (i - 1)))
             = (traces i, Ok (Some (pages i)))
             /\ (limit <= Z.of_nat (length (pages i)))%Z) ->
  request w c "GET" "/api/search" (page_query (Z.of_nat (S p))) None (Some (pages p))
  = (tr, Err e) ->
  forall fuel, p < fuel ->
    Dashboards slices w c fuel = ((concat (map traces (seq 1 p)) ++ tr)%list, Some (Err e)).
Proof.
  intros H0 Hfull Hlast fuel Hfuel.
  unfold Dashboards. cbv zeta.
  replace fuel with (p + S (fuel - S p)) by lia.
  rewrite <- H0 at 1.
  destruct (Dashboards_loop_full_pages E slices w c pages traces p 0 (S (fuel - S p))
              (Values_Set (Values_Set [] "type" "dash-db") "limit" (FormatInt10 limit)) [])
    as (query' & Hq' & Hloop).
  { reflexivity. }
  { intros i Hi. apply Hfull. lia. }
  change (Z.of_nat 0) with 0%Z in Hloop. rewrite Hloop.
  cbn [Nat.add Dashboards_loop app]. cbv zeta.
  rewrite Hq'. fold (page_query (Z.of_nat p + 1)).
  replace (Z.of_nat p + 1)%Z with (Z.of_nat (S p)) by lia.
  rewrite Hlast. reflexivity.
Qed.

Lemma Dashboards_fails_with_the_page_witness :
  snd (Dashboards values_target (search_server (answer 403 "denied")) (plain_client "" 0) 2)
  = Some (Err (StatusError 403 "denied")).
Proof.
  rewrite (Dashboards_fails_with_the_page values_target
             (search_server (answer 403 "denied")) (plain_client "" 0) two_pages
             (fun i => [EvDo 0 (built_request (search_server (answer 403 "denied"))
                                  (plain_client "" 0) "GET" "/api/search"
                                  (page_query (Z.of_nat i)) None)]) 1
             [EvDo 0 (built_request (search_server (answer 403 "denied"))
                        (plain_client "" 0) "GET" "/api/search" (page_query 2) None)]
             (StatusError 403 "denied")).
  - reflexivity.
  - reflexivity.
  - intros i Hi. assert (i = 1) as -> by lia.
    split; [vm_compute; reflexivity | vm_compute; discriminate].
  - vm_compute. reflexivity.
  - lia.
Defined.

(** [Dashboards] has no bound of its own: as long as every page comes
    with at least 1000 elements it asks for the next one, so against a
    server whose pages are all full it has not returned after any number
    of rounds. *)
Theorem Dashboards_runs_on_full_pages {E : Type} (slices : JSON.Target (list E))
    (w : World) (c : Client) (pages : nat -> list E) (traces : nat -> trace) :
  pages 0 = [] ->
  (forall i, 1 <= i ->
             request w c "GET" "/api/search" (page_query (Z.of_nat i)) None
                     (Some (pages (i - 1)))
             = (traces i, Ok (Some (pages i)))
             /\ (limit <= Z.of_nat (length (pages i)))%Z) ->
  forall fuel,
    Dashboards slices w c fuel = (concat (map traces (seq 1 fuel)), None).
Proof.
  intros H0 Hfull fuel.
  unfold Dashboards. cbv zeta.
  replace fuel with (fuel + 0) at 1 by lia.
  rewrite <- H0 at 1.
  destruct (Dashboards_loop_full_pages E slices w c pages traces fuel 0 0
              (Values_Set (Values_Set [] "type" "dash-db") "limit" (FormatInt10 limit)) [])
    as (query' & Hq' & Hloop).
  { reflexivity. }
  { intros i Hi. apply Hfull. lia. }
  change (Z.of_nat 0) with 0%Z in Hloop. rewrite Hloop.
  cbn [Dashboards_loop]. unfold after; cbn [fst snd]. rewrite app_nil_r. reflexivity.
Qed.

Lemma Dashboards_runs_on_full_pages_witness :
  snd (Dashboards values_target (world "" [] (fun _ => answer 200 full_page))
         (plain_client "" 0) 3) = None
  /\ attempts (fst (Dashboards values_target (world "" [] (fun _ => answer 200 full_page))
                      (plain_client "" 0) 3)) = 3.
Proof.
  rewrite (Dashboards_runs_on_full_pages values_target
             (world "" [] (fun _ => answer 200 full_page)) (plain_client "" 0)
             (fun i => match i with 0 => [] | _ => repeat (JSON.JNumber "0") 1000 end)
             (fun i => [EvDo 0 (built_request (world "" [] (fun _ => answer 200 full_page))
                                  (plain_client "" 0) "GET" "/api/search"
                                  (page_query (Z.of_nat i)) None)])).
  - split; reflexivity.
  - reflexivity.
  - intros i Hi. destruct i as [|i]; [lia|].
    split; [|vm_compute; discriminate].
    rewrite (request_first_answer
               (world "" [] (fun _ => answer 200 full_page)) (plain_client "" 0)
               "GET" "/api/search" (page_query (Z.of_nat (S i))) None _ 200%Z full_page).
    + reflexivity.
    + cbn; lia.
    + reflexivity.
    + reflexivity.
    + split; [reflexivity|]. eexists. repeat split; reflexivity.
    + reflexivity.
Defined.
